(** * POS-SandBox: a shallow embedding of the client and server logic

    The development follows the JavaScript sources:
    - [public/js/monitoring.js]  (class MonitoringManager)    -> Module Monitoring
    - [public/js/config.js]      (class ConfigurationManager) -> Module Config
    - the serverless server      (app.post('/api/auth/login')) -> Module Login
    - the reports module         (class ReportsManager)       -> Module Reports

    Conventions of the embedding.
    - A JavaScript number is a rational [Q]: arithmetic is exact, so the
      rounding of IEEE doubles is not part of the model.  A number that can be
      NaN is an [option], [None] standing for NaN.
    - A JavaScript string is a [string]; every [ascii] stands for one code
      unit, and code units above 255 are outside the model (a character
      beyond them in a message of the sources is kept as its UTF-8 bytes).
    - An object is the list of its own properties in insertion order; a
      property read falls back on [Object.prototype].
    - Host readings ([Date.now()], [performance.now()], [Math.random()],
      [new Date().toISOString()]) are inputs of the operation that reads
      them; the parsers and printers of the host are parameters.
    - DOM writes and [console.log] are not modelled; [localStorage] entries
      that the code writes are fields of the modelled state. *)

From Stdlib Require Import ZArith QArith Qround String Ascii List Lia Bool.
From Stdlib Require Import DecimalString Lqa.
From stdpp Require Import base list sorting strings.
Import ListNotations.

Set Warnings "-register-all".

(** ** JavaScript values *)

Module JS.

(** The values that the sources handle; [Native name] is a built-in
    function, and the property list of an object is in insertion order. *)
Inductive Value : Type :=
| Undefined
| Null
| Boolean (b : bool)
| Number (q : Q)
| Str (s : string)
| Object (fields : list (string * Value))
| Array (items : list Value)
| Native (name : string).

(** [typeof v === 'object'] : objects, arrays and [null]. *)
Definition typeof_is_object (v : Value) : bool :=
  match v with
  | Null | Object _ | Array _ => true
  | _ => false
  end.

Definition is_null (v : Value) : bool :=
  match v with Null => true | _ => false end.

Definition is_nullish (v : Value) : bool :=
  match v with Null | Undefined => true | _ => false end.

(** ToBoolean. *)
Definition truthy (v : Value) : bool :=
  match v with
  | Undefined | Null => false
  | Boolean b => b
  | Number q => negb (Qeq_bool q 0)
  | Str s => negb (String.eqb s EmptyString)
  | Object _ | Array _ | Native _ => true
  end.

(** [s || d] for a string-valued property that may be absent. *)
Definition str_or (o : option string) (d : string) : string :=
  match o with
  | Some s => if String.eqb s EmptyString then d else s
  | None => d
  end.

(** [!s] for a string-valued property that may be absent. *)
Definition str_falsy (o : option string) : bool :=
  match o with
  | Some s => String.eqb s EmptyString
  | None => true
  end.

(** [arr.slice(-n)] for [n >= 0]: the last [n] elements; [-0] is [0], so
    [slice(-0)] is the whole array. *)
Definition slice_last {A : Type} (n : nat) (l : list A) : list A :=
  if Nat.eqb n 0 then l else skipn (length l - n) l.

(** The double quote, as a one-character string. *)
Definition dquote : string := String (ascii_of_nat 34) EmptyString.

(** [String(n)] for an integer [n]. *)
Definition string_of_Z (n : Z) : string := NilZero.string_of_int (Z.to_int n).

(** [Math.round]: the nearest integer, ties towards plus infinity. *)
Definition round (x : Q) : Z := Qfloor (x + (1 # 2))%Q.

(** [obj[k] = v] on the property list of an object: an existing property
    keeps its place, a new one goes last. *)
Fixpoint obj_set (k : string) (v : Value) (fields : list (string * Value))
  : list (string * Value) :=
  match fields with
  | [] => [(k, v)]
  | (k', v') :: rest =>
      if String.eqb k k' then (k', v) :: rest else (k', v') :: obj_set k v rest
  end.

(** [{ ...a, ...b }] on property lists. *)
Definition obj_spread (a b : list (string * Value)) : list (string * Value) :=
  fold_left (fun acc kv => obj_set (fst kv) (snd kv) acc) b a.

Fixpoint assoc {A : Type} (k : string) (l : list (string * A)) : option A :=
  match l with
  | [] => None
  | (k', v) :: l' => if String.eqb k k' then Some v else assoc k l'
  end.

Definition mem (k : string) (l : list string) : bool :=
  existsb (String.eqb k) l.

(** The function-valued properties of [Object.prototype], which every
    object literal inherits. *)
Definition Object_prototype_functions : list string :=
  [ "constructor"; "hasOwnProperty"; "isPrototypeOf"; "propertyIsEnumerable";
    "toLocaleString"; "toString"; "valueOf";
    "__defineGetter__"; "__defineSetter__"; "__lookupGetter__";
    "__lookupSetter__" ].

(** The property [k] as found on [Object.prototype]: one of its functions
    (the constructor is the function [Object]), or the prototype itself
    under [__proto__]. *)
Definition Object_prototype_get (k : string) : option Value :=
  if String.eqb k "__proto__" then Some (Object [])
  else if String.eqb k "constructor" then Some (Native "Object")
  else if mem k Object_prototype_functions then Some (Native k)
  else None.

(** The property read [obj[k]] on an object literal with the own
    properties [fields]: an own property, else an inherited one, else
    [undefined]. *)
Definition get (fields : list (string * Value)) (k : string) : Value :=
  match assoc k fields with
  | Some v => v
  | None =>
      match Object_prototype_get k with
      | Some v => v
      | None => Undefined
      end
  end.

(** [Object.keys(obj)], for property names that are not array indices. *)
Definition keys (fields : list (string * Value)) : list string := map fst fields.

(** [String(v)], given the host's printer of numbers. *)
Fixpoint to_string (Number_toString : Q -> string) (v : Value) : string :=
  match v with
  | Undefined => "undefined"
  | Null => "null"
  | Boolean b => if b then "true" else "false"
  | Number q => Number_toString q
  | Str s => s
  | Object _ => "[object Object]"
  | Array items =>
      String.concat ","
        (map (fun x => if is_nullish x then EmptyString
                       else to_string Number_toString x) items)
  | Native name => "function " +:+ name +:+ "() { [native code] }"
  end.

(** [x / n] on numbers; [None] when [n] is zero, the result being NaN or an
    infinity then. *)
Definition div (x : Q) (n : Z) : option Q :=
  if Z.eqb n 0 then None else Some (x / inject_Z n)%Q.

End JS.

(** ** public/js/monitoring.js *)

Module Monitoring.

Record LogEntry := {
  id : Q;
  timestamp : string;
  level : string;
  message : string;
  module : string;
  details : JS.Value
}.

(** The argument of [addLog]: any of the properties may be absent. *)
Record LogInput := {
  in_timestamp : option string;
  in_level : option string;
  in_message : option string;
  in_module : option string;
  in_details : JS.Value
}.

Record MetricPoint := { point_timestamp : Z; value : Q }.

Record Metrics := {
  responseTime : list MetricPoint;
  successRate : list MetricPoint;
  errorRate : list MetricPoint;
  activeOrders : Z;
  systemStatus : string
}.

Record PerformanceData := {
  apiCalls : Z;
  successfulCalls : Z;
  failedCalls : Z;
  totalResponseTime : Q;
  averageResponseTime : option Q
}.

(** A value of the [window.apiCallTracker] map. *)
Record CallData := { startTime : Q; endpoint : string; method : string }.

(** [window.apiCallTracker]: a [Map] from call ids (numbers) to call
    data, in insertion order; keys are compared as numbers. *)
Definition Tracker := list (Q * CallData).

Fixpoint tracker_get (k : Q) (t : Tracker) : option CallData :=
  match t with
  | [] => None
  | (k', d) :: t' => if Qeq_bool k k' then Some d else tracker_get k t'
  end.

Definition tracker_has (k : Q) (t : Tracker) : bool :=
  match tracker_get k t with Some _ => true | None => false end.

Fixpoint tracker_set (k : Q) (d : CallData) (t : Tracker) : Tracker :=
  match t with
  | [] => [(k, d)]
  | (k', d') :: t' =>
      if Qeq_bool k k' then (k', d) :: t' else (k', d') :: tracker_set k d t'
  end.

Fixpoint tracker_delete (k : Q) (t : Tracker) : Tracker :=
  match t with
  | [] => []
  | (k', d') :: t' =>
      if Qeq_bool k k' then t' else (k', d') :: tracker_delete k t'
  end.

(** The manager together with the globals it reads and writes:
    [window.apiCallTracker] and its two [localStorage] entries. *)
Record Manager := {
  logs : list LogEntry;
  metrics : Metrics;
  performanceData : PerformanceData;
  isMonitoring : bool;
  apiCallTracker : option Tracker;
  stored_logs : option (list LogEntry);
  stored_metrics : option Metrics
}.

Definition maxLogEntries : nat := 1000.
Definition maxMetricPoints : nat := 50.

(** Host readings taken by one operation. *)
Record Host := {
  date_now : Z;
  iso_now : string;
  math_random : Q;
  performance_now : Q
}.

Definition set_logs (l : list LogEntry) (m : Manager) : Manager :=
  {| logs := l; metrics := metrics m; performanceData := performanceData m;
     isMonitoring := isMonitoring m; apiCallTracker := apiCallTracker m;
     stored_logs := stored_logs m; stored_metrics := stored_metrics m |}.

Definition set_metrics (x : Metrics) (m : Manager) : Manager :=
  {| logs := logs m; metrics := x; performanceData := performanceData m;
     isMonitoring := isMonitoring m; apiCallTracker := apiCallTracker m;
     stored_logs := stored_logs m; stored_metrics := stored_metrics m |}.

Definition set_performanceData (p : PerformanceData) (m : Manager) : Manager :=
  {| logs := logs m; metrics := metrics m; performanceData := p;
     isMonitoring := isMonitoring m; apiCallTracker := apiCallTracker m;
     stored_logs := stored_logs m; stored_metrics := stored_metrics m |}.

Definition set_isMonitoring (b : bool) (m : Manager) : Manager :=
  {| logs := logs m; metrics := metrics m; performanceData := performanceData m;
     isMonitoring := b; apiCallTracker := apiCallTracker m;
     stored_logs := stored_logs m; stored_metrics := stored_metrics m |}.

Definition set_apiCallTracker (t : option Tracker) (m : Manager) : Manager :=
  {| logs := logs m; metrics := metrics m; performanceData := performanceData m;
     isMonitoring := isMonitoring m; apiCallTracker := t;
     stored_logs := stored_logs m; stored_metrics := stored_metrics m |}.

Definition set_responseTime (l : list MetricPoint) (x : Metrics) : Metrics :=
  {| responseTime := l; successRate := successRate x; errorRate := errorRate x;
     activeOrders := activeOrders x; systemStatus := systemStatus x |}.

Definition set_successRate (l : list MetricPoint) (x : Metrics) : Metrics :=
  {| responseTime := responseTime x; successRate := l; errorRate := errorRate x;
     activeOrders := activeOrders x; systemStatus := systemStatus x |}.

Definition set_errorRate (l : list MetricPoint) (x : Metrics) : Metrics :=
  {| responseTime := responseTime x; successRate := successRate x; errorRate := l;
     activeOrders := activeOrders x; systemStatus := systemStatus x |}.

(** [arr.push(x); if (arr.length > cap) arr = arr.slice(-cap)]. *)
Definition push_capped {A : Type} (cap : nat) (x : A) (l : list A) : list A :=
  let l' := l ++ [x] in
  if Nat.ltb cap (length l') then JS.slice_last cap l' else l'.

(** [saveData]. *)
Definition saveData (m : Manager) : Manager :=
  {| logs := logs m; metrics := metrics m; performanceData := performanceData m;
     isMonitoring := isMonitoring m; apiCallTracker := apiCallTracker m;
     stored_logs := Some (JS.slice_last maxLogEntries (logs m));
     stored_metrics := Some (metrics m) |}.

(** [updateErrorRate]. *)
Definition updateErrorRate (h : Host) (m : Manager) : Manager :=
  let p := performanceData m in
  let totalCalls := apiCalls p in
  let errorRate_ : Q :=
    if Z.ltb 0 totalCalls
    then (inject_Z (failedCalls p) / inject_Z totalCalls * 100)%Q
    else 0%Q in
  set_metrics
    (set_errorRate
       (push_capped maxMetricPoints
          {| point_timestamp := date_now h; value := errorRate_ |}
          (errorRate (metrics m)))
       (metrics m)) m.

(** [updateSuccessRate]. *)
Definition updateSuccessRate (h : Host) (m : Manager) : Manager :=
  let p := performanceData m in
  let totalCalls := (successfulCalls p + failedCalls p)%Z in
  let successRate_ : Q :=
    if Z.ltb 0 totalCalls
    then (inject_Z (successfulCalls p) / inject_Z totalCalls * 100)%Q
    else 100%Q in
  set_metrics
    (set_successRate
       (push_capped maxMetricPoints
          {| point_timestamp := date_now h; value := successRate_ |}
          (successRate (metrics m)))
       (metrics m)) m.

Definition incr_failedCalls (p : PerformanceData) : PerformanceData :=
  {| apiCalls := apiCalls p; successfulCalls := successfulCalls p;
     failedCalls := (failedCalls p + 1)%Z;
     totalResponseTime := totalResponseTime p;
     averageResponseTime := averageResponseTime p |}.

Definition incr_successfulCalls (p : PerformanceData) : PerformanceData :=
  {| apiCalls := apiCalls p; successfulCalls := (successfulCalls p + 1)%Z;
     failedCalls := failedCalls p;
     totalResponseTime := totalResponseTime p;
     averageResponseTime := averageResponseTime p |}.

Definition incr_apiCalls (p : PerformanceData) : PerformanceData :=
  {| apiCalls := (apiCalls p + 1)%Z; successfulCalls := successfulCalls p;
     failedCalls := failedCalls p;
     totalResponseTime := totalResponseTime p;
     averageResponseTime := averageResponseTime p |}.

(** [addLog]: the entry is completed with defaults, pushed, the list is
    trimmed, and an entry of level 'error' counts as a failed call. *)
Definition make_entry (h : Host) (logEntry : LogInput) : LogEntry :=
  {| id := (inject_Z (date_now h) + math_random h)%Q;
     timestamp := JS.str_or (in_timestamp logEntry) (iso_now h);
     level := JS.str_or (in_level logEntry) "info";
     message := JS.str_or (in_message logEntry) "";
     module := JS.str_or (in_module logEntry) "Unknown";
     details := if JS.truthy (in_details logEntry)
                then in_details logEntry else JS.Null |}.

Definition addLog (h : Host) (logEntry : LogInput) (m : Manager) : Manager :=
  let entry := make_entry h logEntry in
  let m1 := set_logs (push_capped maxLogEntries entry (logs m)) m in
  if String.eqb (level entry) "error"
  then updateErrorRate h
         (set_performanceData (incr_failedCalls (performanceData m1)) m1)
  else m1.

Definition info_log (h : Host) (msg : string) : LogInput :=
  {| in_timestamp := Some (iso_now h); in_level := Some "info";
     in_message := Some msg; in_module := Some "MonitoringManager";
     in_details := JS.Undefined |}.

(** The [details] of an 'apiCallStart' event. *)
Record StartDetails := {
  sd_callId : option Q;
  sd_endpoint : string;
  sd_method : string
}.

Definition start_details_fields (d : StartDetails) : list (string * JS.Value) :=
  match sd_callId d with
  | Some k => [("callId", JS.Number k)]
  | None => []
  end ++ [("endpoint", JS.Str (sd_endpoint d)); ("method", JS.Str (sd_method d))].

(** [details.callId || Date.now() + Math.random()]. *)
Definition start_callId (h : Host) (d : StartDetails) : Q :=
  match sd_callId d with
  | Some k => if Qeq_bool k 0 then (inject_Z (date_now h) + math_random h)%Q else k
  | None => (inject_Z (date_now h) + math_random h)%Q
  end.

(** [trackAPICallStart]. *)
Definition trackAPICallStart (h : Host) (d : StartDetails) (m : Manager) : Manager :=
  let callId := start_callId h d in
  let m1 := set_performanceData (incr_apiCalls (performanceData m)) m in
  let t := match apiCallTracker m1 with Some t => t | None => [] end in
  let m2 :=
    set_apiCallTracker
      (Some (tracker_set callId
               {| startTime := performance_now h; endpoint := sd_endpoint d;
                  method := sd_method d |} t)) m1 in
  addLog h
    {| in_timestamp := Some (iso_now h); in_level := Some "info";
       in_message :=
         Some ("API Call Started: " +:+ sd_method d +:+ " " +:+ sd_endpoint d);
       in_module := Some "APITracker";
       in_details :=
         JS.Object (JS.obj_spread [("callId", JS.Number callId)]
                      (start_details_fields d)) |}
    m2.

(** The [details] of an 'apiCallEnd' event. *)
Record EndDetails := {
  ed_callId : option Q;
  ed_success : bool;
  ed_status : JS.Value
}.

Definition call_data_fields (c : CallData) : list (string * JS.Value) :=
  [("startTime", JS.Number (startTime c)); ("endpoint", JS.Str (endpoint c));
   ("method", JS.Str (method c))].

Definition record_response (responseTime_ : Q) (p : PerformanceData)
  : PerformanceData :=
  let total := (totalResponseTime p + responseTime_)%Q in
  {| apiCalls := apiCalls p; successfulCalls := successfulCalls p;
     failedCalls := failedCalls p;
     totalResponseTime := total;
     averageResponseTime := JS.div total (apiCalls p) |}.

(** The body of the [if] of [trackAPICallEnd], for a call found in the
    tracker. *)
Definition track_found (h : Host) (d : EndDetails) (callId : Q)
  (callData : CallData) (t : Tracker) (m : Manager) : Manager :=
  let responseTime_ := (performance_now h - startTime callData)%Q in
  let p1 := record_response responseTime_ (performanceData m) in
  let p2 := if ed_success d then incr_successfulCalls p1 else incr_failedCalls p1 in
  let m1 := set_performanceData p2 m in
  let m2 :=
    set_metrics
      (set_responseTime
         (push_capped maxMetricPoints
            {| point_timestamp := date_now h; value := responseTime_ |}
            (responseTime (metrics m1)))
         (metrics m1)) m1 in
  let m3 :=
    addLog h
      {| in_timestamp := Some (iso_now h);
         in_level := Some (if ed_success d then "success" else "error");
         in_message :=
           Some ("API Call " +:+ (if ed_success d then "Completed" else "Failed")
                 +:+ ": " +:+ method callData +:+ " " +:+ endpoint callData
                 +:+ " (" +:+ JS.string_of_Z (JS.round responseTime_) +:+ "ms)");
         in_module := Some "APITracker";
         in_details :=
           JS.Object (JS.obj_spread
                        [("callId", JS.Number callId);
                         ("responseTime", JS.Number responseTime_);
                         ("status", ed_status d)]
                        (call_data_fields callData)) |}
      m2 in
  set_apiCallTracker (Some (tracker_delete callId t)) m3.

(** [trackAPICallEnd]: the success rate is updated whether or not the call
    was found. *)
Definition trackAPICallEnd (h : Host) (d : EndDetails) (m : Manager) : Manager :=
  let m1 :=
    match apiCallTracker m, ed_callId d with
    | Some t, Some callId =>
        match tracker_get callId t with
        | Some callData => track_found h d callId callData t m
        | None => m
        end
    | _, _ => m
    end in
  updateSuccessRate h m1.

(** [clearLogs]. *)
Definition clearLogs (h : Host) (m : Manager) : Manager :=
  addLog h (info_log h "All logs cleared") (saveData (set_logs [] m)).

(** [startMonitoring]; the interval handle is not part of the state. *)
Definition startMonitoring (h : Host) (m : Manager) : Manager :=
  if isMonitoring m then m
  else addLog h (info_log h "Monitoring system started") (set_isMonitoring true m).

(** [stopMonitoring]. *)
Definition stopMonitoring (h : Host) (m : Manager) : Manager :=
  if isMonitoring m
  then addLog h (info_log h "Monitoring system stopped") (set_isMonitoring false m)
  else m.

(** [loadStoredData]; the stored metrics object carries every property of
    [metrics], so the spread replaces them all. *)
Definition loadStoredData (m : Manager) : Manager :=
  let m1 :=
    match stored_logs m with
    | Some l => set_logs (JS.slice_last maxLogEntries l) m
    | None => m
    end in
  match stored_metrics m1 with
  | Some x => set_metrics x m1
  | None => m1
  end.

(** The constructor, given what [window] and [localStorage] hold. *)
Definition new_Manager (h : Host) (tracker : option Tracker)
  (storedLogs : option (list LogEntry)) (storedMetrics : option Metrics) : Manager :=
  startMonitoring h
    (loadStoredData
       {| logs := [];
          metrics := {| responseTime := []; successRate := []; errorRate := [];
                        activeOrders := 0; systemStatus := "monitoring" |};
          performanceData := {| apiCalls := 0; successfulCalls := 0;
                                failedCalls := 0; totalResponseTime := 0;
                                averageResponseTime := Some 0%Q |};
          isMonitoring := false;
          apiCallTracker := tracker;
          stored_logs := storedLogs;
          stored_metrics := storedMetrics |}).

(** The [successRate] field of [getMonitoringSummary]. *)
Definition summary_successRate (m : Manager) : Q :=
  let p := performanceData m in
  if Z.ltb 0 (apiCalls p)
  then (inject_Z (successfulCalls p) / inject_Z (apiCalls p) * 100)%Q
  else 100%Q.

(** The operations of the manager, as events. *)
Inductive Op : Type :=
| OpAddLog (h : Host) (e : LogInput)
| OpTrackAPICallStart (h : Host) (d : StartDetails)
| OpTrackAPICallEnd (h : Host) (d : EndDetails)
| OpUpdateSuccessRate (h : Host)
| OpUpdateErrorRate (h : Host)
| OpClearLogs (h : Host).

Definition step (m : Manager) (o : Op) : Manager :=
  match o with
  | OpAddLog h e => addLog h e m
  | OpTrackAPICallStart h d => trackAPICallStart h d m
  | OpTrackAPICallEnd h d => trackAPICallEnd h d m
  | OpUpdateSuccessRate h => updateSuccessRate h m
  | OpUpdateErrorRate h => updateErrorRate h m
  | OpClearLogs h => clearLogs h m
  end.

Definition run (m : Manager) (ops : list Op) : Manager := fold_left step ops m.

(** The bounded-size condition on a state. *)
Definition within_bounds (m : Manager) : Prop :=
  length (logs m) <= maxLogEntries /\
  length (responseTime (metrics m)) <= maxMetricPoints /\
  length (successRate (metrics m)) <= maxMetricPoints /\
  length (errorRate (metrics m)) <= maxMetricPoints.

(** The value of the last point of a series. *)
Definition last_value (l : list MetricPoint) : option Q :=
  match rev l with
  | p :: _ => Some (value p)
  | [] => None
  end.

(** The keys of a [Map] are pairwise different; on the list of entries: *)
Fixpoint tracker_keys_distinct (t : Tracker) : bool :=
  match t with
  | [] => true
  | (k, _) :: t' => negb (tracker_has k t') && tracker_keys_distinct t'
  end.

(** The tracker of a state, when there is one, is a map. *)
Definition tracker_ok (m : Manager) : Prop :=
  match apiCallTracker m with
  | Some t => tracker_keys_distinct t = true
  | None => True
  end.

(** Whether the call id [k] is in the tracker of a state. *)
Definition tracked (k : Q) (m : Manager) : bool :=
  match apiCallTracker m with
  | Some t => tracker_has k t
  | None => false
  end.

(** A manager whose log list is full: [maxLogEntries] entries numbered from
    0. *)
Definition numbered_entry (n : nat) : LogEntry :=
  {| id := inject_Z (Z.of_nat n); timestamp := "2024-01-01T00:00:00.000Z";
     level := "info"; message := "entry " +:+ JS.string_of_Z (Z.of_nat n);
     module := "Example"; details := JS.Null |}.

Definition full_of_logs (m : Manager) : Manager :=
  set_logs (map numbered_entry (seq 0 maxLogEntries)) m.

(** The number of calls in the tracker of a state. *)
Definition tracker_size (m : Manager) : Z :=
  match apiCallTracker m with
  | Some t => Z.of_nat (length t)
  | None => 0%Z
  end.

(** The number of 'apiCallStart' events in a sequence of operations. *)
Fixpoint started (ops : list Op) : Z :=
  match ops with
  | [] => 0%Z
  | OpTrackAPICallStart _ _ :: ops' => (1 + started ops')%Z
  | _ :: ops' => started ops'
  end.

(** The counters of a state account for its calls: neither count of ended
    calls is negative, and the successful calls together with the calls
    still tracked are at most the calls started. *)
Definition counters_ok (m : Manager) : Prop :=
  (0 <= successfulCalls (performanceData m))%Z /\
  (0 <= failedCalls (performanceData m))%Z /\
  (successfulCalls (performanceData m) + tracker_size m
   <= apiCalls (performanceData m))%Z.

(** A scenario: a fresh manager (nothing stored, no tracker yet), then three
    tracked calls one after the other, the first two ending with success
    and the third with failure. *)
Definition host_at (ms : Z) : Host :=
  {| date_now := 1704067200000 + ms; iso_now := "2024-01-01T00:00:00.000Z";
     math_random := 1 # 4; performance_now := inject_Z ms |}.

Definition fresh : Manager := new_Manager (host_at 0) None None None.

Definition call_start (k : Z) : StartDetails :=
  {| sd_callId := Some (inject_Z k); sd_endpoint := "/v1/login";
     sd_method := "POST" |}.

Definition call_end (k : Z) (ok : bool) : EndDetails :=
  {| ed_callId := Some (inject_Z k); ed_success := ok;
     ed_status := JS.Number (if ok then 200 else 500) |}.

Definition two_ok_one_failed : list Op :=
  [ OpTrackAPICallStart (host_at 10) (call_start 1);
    OpTrackAPICallEnd (host_at 130) (call_end 1 true);
    OpTrackAPICallStart (host_at 200) (call_start 2);
    OpTrackAPICallEnd (host_at 290) (call_end 2 true);
    OpTrackAPICallStart (host_at 300) (call_start 3);
    OpTrackAPICallEnd (host_at 450) (call_end 3 false) ].

End Monitoring.


(** ** Regular expressions, as far as the sources use them *)

Module RegExp.

(** A pattern over code units; [Class p] is a bracket expression. *)
Inductive Pattern : Type :=
| Fail
| Empty
| Class (p : ascii -> bool)
| Seq (r1 r2 : Pattern)
| Alt (r1 r2 : Pattern)
| Star (r : Pattern).

(** [r+]. *)
Definition Plus (r : Pattern) : Pattern := Seq r (Star r).

Fixpoint nullable (r : Pattern) : bool :=
  match r with
  | Fail => false
  | Empty => true
  | Class _ => false
  | Seq r1 r2 => nullable r1 && nullable r2
  | Alt r1 r2 => nullable r1 || nullable r2
  | Star _ => true
  end.

(** The residual of [r] after reading the code unit [c]. *)
Fixpoint residual (c : ascii) (r : Pattern) : Pattern :=
  match r with
  | Fail => Fail
  | Empty => Fail
  | Class p => if p c then Empty else Fail
  | Seq r1 r2 =>
      if nullable r1
      then Alt (Seq (residual c r1) r2) (residual c r2)
      else Seq (residual c r1) r2
  | Alt r1 r2 => Alt (residual c r1) (residual c r2)
  | Star r1 => Seq (residual c r1) (Star r1)
  end.

Fixpoint matches_list (r : Pattern) (s : list ascii) : bool :=
  match s with
  | [] => nullable r
  | c :: s' => matches_list (residual c r) s'
  end.

(** [/^r$/.test(s)]. *)
Definition test (r : Pattern) (s : string) : bool :=
  matches_list r (list_ascii_of_string s).

(** The words of a pattern, declaratively. *)
Inductive Matches : Pattern -> list ascii -> Prop :=
| MEmpty : Matches Empty []
| MClass p c : p c = true -> Matches (Class p) [c]
| MSeq r1 r2 s1 s2 : Matches r1 s1 -> Matches r2 s2 -> Matches (Seq r1 r2) (s1 ++ s2)
| MAltL r1 r2 s : Matches r1 s -> Matches (Alt r1 r2) s
| MAltR r1 r2 s : Matches r2 s -> Matches (Alt r1 r2) s
| MStarNil r : Matches (Star r) []
| MStarApp r s1 s2 : Matches r s1 -> Matches (Star r) s2 -> Matches (Star r) (s1 ++ s2).

Definition in_range (lo hi : nat) (c : ascii) : bool :=
  Nat.leb lo (nat_of_ascii c) && Nat.leb (nat_of_ascii c) hi.

(** [a-z] *)
Definition lower (c : ascii) : bool := in_range 97 122 c.

(** [a-zA-Z] *)
Definition letter (c : ascii) : bool := in_range 97 122 c || in_range 65 90 c.

(** [\s], for code units up to 255: tab, line feed, vertical tab, form feed,
    carriage return, space and no-break space. *)
Definition space (c : ascii) : bool :=
  in_range 9 13 c || Nat.eqb (nat_of_ascii c) 32 || Nat.eqb (nat_of_ascii c) 160.

(** [a-zA-Z\s] *)
Definition letter_or_space (c : ascii) : bool := letter c || space c.

(** [a-z-] *)
Definition lower_or_hyphen (c : ascii) : bool :=
  lower c || Nat.eqb (nat_of_ascii c) 45.

End RegExp.

(** ** public/js/config.js *)

Module Config.

(** The configuration record; a property that is absent is [None]. *)
Record Configuration := {
  integrationName : option string;
  integrationCode : option string;
  baseUrl : option string;
  pluginUsername : option string;
  pluginPassword : option string;
  environment : option string;
  country : option string;
  region : option string;
  vendorCode : option string;
  remoteId : option string;
  callbackUrl : option string;
  createdAt : option string;
  updatedAt : option string
}.

Record Validation := { isValid : bool; errors : list string }.

(** [/^[a-zA-Z\s]+[a-zA-Z]+$/] *)
Definition name_pattern : RegExp.Pattern :=
  RegExp.Seq (RegExp.Plus (RegExp.Class RegExp.letter_or_space))
             (RegExp.Plus (RegExp.Class RegExp.letter)).

(** [/^[a-z-]+$/] *)
Definition code_pattern : RegExp.Pattern :=
  RegExp.Plus (RegExp.Class RegExp.lower_or_hyphen).

(** [isValidUrl]: whether [new URL(string)] returns rather than throws.  The
    URL parser is the host's; it is the parameter [URL_parses]. *)
Definition isValidUrl (URL_parses : string -> bool) (s : string) : bool :=
  if URL_parses s then true else false.

Definition check_integrationName (data : Configuration) : list string :=
  match integrationName data with
  | None => ["Integration Name is required"]
  | Some s =>
      if String.eqb s "" then ["Integration Name is required"]
      else if negb (RegExp.test name_pattern s)
      then ["Integration Name should follow format: " +:+ JS.dquote
            +:+ "Company Name Country" +:+ JS.dquote]
      else []
  end.

Definition check_integrationCode (data : Configuration) : list string :=
  match integrationCode data with
  | None => ["Integration Code is required"]
  | Some s =>
      if String.eqb s "" then ["Integration Code is required"]
      else if negb (RegExp.test code_pattern s)
      then ["Integration Code should follow format: " +:+ JS.dquote
            +:+ "company-name-countrycode" +:+ JS.dquote]
      else []
  end.

Definition check_baseUrl (URL_parses : string -> bool) (data : Configuration)
  : list string :=
  match baseUrl data with
  | None => ["Base URL is required"]
  | Some s =>
      if String.eqb s "" then ["Base URL is required"]
      else if negb (isValidUrl URL_parses s) then ["Base URL is not valid"]
      else if negb (String.prefix "https://" s) then ["Base URL must use HTTPS"]
      else []
  end.

Definition check_pluginUsername (data : Configuration) : list string :=
  if JS.str_falsy (pluginUsername data) then ["Plugin Username is required"] else [].

Definition check_pluginPassword (data : Configuration) : list string :=
  if JS.str_falsy (pluginPassword data) then ["Plugin Password is required"] else [].

(** [validateConfiguration(config = null)]: the record checked is [config],
    or the manager's [currentConfig] when none is given; the errors are
    pushed in the order of the checks. *)
Definition validateConfiguration (URL_parses : string -> bool)
  (currentConfig : Configuration) (config : option Configuration) : Validation :=
  let data := match config with Some c => c | None => currentConfig end in
  let errors_ :=
    check_integrationName data ++ check_integrationCode data ++
    check_baseUrl URL_parses data ++
    check_pluginUsername data ++ check_pluginPassword data in
  {| isValid := Nat.eqb (length errors_) 0; errors := errors_ |}.

(** [setDefaults]. *)
Definition defaults (iso_now : string) : Configuration :=
  {| integrationName := Some ""; integrationCode := Some ""; baseUrl := Some "";
     pluginUsername := Some ""; pluginPassword := Some "";
     environment := Some "staging"; country := Some "AE"; region := Some "me";
     vendorCode := Some ""; remoteId := Some ""; callbackUrl := Some "";
     createdAt := Some iso_now; updatedAt := Some iso_now |}.

(** A stand-in for the host's URL parser, used to run examples: it accepts
    the strings that start with a scheme, a colon and at least one more code
    unit, which the host's parser requires of every absolute URL. *)
Fixpoint after_scheme (s : list ascii) : bool :=
  match s with
  | [] => false
  | c :: s' =>
      if Ascii.eqb c ":" then negb (Nat.eqb (length s') 0)
      else if RegExp.letter c || RegExp.in_range 48 57 c
              || Ascii.eqb c "+" || Ascii.eqb c "-" || Ascii.eqb c "."
      then after_scheme s'
      else false
  end.

Definition scheme_parser (s : string) : bool :=
  match list_ascii_of_string s with
  | c :: s' => RegExp.letter c && after_scheme s'
  | [] => false
  end.

Definition sample (name code url user pass : string) : Configuration :=
  {| integrationName := Some name; integrationCode := Some code;
     baseUrl := Some url; pluginUsername := Some user; pluginPassword := Some pass;
     environment := Some "staging"; country := Some "AE"; region := Some "me";
     vendorCode := Some "DEMO001"; remoteId := Some "123456"; callbackUrl := None;
     createdAt := None; updatedAt := None |}.

(** *** The manager and its storage *)

(** The manager's current configuration and the [localStorage] item that
    keeps it; the item holds the JSON text of a configuration, which leaves
    out the properties that are absent. *)
Record Manager := {
  currentConfig : Configuration;
  stored : option Configuration
}.

(** [{ ...a, ...b }] on configurations: a property of [b] that is present
    replaces the one of [a]. *)
Definition spread (a b : Configuration) : Configuration :=
  let pick (f : Configuration -> option string) :=
    match f b with
    | Some v => Some v
    | None => f a
    end in
  {| integrationName := pick integrationName;
     integrationCode := pick integrationCode;
     baseUrl := pick baseUrl;
     pluginUsername := pick pluginUsername;
     pluginPassword := pick pluginPassword;
     environment := pick environment;
     country := pick country;
     region := pick region;
     vendorCode := pick vendorCode;
     remoteId := pick remoteId;
     callbackUrl := pick callbackUrl;
     createdAt := pick createdAt;
     updatedAt := pick updatedAt |}.

Definition set_updatedAt (iso_now : string) (c : Configuration) : Configuration :=
  {| integrationName := integrationName c;
     integrationCode := integrationCode c;
     baseUrl := baseUrl c;
     pluginUsername := pluginUsername c;
     pluginPassword := pluginPassword c;
     environment := environment c;
     country := country c;
     region := region c;
     vendorCode := vendorCode c;
     remoteId := remoteId c;
     callbackUrl := callbackUrl c;
     createdAt := createdAt c;
     updatedAt := Some iso_now |}.

(** [saveConfiguration(formData = null)].  [writable] tells whether
    [localStorage.setItem] returns; when it throws, the [catch] block
    returns false and the configuration in memory has been changed
    already. *)
Definition saveConfiguration (iso_now : string) (writable : bool)
  (formData : option Configuration) (m : Manager) : bool * Manager :=
  let merged := match formData with
                | Some f => spread (currentConfig m) f
                | None => currentConfig m
                end in
  let current := set_updatedAt iso_now merged in
  if writable
  then (true, {| currentConfig := current; stored := Some current |})
  else (false, {| currentConfig := current; stored := stored m |}).

(** What [localStorage.getItem] gives: no item, a text that [JSON.parse]
    rejects, or the text of a configuration. *)
Inductive Item : Type :=
| NoItem
| Unreadable
| Saved (c : Configuration).

Definition item_of (m : Manager) : Item :=
  match stored m with
  | Some c => Saved c
  | None => NoItem
  end.

(** [loadConfiguration]: the saved configuration, or the defaults. *)
Definition loadConfiguration (iso_now : string) (item : Item) : Configuration :=
  match item with
  | Saved c => c
  | NoItem | Unreadable => defaults iso_now
  end.



(** What the global [saveConfiguration] of the application does with the
    form data. *)
Inductive SaveOutcome : Type :=
| SavedOk
| SaveFailed
| FixErrors (shown : list string).

(** The global function [saveConfiguration] of the application: the form
    data are validated, and saved only when they are valid; otherwise the
    errors are shown, each after a cross mark. *)
Definition save_form (URL_parses : string -> bool) (iso_now : string)
  (writable : bool) (formData : Configuration) (m : Manager)
  : SaveOutcome * Manager :=
  let validation :=
    validateConfiguration URL_parses (currentConfig m) (Some formData) in
  if isValid validation
  then
    let '(success, m') := saveConfiguration iso_now writable (Some formData) m in
    (if success then SavedOk else SaveFailed, m')
  else (FixErrors (map (fun e => "❌ " +:+ e) (errors validation)), m).

(** The manager of a first visit: the defaults, and nothing stored. *)
Definition fresh_manager (iso_now : string) : Manager :=
  {| currentConfig := defaults iso_now; stored := None |}.

End Config.

(** ** The serverless server: POST /api/auth/login *)

Module Login.

(** [req.body], as far as the handler reads it. *)
Record Body := { username : option string; password : option string }.

(** What [generateMockToken] encodes; the token text is the base64 form of
    the JSON text of this payload, and the payload stands for it here. *)
Record Token := { token_username : string; token_timestamp : Z; token_random : Q }.

Record TokenResponse := {
  access_token : Token;
  refresh_token : Token;
  token_type : string;
  expires_in : Z
}.

(** The JSON that the handler sends. *)
Inductive Json : Type :=
| Granted (success : bool) (data : TokenResponse)
| Refused (success : bool) (error : string).

Record Response := { status : Z; json : Json }.

(** One reading of [Date.now()] and [Math.random()]. *)
Record Reading := { date_now : Z; math_random : Q }.

Definition generateMockToken (r : Reading) (name : string) : Token :=
  {| token_username := name; token_timestamp := date_now r;
     token_random := math_random r |}.

(** The handler; [username && password] holds when both are present and
    not empty. *)
Definition login (r1 r2 : Reading) (body : Body) : Response :=
  match username body, password body with
  | Some u, Some p =>
      if negb (String.eqb u "") && negb (String.eqb p "")
      then {| status := 200;
              json := Granted true
                        {| access_token := generateMockToken r1 u;
                           refresh_token := generateMockToken r2 (u +:+ "_refresh");
                           token_type := "Bearer";
                           expires_in := 3600 |} |}
      else {| status := 400;
              json := Refused false "Username and password required" |}
  | _, _ => {| status := 400;
               json := Refused false "Username and password required" |}
  end.

End Login.

(** ** The serverless server: its in-memory storage and the log and report
    endpoints *)

Module Server.

(** [a || b] on values. *)
Definition or_else (a b : JS.Value) : JS.Value := if JS.truthy a then a else b.

(** An element of [inMemoryStorage.logs]. *)
Record LogEntry := {
  id : Z;
  configuration_id : JS.Value;
  level : JS.Value;
  message : JS.Value;
  module : JS.Value;
  details : JS.Value;
  created_at : string
}.

(** An element of [inMemoryStorage.reports]. *)
Record Report := {
  report_id : string;
  type : JS.Value;
  format : JS.Value;
  generated_at : string;
  download_url : string;
  record_count : Z
}.

(** [inMemoryStorage], as far as the two groups of endpoints use it. *)
Record Storage := {
  logs : list LogEntry;
  reports : list Report
}.


(** [POST /api/monitoring/log]: the entry built from the properties of the
    body, and the storage with the entry pushed. *)
Definition log_entry (date_now : Z) (iso_now : string)
  (body : list (string * JS.Value)) : LogEntry :=
  {| id := date_now;
     configuration_id := or_else (JS.get body "configuration_id") (JS.Number 1);
     level := or_else (JS.get body "level") (JS.Str "info");
     message := or_else (JS.get body "message") (JS.Str "Log entry");
     module := or_else (JS.get body "module") (JS.Str "Unknown");
     details := JS.get body "details";
     created_at := iso_now |}.

Definition post_log (date_now : Z) (iso_now : string)
  (body : list (string * JS.Value)) (s : Storage) : Storage :=
  {| logs := logs s ++ [log_entry date_now iso_now body]; reports := reports s |}.



(** The value of a digit in the given radix. *)
Definition digit_in (radix : Z) (c : ascii) : option Z :=
  let n := Z.of_nat (nat_of_ascii c) in
  let v := if (48 <=? n)%Z && (n <=? 57)%Z then Some (n - 48)%Z
           else if (97 <=? n)%Z && (n <=? 122)%Z then Some (n - 87)%Z
           else if (65 <=? n)%Z && (n <=? 90)%Z then Some (n - 55)%Z
           else None in
  match v with
  | Some d => if (d <? radix)%Z then Some d else None
  | None => None
  end.

(** The number that the longest run of digits at the start of [s] denotes,
    [None] when [s] starts with no digit. *)
Fixpoint digits_prefix (radix : Z) (s : list ascii) (acc : option Z) : option Z :=
  match s with
  | [] => acc
  | c :: s' =>
      match digit_in radix c with
      | Some d =>
          digits_prefix radix s'
            (Some (radix * (match acc with Some a => a | None => 0%Z end) + d)%Z)
      | None => acc
      end
  end.

Fixpoint skip_space (s : list ascii) : list ascii :=
  match s with
  | c :: s' => if RegExp.space c then skip_space s' else s
  | [] => []
  end.

(** [parseInt(text)]: leading white space, a sign, the prefix 0x or 0X for
    radix 16, then digits; [None] is NaN. The number is exact: the rounding
    of integers beyond 2^53 is not modelled. *)
Definition parseInt (text : string) : option Z :=
  let s := skip_space (list_ascii_of_string text) in
  let '(negative, s1) :=
    match s with
    | c :: rest =>
        if Ascii.eqb c "-" then (true, rest)
        else if Ascii.eqb c "+" then (false, rest) else (false, s)
    | [] => (false, s)
    end in
  let '(radix, s2) :=
    match s1 with
    | c0 :: cx :: rest =>
        if Ascii.eqb c0 "0" && (Ascii.eqb cx "x" || Ascii.eqb cx "X")
        then (16%Z, rest) else (10%Z, s1)
    | _ => (10%Z, s1)
    end in
  match digits_prefix radix s2 None with
  | Some v => Some (if negative then (- v)%Z else v)
  | None => None
  end.

(** [arr.slice(start)] for an integer [start]; a negative one counts from
    the end. *)
Definition slice_from {A : Type} (start : Z) (l : list A) : list A :=
  if (start <? 0)%Z
  then skipn (Z.to_nat (Z.max (Z.of_nat (length l) + start) 0)) l
  else skipn (Z.to_nat start) l.

(** [arr.slice(-parseInt(limit))]; the negation of NaN is NaN, which
    [slice] takes for 0. *)
Definition last_logs {A : Type} (limit : option string) (l : list A) : list A :=
  let n := match limit with
           | Some text => parseInt text
           | None => Some 20%Z
           end in
  match n with
  | Some k => slice_from (- k)%Z l
  | None => slice_from 0%Z l
  end.

(** [GET /api/monitoring/logs]: the entries sent and [total]. [limit] is
    the query parameter when it is given once, as a text. *)
Definition get_logs (limit : option string) (s : Storage) : list LogEntry * nat :=
  (last_logs limit (logs s), length (logs s)).

(** [POST /api/reports/generate]; the clock is read once for the id and
    once more for the download address. *)
Definition make_report (now1 now2 : Z) (iso_now : string) (random : Q)
  (body : list (string * JS.Value)) : Report :=
  {| report_id := "RPT_" +:+ JS.string_of_Z now1;
     type := or_else (JS.get body "report_type") (JS.Str "performance");
     format := or_else (JS.get body "format") (JS.Str "json");
     generated_at := iso_now;
     download_url := "/api/reports/download/RPT_" +:+ JS.string_of_Z now2;
     record_count := (Qfloor (random * 100) + 10)%Z |}.

Definition post_report (now1 now2 : Z) (iso_now : string) (random : Q)
  (body : list (string * JS.Value)) (s : Storage) : Report * Storage :=
  let report := make_report now1 now2 iso_now random body in
  (report, {| logs := logs s; reports := reports s ++ [report] |}).

(** [GET /api/reports/history]. *)
Definition get_history (s : Storage) : list Report := reports s.

End Server.

(** ** The reports module (class ReportsManager) *)

Module Reports.

(** What the module asks of the host: the [Date] parser and printer, the
    printer of numbers, and [JSON.stringify].  [parseDate s] is the time value
    of [new Date(s)] in milliseconds, [None] for an invalid date (NaN). *)
Record Host := {
  parseDate : string -> option Z;
  toISOString : Z -> string;
  Number_toString : Q -> string;
  JSON_stringify : JS.Value -> string;
  JSON_stringify_pretty : JS.Value -> string
}.

Record Template := {
  name : string;
  description : string;
  fields : list string
}.

(** [this.reportTemplates], an object literal with five own properties. *)
Definition reportTemplates : list (string * Template) :=
  [ ("completed",
      {| name := "Completed Orders Report";
         description := "Report of all successfully completed orders";
         fields := ["order_id"; "vendor_code"; "total_amount"; "completion_time";
                    "customer_info"] |});
    ("cancelled",
      {| name := "Cancelled Orders Report";
         description := "Report of all cancelled orders with reasons";
         fields := ["order_id"; "vendor_code"; "total_amount";
                    "cancellation_reason"; "cancelled_at"] |});
    ("performance",
      {| name := "Performance Analysis Report";
         description := "Comprehensive performance metrics and analytics";
         fields := ["response_times"; "success_rates"; "error_rates"; "throughput";
                    "uptime"] |});
    ("errors",
      {| name := "Error Analysis Report";
         description := "Detailed analysis of errors and issues";
         fields := ["error_types"; "error_frequencies"; "error_trends";
                    "resolution_times"] |});
    ("all",
      {| name := "Comprehensive Order Report";
         description := "All orders with complete details";
         fields := ["order_id"; "status"; "vendor_code"; "total_amount";
                    "timestamps"; "customer_info"] |}) ].

(** The result of the property read [this.reportTemplates[type]]: an own
    template, a property inherited from [Object.prototype], or
    [undefined]. *)
Inductive Lookup : Type :=
| Own (t : Template)
| Inherited (v : JS.Value)
| Absent.

Definition reportTemplates_get (type : string) : Lookup :=
  match JS.assoc type reportTemplates with
  | Some t => Own t
  | None =>
      match JS.Object_prototype_get type with
      | Some v => Inherited v
      | None => Absent
      end
  end.

(** [!!this.reportTemplates[type]]. *)
Definition lookup_truthy (l : Lookup) : bool :=
  match l with
  | Own _ => true
  | Inherited v => JS.truthy v
  | Absent => false
  end.

(** The parameters read from the form. *)
Record Params := {
  fromDate : option string;
  toDate : option string;
  type : string;
  format : string
}.

(** The values of the four form controls; [None] when the element is
    missing. *)
Record Form := {
  reportFromDate : option string;
  reportToDate : option string;
  reportType : option string;
  reportFormat : option string
}.

(** [getReportParameters]. *)
Definition getReportParameters (f : Form) : Params :=
  {| fromDate := reportFromDate f;
     toDate := reportToDate f;
     type := JS.str_or (reportType f) "all";
     format := JS.str_or (reportFormat f) "json" |}.

(** How a call ends: with a value, or with a thrown [Error] carrying a
    message. *)
Inductive Completion (A : Type) : Type :=
| Return (a : A)
| Throw (msg : string).

Arguments Return {A} a.
Arguments Throw {A} msg.

Definition ms_per_day : Z := 1000 * 60 * 60 * 24.

(** [a > b] on the time values of two dates; false when either is NaN. *)
Definition date_gt (a b : option Z) : bool :=
  match a, b with
  | Some x, Some y => Z.ltb y x
  | _, _ => false
  end.

(** [(toDate - fromDate) / (1000 * 60 * 60 * 24)]. *)
Definition days_between (from to : option Z) : option Q :=
  match from, to with
  | Some x, Some y => Some (inject_Z (y - x) / inject_Z ms_per_day)%Q
  | _, _ => None
  end.

(** [x > n] on a number that may be NaN. *)
Definition num_gt (x : option Q) (n : Q) : bool :=
  match x with
  | Some q => if Qlt_le_dec n q then true else false
  | None => false
  end.

(** [validateReportParameters]. *)
Definition validateReportParameters (h : Host) (params : Params) : Completion bool :=
  match fromDate params, toDate params with
  | Some from, Some to =>
      if String.eqb from "" || String.eqb to ""
      then Throw "Please select date range"
      else
        let fromDate_ := parseDate h from in
        let toDate_ := parseDate h to in
        if date_gt fromDate_ toDate_
        then Throw "From date cannot be later than to date"
        else
          let daysDiff := days_between fromDate_ toDate_ in
          if num_gt daysDiff 365
          then Throw "Date range cannot exceed 365 days"
          else if negb (lookup_truthy (reportTemplates_get (type params)))
          then Throw "Invalid report type"
          else if negb (JS.mem (format params) ["json"; "csv"; "pdf"])
          then Throw "Invalid report format"
          else Return true
  | _, _ => Throw "Please select date range"
  end.

(** *** Numbers and texts *)

(** Truncation towards zero, as [new Date(x)] does to its argument. *)
Definition trunc (x : Q) : Z :=
  if Qlt_le_dec x 0 then Qceiling x else Qfloor x.

(** [Math.floor(r * n) + k]. *)
Definition floor_scaled (r : Q) (n k : Z) : Z := (Qfloor (r * inject_Z n) + k)%Z.

Fixpoint zeros (n : nat) : string :=
  match n with
  | O => EmptyString
  | S n' => String "0" (zeros n')
  end.

(** The decimal digits of [n >= 0], padded with zeros on the left to [w]
    digits. *)
Definition pad_digits (w : nat) (n : Z) : string :=
  let s := JS.string_of_Z n in
  zeros (w - String.length s) +:+ s.

(** [x.toFixed(digits)] below 10^21: the sign is set aside, the magnitude is
    rounded to the nearest multiple of 10^-digits, ties upwards. *)
Definition toFixed (digits : nat) (x : Q) : string :=
  let negative := if Qlt_le_dec x 0 then true else false in
  let magnitude := if negative then (- x)%Q else x in
  let scale := (10 ^ Z.of_nat digits)%Z in
  let n := Qfloor (magnitude * inject_Z scale + (1 # 2))%Q in
  (if negative then "-" else "") +:+ JS.string_of_Z (n / scale)
  +:+ (if Nat.eqb digits 0 then EmptyString
       else "." +:+ pad_digits digits (n mod scale)).

Definition digit_value (c : ascii) : option Z :=
  let n := nat_of_ascii c in
  if Nat.leb 48 n && Nat.leb n 57 then Some (Z.of_nat (n - 48)) else None.

(** Reads a run of digits: the number read so far, how many digits were
    read, and what follows them. *)
Fixpoint read_digits (s : list ascii) (acc : Z) (count : nat)
  : Z * nat * list ascii :=
  match s with
  | [] => (acc, count, [])
  | c :: s' =>
      match digit_value c with
      | Some d => read_digits s' (10 * acc + d)%Z (S count)
      | None => (acc, count, s)
      end
  end.

(** [parseFloat] on a plain decimal text (sign, digits, point, digits), which
    is what [toFixed] yields; what follows the number is ignored and [None]
    is NaN.  Leading white space and exponents are not handled. *)
Definition parseFloat (s : string) : option Q :=
  let cs := list_ascii_of_string s in
  let '(negative, cs1) :=
    match cs with
    | c :: rest =>
        if Ascii.eqb c "-" then (true, rest)
        else if Ascii.eqb c "+" then (false, rest) else (false, cs)
    | [] => (false, cs)
    end in
  let '(ip, ni, cs2) := read_digits cs1 0 0 in
  let '(fp, nf) :=
    match cs2 with
    | c :: rest =>
        if Ascii.eqb c "."
        then let '(f, k, _) := read_digits rest 0 0 in (f, k)
        else (0%Z, 0%nat)
    | [] => (0%Z, 0%nat)
    end in
  if Nat.eqb (ni + nf) 0 then None
  else
    let v := (inject_Z ip + inject_Z fp / inject_Z (10 ^ Z.of_nat nf))%Q in
    Some (if negative then (- v)%Q else v).

(** The sum of [parseFloat] over texts, as [reduce] computes it from 0; NaN
    is absorbing. *)
Definition sum_parseFloat (l : list string) : option Q :=
  fold_left
    (fun acc s =>
       match acc, parseFloat s with
       | Some a, Some v => Some (a + v)%Q
       | _, _ => None
       end)
    l (Some 0%Q).

Definition sum_Z (l : list Z) : Z := fold_left Z.add l 0%Z.

(** [toFixed] of a number that may be NaN. *)
Definition toFixed_opt (digits : nat) (x : option Q) : string :=
  match x with
  | Some q => toFixed digits q
  | None => "NaN"
  end.

Definition Number_Z (n : Z) : JS.Value := JS.Number (inject_Z n).

Definition Number_nat (n : nat) : JS.Value := JS.Number (inject_Z (Z.of_nat n)).

(** *** The report document *)

Record Vendor := {
  code : string;
  vendor_name : string;
  vendor_environment : string
}.

(** [title] and [description] are [undefined] when the template found is
    not one of the five own templates and has no such property. *)
Record ReportInfo := {
  title : option string;
  info_description : option string;
  generatedAt : string;
  dateRange : option string * option string;
  vendor : Vendor
}.

Record ReportData := {
  reportInfo : ReportInfo;
  summary : list (string * JS.Value);
  records : list (list (string * JS.Value))
}.

(** The globals that the module reads: the current configuration of
    [window.configManager], [window.monitoringManager], and whether
    [window.authManager], which displays results, is there. *)
Record Window := {
  configManager : option Config.Configuration;
  monitoringManager : option Monitoring.Manager;
  authManager : bool
}.

(** [this.config.countries] of the configuration manager. *)
Definition countries : list (string * string) :=
  [ ("AE", "AED"); ("SA", "SAR"); ("KW", "KWD"); ("BH", "BHD");
    ("OM", "OMR"); ("QA", "QAR"); ("JO", "JOD"); ("EG", "EGP") ].

(** [window.configManager?.getCountryConfig()?.currency || 'AED']. *)
Definition currency (w : Window) : string :=
  match configManager w with
  | Some c =>
      match JS.assoc (JS.str_or (Config.country c) "AE") countries with
      | Some cur => cur
      | None => "AED"
      end
  | None => "AED"
  end.

(** [config?.key || fallback]. *)
Definition config_or (w : Window) (key : Config.Configuration -> option string)
  (fallback : string) : string :=
  match configManager w with
  | Some c => JS.str_or (key c) fallback
  | None => fallback
  end.

(** One reading of the clock and the sequence of values that successive
    calls of [Math.random()] return. *)
Record Chance := {
  date_now : Z;
  iso_now : string;
  random : nat -> Q
}.

(** [new Date(s)], where [s] may be [undefined]: an invalid date then. *)
Definition new_Date (h : Host) (s : option string) : option Z :=
  match s with
  | Some text => parseDate h text
  | None => None
  end.

(** [Math.ceil((toDate - fromDate) / (1000 * 60 * 60 * 24))]. *)
Definition ceil_days (h : Host) (params : Params) : option Z :=
  match days_between (new_Date h (fromDate params))
                     (new_Date h (toDate params)) with
  | Some d => Some (Qceiling d)
  | None => None
  end.

(** How often the body of [for (let i = 0; i < daysDiff * perDay; i++)]
    runs; never when the bound is NaN. *)
Definition iterations (daysDiff : option Z) (perDay : Z) : nat :=
  match daysDiff with
  | Some d => Z.to_nat (d * perDay)
  | None => 0
  end.

(** *** Completed orders *)

Record CompletedOrder := {
  order_id : string;
  vendor_code : string;
  remote_id : string;
  order_date : Z;
  completion_time : Z;
  total_amount : string;
  order_currency : string;
  masked_phone : string;
  area : string;
  delivery_time_minutes : Z;
  rating : Z
}.

(** The object pushed for one order; the two dates are printed with
    [toISOString]. *)
Definition completed_fields (h : Host) (o : CompletedOrder)
  : list (string * JS.Value) :=
  [ ("order_id", JS.Str (order_id o));
    ("vendor_code", JS.Str (vendor_code o));
    ("remote_id", JS.Str (remote_id o));
    ("order_date", JS.Str (toISOString h (order_date o)));
    ("completion_time", JS.Str (toISOString h (completion_time o)));
    ("total_amount", JS.Str (total_amount o));
    ("currency", JS.Str (order_currency o));
    ("customer_info",
      JS.Object [ ("masked_phone", JS.Str (masked_phone o));
                  ("area", JS.Str (area o)) ]);
    ("delivery_time_minutes", Number_Z (delivery_time_minutes o));
    ("rating", Number_Z (rating o)) ].

(** The order built by iteration [i] of the loop; it takes the random values
    [1 + 7 i] to [7 + 7 i], the value [0] having fixed [ordersPerDay]. *)
Definition completed_order (w : Window) (c : Chance) (vendorCode : string)
  (from to : Z) (i : nat) : CompletedOrder :=
  let r := fun j => random c (1 + 7 * i + j) in
  let orderDate := trunc (inject_Z from + r 0%nat * inject_Z (to - from))%Q in
  let completionTime := trunc (inject_Z orderDate + r 1%nat * 60 * 60 * 1000)%Q in
  {| order_id := "ORD" +:+ JS.string_of_Z (date_now c) +:+ "_"
                 +:+ JS.string_of_Z (Z.of_nat i);
     vendor_code := vendorCode;
     remote_id := config_or w Config.remoteId "123456";
     order_date := orderDate;
     completion_time := completionTime;
     total_amount := toFixed 2 (r 2%nat * 100 + 20)%Q;
     order_currency := currency w;
     masked_phone := "+971*****" +:+ JS.string_of_Z (floor_scaled (r 3%nat) 9000 1000);
     area := "Area " +:+ JS.string_of_Z (floor_scaled (r 4%nat) 10 1);
     delivery_time_minutes := floor_scaled (r 5%nat) 30 20;
     rating := floor_scaled (r 6%nat) 2 4 |}.

(** [sampleOrders] when the loop ends. *)
Definition sample_orders (h : Host) (w : Window) (c : Chance)
  (vendorCode : string) (params : Params) : list CompletedOrder :=
  let ordersPerDay := floor_scaled (random c 0) 20 10 in
  match new_Date h (fromDate params), new_Date h (toDate params) with
  | Some from, Some to =>
      map (completed_order w c vendorCode from to)
          (seq 0 (iterations (ceil_days h params) ordersPerDay))
  | _, _ => []
  end.

(** [sum / length] for a non-empty list. *)
Definition average (total : option Q) (n : nat) : option Q :=
  match total with
  | Some t => Some (t / inject_Z (Z.of_nat n))%Q
  | None => None
  end.

Definition completed_summary (orders : list CompletedOrder)
  : list (string * JS.Value) :=
  let n := length orders in
  let revenue := sum_parseFloat (map total_amount orders) in
  [ ("total_orders", Number_nat n);
    ("total_revenue", JS.Str (toFixed_opt 2 revenue));
    ("average_order_value",
      JS.Str (if Nat.ltb 0 n then toFixed_opt 2 (average revenue n) else "0.00"));
    ("average_delivery_time",
      if Nat.ltb 0 n
      then Number_Z (JS.round (inject_Z (sum_Z (map delivery_time_minutes orders))
                                / inject_Z (Z.of_nat n)))
      else Number_Z 0);
    ("average_rating",
      JS.Str (if Nat.ltb 0 n
              then toFixed 1 (inject_Z (sum_Z (map rating orders))
                              / inject_Z (Z.of_nat n))
              else "0.0")) ].

(** [generateCompletedOrdersReport]. *)
Definition generateCompletedOrdersReport (h : Host) (w : Window) (c : Chance)
  (reportData : ReportData) (params : Params) : ReportData :=
  let sampleOrders :=
    sample_orders h w c (code (vendor (reportInfo reportData))) params in
  {| reportInfo := reportInfo reportData;
     summary := completed_summary sampleOrders;
     records := map (completed_fields h) sampleOrders |}.

(** *** Cancelled orders *)

Definition cancellationReasons : list string :=
  [ "Customer Requested"; "Restaurant Unavailable"; "Out of Stock";
    "Delivery Issues"; "Payment Failed"; "Technical Error" ].

(** [cancellation_reason] is [None] when the index falls outside the list
    of reasons, which no random value in [0, 1) causes. *)
Record CancelledOrder := {
  cancelled_order_id : string;
  cancelled_vendor_code : string;
  cancelled_order_date : Z;
  cancelled_at : Z;
  cancelled_total_amount : string;
  cancelled_currency : string;
  cancellation_reason : option string;
  cancelled_by : string;
  refund_amount : string;
  refund_status : string
}.

Definition opt_Str (o : option string) : JS.Value :=
  match o with
  | Some s => JS.Str s
  | None => JS.Undefined
  end.

Definition cancelled_fields (h : Host) (o : CancelledOrder)
  : list (string * JS.Value) :=
  [ ("order_id", JS.Str (cancelled_order_id o));
    ("vendor_code", JS.Str (cancelled_vendor_code o));
    ("order_date", JS.Str (toISOString h (cancelled_order_date o)));
    ("cancelled_at", JS.Str (toISOString h (cancelled_at o)));
    ("total_amount", JS.Str (cancelled_total_amount o));
    ("currency", JS.Str (cancelled_currency o));
    ("cancellation_reason", opt_Str (cancellation_reason o));
    ("cancelled_by", JS.Str (cancelled_by o));
    ("refund_amount", JS.Str (refund_amount o));
    ("refund_status", JS.Str (refund_status o)) ].

(** [r > x] on numbers. *)
Definition gt (r x : Q) : bool := if Qlt_le_dec x r then true else false.

Definition reason_at (k : Z) : option string :=
  if Z.ltb k 0 then None else nth_error cancellationReasons (Z.to_nat k).

Definition cancelled_order (w : Window) (c : Chance) (vendorCode : string)
  (from to : Z) (i : nat) : CancelledOrder :=
  let r := fun j => random c (1 + 7 * i + j) in
  let orderDate := trunc (inject_Z from + r 0%nat * inject_Z (to - from))%Q in
  let cancelledAt := trunc (inject_Z orderDate + r 1%nat * 30 * 60 * 1000)%Q in
  {| cancelled_order_id := "CAN" +:+ JS.string_of_Z (date_now c) +:+ "_"
                           +:+ JS.string_of_Z (Z.of_nat i);
     cancelled_vendor_code := vendorCode;
     cancelled_order_date := orderDate;
     cancelled_at := cancelledAt;
     cancelled_total_amount := toFixed 2 (r 2%nat * 100 + 20)%Q;
     cancelled_currency := currency w;
     cancellation_reason :=
       reason_at (floor_scaled (r 3%nat) (Z.of_nat (length cancellationReasons)) 0);
     cancelled_by := if gt (r 4%nat) (1 # 2) then "customer" else "restaurant";
     refund_amount := toFixed 2 (r 5%nat * 100 + 20)%Q;
     refund_status := if gt (r 6%nat) (1 # 5) then "processed" else "pending" |}.

Definition sample_cancelled (h : Host) (w : Window) (c : Chance)
  (vendorCode : string) (params : Params) : list CancelledOrder :=
  let cancelledPerDay := floor_scaled (random c 0) 5 1 in
  match new_Date h (fromDate params), new_Date h (toDate params) with
  | Some from, Some to =>
      map (cancelled_order w c vendorCode from to)
          (seq 0 (iterations (ceil_days h params) cancelledPerDay))
  | _, _ => []
  end.

(** [reasonCounts[reason] = (reasonCounts[reason] || 0) + 1]; an
    [undefined] reason is the property name 'undefined'. *)
Definition count_reason (counts : list (string * JS.Value)) (o : CancelledOrder)
  : list (string * JS.Value) :=
  let key := match cancellation_reason o with Some s => s | None => "undefined" end in
  let old := match JS.assoc key counts with
             | Some (JS.Number q) => q
             | _ => 0%Q
             end in
  JS.obj_set key (JS.Number (old + 1)%Q) counts.

Definition count_where (p : CancelledOrder -> bool) (l : list CancelledOrder)
  : JS.Value :=
  Number_nat (length (filter p l)).

Definition cancelled_summary (orders : list CancelledOrder)
  : list (string * JS.Value) :=
  [ ("total_cancelled", Number_nat (length orders));
    ("total_refunded",
      JS.Str (toFixed_opt 2 (sum_parseFloat (map refund_amount orders))));
    ("cancellation_reasons", JS.Object (fold_left count_reason orders []));
    ("customer_cancelled",
      count_where (fun o => String.eqb (cancelled_by o) "customer") orders);
    ("restaurant_cancelled",
      count_where (fun o => String.eqb (cancelled_by o) "restaurant") orders);
    ("refunds_processed",
      count_where (fun o => String.eqb (refund_status o) "processed") orders);
    ("refunds_pending",
      count_where (fun o => String.eqb (refund_status o) "pending") orders) ].

(** [generateCancelledOrdersReport]. *)
Definition generateCancelledOrdersReport (h : Host) (w : Window) (c : Chance)
  (reportData : ReportData) (params : Params) : ReportData :=
  let sampleCancelled :=
    sample_cancelled h w c (code (vendor (reportInfo reportData))) params in
  {| reportInfo := reportInfo reportData;
     summary := cancelled_summary sampleCancelled;
     records := map (cancelled_fields h) sampleCancelled |}.

(** *** All orders *)

Inductive AnyOrder : Type :=
| Completed (o : CompletedOrder)
| Cancelled (o : CancelledOrder).

Definition any_order_date (a : AnyOrder) : Z :=
  match a with
  | Completed o => order_date o
  | Cancelled o => cancelled_order_date o
  end.

(** [{ ...order, status }]. *)
Definition any_fields (h : Host) (a : AnyOrder) : list (string * JS.Value) :=
  match a with
  | Completed o => JS.obj_set "status" (JS.Str "completed") (completed_fields h o)
  | Cancelled o => JS.obj_set "status" (JS.Str "cancelled") (cancelled_fields h o)
  end.

(** The comparator [new Date(b.order_date) - new Date(a.order_date)] is
    not positive when [b] is not newer than [a]; the dates read back are the
    time values that were printed. *)
Definition newer_first_b (a b : AnyOrder) : bool :=
  Z.leb (any_order_date b) (any_order_date a).

(** [allOrders.sort(comparator)]: the sort of the host is stable, so the
    result is the one of an insertion sort that keeps the order of ties. *)
Fixpoint insert_order (a : AnyOrder) (l : list AnyOrder) : list AnyOrder :=
  match l with
  | [] => [a]
  | b :: l' => if newer_first_b a b then a :: b :: l' else b :: insert_order a l'
  end.

Definition sort_newest_first (l : list AnyOrder) : list AnyOrder :=
  fold_right insert_order [] l.


(** The random values that remain after the first [k] were taken. *)
Definition later (k : nat) (c : Chance) : Chance :=
  {| date_now := date_now c; iso_now := iso_now c;
     random := fun j => random c (k + j) |}.

(** [generateAllOrdersReport]: the completed orders are generated first, the
    cancelled ones next, and the whole is sorted, newest first, by a stable
    sort. *)
Definition generateAllOrdersReport (h : Host) (w : Window) (c : Chance)
  (reportData : ReportData) (params : Params) : ReportData :=
  let vendorCode := code (vendor (reportInfo reportData)) in
  let completed := sample_orders h w c vendorCode params in
  let cancelled :=
    sample_cancelled h w (later (1 + 7 * length completed) c) vendorCode params in
  let allOrders :=
    sort_newest_first (map Completed completed ++ map Cancelled cancelled) in
  let completedSummary := completed_summary completed in
  let cancelledSummary := cancelled_summary cancelled in
  {| reportInfo := reportInfo reportData;
     summary :=
       [ ("total_orders", Number_nat (length allOrders));
         ("completed_orders", Number_nat (length completed));
         ("cancelled_orders", Number_nat (length cancelled));
         ("completion_rate",
           JS.Str (if Nat.ltb 0 (length allOrders)
                   then toFixed 1 (inject_Z (Z.of_nat (length completed))
                                   / inject_Z (Z.of_nat (length allOrders)) * 100)
                        +:+ "%"
                   else "0%"));
         ("total_revenue",
           match JS.assoc "total_revenue" completedSummary with
           | Some v => v
           | None => JS.Undefined
           end);
         ("total_refunded",
           match JS.assoc "total_refunded" cancelledSummary with
           | Some v => v
           | None => JS.Undefined
           end) ];
     records := map (any_fields h) allOrders |}.

(** *** Performance *)

(** What [getMonitoringSummary()] returns, as far as the reports read it. *)
Record MonitoringSummary := {
  summary_errorLogs : nat;
  summary_averageResponseTime : option Q;
  summary_successRate : Q;
  summary_uptime : string
}.

Definition getMonitoringSummary (m : Monitoring.Manager) : MonitoringSummary :=
  {| summary_errorLogs :=
       length (filter (fun e => String.eqb (Monitoring.level e) "error")
                      (Monitoring.logs m));
     summary_averageResponseTime :=
       Monitoring.averageResponseTime (Monitoring.performanceData m);
     summary_successRate := Monitoring.summary_successRate m;
     summary_uptime := if Monitoring.isMonitoring m then "Active" else "Inactive" |}.

(** [x < n], [x > n] on a property that may be [undefined] or NaN. *)
Definition opt_lt (x : option Q) (n : Q) : bool :=
  match x with
  | Some q => if Qlt_le_dec q n then true else false
  | None => false
  end.

Definition opt_gt (x : option Q) (n : Q) : bool := num_gt x n.

(** [generatePerformanceRecommendations], for the metrics of a summary, or
    of the empty object when there is no monitoring manager. *)
Definition generatePerformanceRecommendations (metrics : option MonitoringSummary)
  : list string :=
  let avg := match metrics with
             | Some s => summary_averageResponseTime s
             | None => None
             end in
  let rate := option_map summary_successRate metrics in
  let errorLogs := match metrics with
                   | Some s => summary_errorLogs s
                   | None => 0
                   end in
  let recommendations :=
    (if opt_gt avg 1000 then ["Consider optimizing API response times"] else [])
    ++ (if opt_lt rate 95 then ["Investigate and resolve API failures"] else [])
    ++ (if Nat.ltb 0 errorLogs then ["Review and address system errors"] else []) in
  match recommendations with
  | [] => ["System performance is optimal"]
  | _ => recommendations
  end.

(** [generatePerformanceReport]. *)
Definition generatePerformanceReport (w : Window) (reportData : ReportData)
  : ReportData :=
  let metrics := option_map getMonitoringSummary (monitoringManager w) in
  let avg := match metrics with
             | Some s => summary_averageResponseTime s
             | None => None
             end in
  let rate := option_map summary_successRate metrics in
  let uptime := option_map summary_uptime metrics in
  let truthy_or (x : option Q) (d : Q) : Q :=
    match x with
    | Some q => if Qeq_bool q 0 then d else q
    | None => d
    end in
  let row (metric : string) (v : JS.Value) (unit status : string) :=
    [ ("metric", JS.Str metric); ("value", v); ("unit", JS.Str unit);
      ("status", JS.Str status) ] in
  {| reportInfo := reportInfo reportData;
     summary :=
       [ ("overall_performance",
           JS.Str (if opt_gt rate 95 && opt_lt avg 1000 then "Excellent"
                   else if opt_gt rate 90 && opt_lt avg 2000 then "Good"
                   else "Needs Improvement"));
         ("recommendations",
           JS.Array (map JS.Str (generatePerformanceRecommendations metrics))) ];
     records :=
       [ row "API Response Time" (JS.Number (truthy_or avg 0%Q)) "ms"
             (if opt_lt avg 1000 then "good" else "needs_attention");
         row "Success Rate" (JS.Number (truthy_or rate 100%Q)) "%"
             (if opt_gt rate 95 then "excellent"
              else if opt_gt rate 90 then "good" else "poor");
         row "Total API Calls"
             (Number_Z (match monitoringManager w with
                        | Some m => Monitoring.apiCalls (Monitoring.performanceData m)
                        | None => 0%Z
                        end))
             "calls" "info";
         row "Error Rate"
             (JS.Number (match rate with
                         | Some q => if Qeq_bool q 0 then 0%Q else (100 - q)%Q
                         | None => 0%Q
                         end))
             "%" (if opt_gt rate 95 then "excellent" else "needs_attention");
         row "System Uptime"
             (JS.Str (match uptime with Some u => JS.str_or (Some u) "Unknown"
                                      | None => "Unknown" end))
             "status"
             (match uptime with
              | Some u => if String.eqb u "Active" then "excellent" else "warning"
              | None => "warning"
              end) ] |}.

(** *** Errors *)

(** [hay.includes(needle)]. *)
Definition includes (hay needle : string) : bool :=
  match String.index 0 needle hay with
  | Some _ => true
  | None => false
  end.

(** [categorizeError]. *)
Definition categorizeError (message : string) : string :=
  if includes message "Authentication" || includes message "login"
  then "Authentication"
  else if includes message "Network" || includes message "fetch" then "Network"
  else if includes message "JSON" || includes message "parse" then "Data Format"
  else if includes message "timeout" then "Timeout"
  else if includes message "Permission" || includes message "access"
  then "Permission"
  else "General".

(** The categories that [categorizeError] returns. *)
Definition categories : list string :=
  ["Authentication"; "Network"; "Data Format"; "Timeout"; "Permission"; "General"].

(** [errorTypes[errorType].push(log)], a missing property starting as the
    empty array. *)
Fixpoint group_push (k : string) (e : Monitoring.LogEntry)
  (groups : list (string * list Monitoring.LogEntry))
  : list (string * list Monitoring.LogEntry) :=
  match groups with
  | [] => [(k, [e])]
  | (k', es) :: rest =>
      if String.eqb k k' then (k', es ++ [e]) :: rest
      else (k', es) :: group_push k e rest
  end.

Definition group_errors (errorLogs : list Monitoring.LogEntry)
  : list (string * list Monitoring.LogEntry) :=
  fold_left
    (fun groups e => group_push (categorizeError (Monitoring.message e)) e groups)
    errorLogs [].

(** The number of entries over all groups. *)
Definition group_total (groups : list (string * list Monitoring.LogEntry)) : nat :=
  list_sum (map (fun g => length (snd g)) groups).

(** [calculateErrorTrend]; an unreadable timestamp is neither recent nor
    older. *)
Definition calculateErrorTrend (h : Host) (c : Chance)
  (errorLogs : list Monitoring.LogEntry) : string :=
  let oneHourAgo := (date_now c - 60 * 60 * 1000)%Z in
  let recent e :=
    match parseDate h (Monitoring.timestamp e) with
    | Some t => Z.ltb oneHourAgo t
    | None => false
    end in
  let older e :=
    match parseDate h (Monitoring.timestamp e) with
    | Some t => Z.leb t oneHourAgo
    | None => false
    end in
  let recentErrors := length (filter recent errorLogs) in
  let olderErrors := length (filter older errorLogs) in
  if Nat.ltb olderErrors recentErrors then "increasing"
  else if Nat.ltb recentErrors olderErrors then "decreasing"
  else "stable".

Definition error_summary_row (g : string * list Monitoring.LogEntry)
  : nat * list (string * JS.Value) :=
  let es := snd g in
  let first_ := hd_error es in
  let last_ := hd_error (rev es) in
  (length es,
   [ ("error_type", JS.Str (fst g));
     ("count", Number_nat (length es));
     ("first_occurrence", opt_Str (option_map Monitoring.timestamp first_));
     ("last_occurrence", opt_Str (option_map Monitoring.timestamp last_));
     ("sample_message", opt_Str (option_map Monitoring.message first_)) ]).

(** [errorSummary.reduce((max, current) => current.count > max.count ?
    current : max)] on a non-empty array. *)
Definition most_common (rows : list (nat * list (string * JS.Value))) : JS.Value :=
  match rows with
  | [] => JS.Null
  | first_ :: rest =>
      JS.Object
        (snd (fold_left
                (fun best current =>
                   if Nat.ltb (fst best) (fst current) then current else best)
                rest first_))
  end.

(** [generateErrorsReport]. *)
Definition generateErrorsReport (h : Host) (w : Window) (c : Chance)
  (reportData : ReportData) : ReportData :=
  let logs := match monitoringManager w with
              | Some m => Monitoring.logs m
              | None => []
              end in
  let errorLogs :=
    filter (fun e => String.eqb (Monitoring.level e) "error") logs in
  let errorTypes := group_errors errorLogs in
  let errorSummary := map error_summary_row errorTypes in
  {| reportInfo := reportInfo reportData;
     summary :=
       [ ("total_errors", Number_nat (length errorLogs));
         ("unique_error_types", Number_nat (length errorTypes));
         ("error_types_summary",
           JS.Array (map (fun r => JS.Object (snd r)) errorSummary));
         ("error_trend", JS.Str (calculateErrorTrend h c errorLogs));
         ("most_common_error", most_common errorSummary) ];
     records :=
       map (fun e =>
              [ ("timestamp", JS.Str (Monitoring.timestamp e));
                ("error_type", JS.Str (categorizeError (Monitoring.message e)));
                ("message", JS.Str (Monitoring.message e));
                ("module", JS.Str (Monitoring.module e));
                ("details", Monitoring.details e) ])
          errorLogs |}.

(** *** Building the document *)

(** [template.name] and [template.description] for the template found; a
    built-in function has a name and no description, the prototype object
    has neither. *)
Definition template_name (l : Lookup) : option string :=
  match l with
  | Own t => Some (name t)
  | Inherited (JS.Native n) => Some n
  | _ => None
  end.

Definition template_description (l : Lookup) : option string :=
  match l with
  | Own t => Some (description t)
  | _ => None
  end.

(** [createReportData].  Reading a property of [undefined] throws a
    TypeError, whose message is the host's. *)
Definition createReportData (h : Host) (w : Window) (c : Chance) (params : Params)
  : Completion ReportData :=
  let template := reportTemplates_get (type params) in
  match template with
  | Absent => Throw "Cannot read properties of undefined (reading 'name')"
  | _ =>
      let reportData :=
        {| reportInfo :=
             {| title := template_name template;
                info_description := template_description template;
                generatedAt := iso_now c;
                dateRange := (fromDate params, toDate params);
                vendor :=
                  {| code := config_or w Config.vendorCode "N/A";
                     vendor_name := config_or w Config.integrationName "N/A";
                     vendor_environment :=
                       config_or w Config.environment "staging" |} |};
           summary := [];
           records := [] |} in
      Return
        (if String.eqb (type params) "completed"
         then generateCompletedOrdersReport h w c reportData params
         else if String.eqb (type params) "cancelled"
         then generateCancelledOrdersReport h w c reportData params
         else if String.eqb (type params) "performance"
         then generatePerformanceReport w reportData
         else if String.eqb (type params) "errors"
         then generateErrorsReport h w c reportData
         else if String.eqb (type params) "all"
         then generateAllOrdersReport h w c reportData params
         else reportData)
  end.

(** *** Formatting *)

(** A column is collected for a key whose value is not of type 'object', or
    is [null]. *)
Definition scalar (v : JS.Value) : bool :=
  negb (JS.typeof_is_object v) || JS.is_null v.

(** [columns.add(key)] on a [Set], which keeps the order of insertion. *)
Definition set_add (k : string) (s : list string) : list string :=
  if JS.mem k s then s else s ++ [k].

(** The keys that one record adds to the set of columns. *)
Definition add_record_keys (columns : list string)
  (record : list (string * JS.Value)) : list string :=
  fold_left
    (fun cols key => if scalar (JS.get record key) then set_add key cols else cols)
    (JS.keys record) columns.

Definition collect_columns (records_ : list (list (string * JS.Value)))
  : list string :=
  fold_left add_record_keys records_ [].

(** The order of [Array.prototype.sort] without a comparator: by code
    units. *)
Definition string_le (a b : string) : Prop := String.leb a b = true.

#[export] Instance string_le_dec : RelDecision string_le.
Proof. intros a b. unfold string_le. apply bool_dec. Defined.

(** [Array.from(columns).sort()]. *)
Definition columnArray (records_ : list (list (string * JS.Value))) : list string :=
  merge_sort string_le (collect_columns records_).

(** The [replace] of [formatAsCSV]: every double quote of the text is
    written twice. *)
Fixpoint double_quotes (s : string) : string :=
  match s with
  | EmptyString => EmptyString
  | String c s' =>
      if Ascii.eqb c (ascii_of_nat 34)
      then String c (String c (double_quotes s'))
      else String c (double_quotes s')
  end.

(** One cell of a data row. *)
Definition csv_cell (h : Host) (record : list (string * JS.Value))
  (column : string) : string :=
  let value := JS.get record column in
  if JS.is_nullish value then EmptyString
  else JS.dquote +:+ double_quotes (JS.to_string (Number_toString h) value)
       +:+ JS.dquote.

Definition csv_row (h : Host) (columns : list string)
  (record : list (string * JS.Value)) : string :=
  String.concat "," (map (csv_cell h record) columns).

Definition newline : string := String (ascii_of_nat 10) EmptyString.

(** The scalar keys of the records, in the words of the specification: the
    keys of a record whose value there is not an object, taken across all
    records and counted once each. *)
Definition scalar_keys_of (record : list (string * JS.Value)) : list string :=
  filter (fun key => scalar (JS.get record key)) (JS.keys record).

Definition distinct_scalar_keys (records_ : list (list (string * JS.Value)))
  : list string :=
  remove_dups (flat_map scalar_keys_of records_).

(** [line.split(sep)]: the fields of a line that are set apart by the code
    unit [sep]. *)
Fixpoint split_on (sep : ascii) (line : string) : list string :=
  match line with
  | EmptyString => [EmptyString]
  | String c rest =>
      if Ascii.eqb c sep then EmptyString :: split_on sep rest
      else match split_on sep rest with
           | field :: fields_ => String c field :: fields_
           | [] => [String c EmptyString]
           end
  end.

(** Whether the code unit [c] occurs in [s]. *)
Fixpoint occurs (c : ascii) (s : string) : bool :=
  match s with
  | EmptyString => false
  | String c' s' => Ascii.eqb c' c || occurs c s'
  end.

(** A text between two double quotes. *)
Definition quoted (body : string) : string := JS.dquote +:+ body +:+ JS.dquote.

(** The reading of the inside of a quoted cell: two double quotes in a row
    stand for one. *)
Fixpoint undouble (s : string) : string :=
  match s with
  | EmptyString => EmptyString
  | String c s' =>
      if Ascii.eqb c (ascii_of_nat 34)
      then match s' with
           | String _ s'' => String c (undouble s'')
           | EmptyString => String c EmptyString
           end
      else String c (undouble s')
  end.

(** [formatAsCSV]. *)
Definition formatAsCSV (h : Host) (reportData : ReportData) : string :=
  match records reportData with
  | [] => "No data available"
  | _ =>
      let columns := columnArray (records reportData) in
      String.concat newline
        (String.concat "," columns
         :: map (csv_row h columns) (records reportData))
  end.

Definition text_or_undefined (o : option string) : string :=
  match o with
  | Some s => s
  | None => "undefined"
  end.

(** [formatAsPDF]: a plain text. *)
Definition formatAsPDF (h : Host) (reportData : ReportData) : string :=
  let info := reportInfo reportData in
  let summary_line (kv : string * JS.Value) :=
    fst kv +:+ ": " +:+ JSON_stringify h (snd kv) +:+ newline in
  let record_text (ir : nat * list (string * JS.Value)) :=
    "Record " +:+ JS.string_of_Z (Z.of_nat (fst ir) + 1) +:+ ":" +:+ newline
    +:+ String.concat EmptyString
          (map (fun key => "  " +:+ key +:+ ": "
                           +:+ JS.to_string (Number_toString h)
                                 (JS.get (snd ir) key) +:+ newline)
               (JS.keys (snd ir)))
    +:+ newline in
  text_or_undefined (title info) +:+ newline
  +:+ "Generated: " +:+ generatedAt info +:+ newline
  +:+ "Date Range: " +:+ text_or_undefined (fst (dateRange info)) +:+ " to "
  +:+ text_or_undefined (snd (dateRange info)) +:+ newline +:+ newline
  +:+ "SUMMARY:" +:+ newline
  +:+ String.concat EmptyString (map summary_line (summary reportData))
  +:+ newline +:+ "DETAILS:" +:+ newline
  +:+ String.concat EmptyString
        (map record_text
             (combine (seq 0 (length (records reportData))) (records reportData))).

(** The document as a value, for [JSON.stringify]; a property whose value
    is [undefined] is left out by the serializer. *)
Definition to_value (d : ReportData) : JS.Value :=
  let info := reportInfo d in
  JS.Object
    [ ("reportInfo",
        JS.Object
          [ ("title", opt_Str (title info));
            ("description", opt_Str (info_description info));
            ("generatedAt", JS.Str (generatedAt info));
            ("dateRange",
              JS.Object [ ("from", opt_Str (fst (dateRange info)));
                          ("to", opt_Str (snd (dateRange info))) ]);
            ("vendor",
              JS.Object [ ("code", JS.Str (code (vendor info)));
                          ("name", JS.Str (vendor_name (vendor info)));
                          ("environment",
                            JS.Str (vendor_environment (vendor info))) ]) ]);
      ("summary", JS.Object (summary d));
      ("records", JS.Array (map JS.Object (records d))) ].

(** [formatReport]. *)
Definition formatReport (h : Host) (reportData : ReportData) (format_ : string)
  : string :=
  if String.eqb format_ "json" then JSON_stringify_pretty h (to_value reportData)
  else if String.eqb format_ "csv" then formatAsCSV h reportData
  else if String.eqb format_ "pdf" then formatAsPDF h reportData
  else JSON_stringify_pretty h (to_value reportData).

(** [estimateFileSize]: the size of a [Blob] is the length of the UTF-8
    form of the text, two bytes for a code unit from 128 to 255. *)
Fixpoint estimateFileSize (content : string) : nat :=
  match content with
  | EmptyString => 0
  | String c s => (if Nat.ltb (nat_of_ascii c) 128 then 1 else 2) + estimateFileSize s
  end.

(** *** The manager *)

Record ReportRecord := {
  id : Z;
  record_type : string;
  record_format : string;
  record_dateRange : option string * option string;
  record_generatedAt : string;
  recordCount : nat;
  fileSize : nat
}.

(** The manager's history and the [localStorage] entry that keeps it. *)
Record Manager := {
  reportHistory : list ReportRecord;
  stored_history : option (list ReportRecord)
}.

(** A file handed to the browser for download. *)
Record Download := { filename : string; mimeType : string; content : string }.

(** A call of [showResults]: title, lines, container. *)
Record Shown := { shown_title : string; lines : list string; container : string }.

(** What a call of [generateReport] leaves behind. *)
Record Outcome := {
  manager : Manager;
  window : Window;
  shown : list Shown;
  downloads : list Download
}.

(** [logActivity]: an entry for the monitoring manager, if there is one. *)
Definition logActivity (c : Chance) (log_random : Q) (message level : string)
  (w : Window) : Window :=
  match monitoringManager w with
  | Some m =>
      {| configManager := configManager w;
         monitoringManager :=
           Some (Monitoring.addLog
                   {| Monitoring.date_now := date_now c;
                      Monitoring.iso_now := iso_now c;
                      Monitoring.math_random := log_random;
                      Monitoring.performance_now := 0 |}
                   {| Monitoring.in_timestamp := Some (iso_now c);
                      Monitoring.in_level := Some level;
                      Monitoring.in_message := Some message;
                      Monitoring.in_module := Some "ReportsManager";
                      Monitoring.in_details := JS.Undefined |}
                   m);
         authManager := authManager w |}
  | None => w
  end.

(** [showResults]: displayed by the authentication manager, if there is
    one. *)
Definition showResults (w : Window) (title_ : string) (results : list string)
  (containerId : string) : list Shown :=
  if authManager w
  then [ {| shown_title := title_; lines := results; container := containerId |} ]
  else [].

Definition upper (c : ascii) : ascii :=
  if RegExp.lower c then ascii_of_nat (nat_of_ascii c - 32) else c.

(** [s.toUpperCase()], for the letters a to z. *)
Fixpoint toUpperCase (s : string) : string :=
  match s with
  | EmptyString => EmptyString
  | String c s' => String (upper c) (toUpperCase s')
  end.

(** [s.replace(/[:.]/g, '-')]. *)
Fixpoint dashes (s : string) : string :=
  match s with
  | EmptyString => EmptyString
  | String c s' =>
      String (if Ascii.eqb c ":" || Ascii.eqb c "." then "-"%char else c) (dashes s')
  end.

(** [formatFileSize]; the power of 1024 is found by an integer logarithm. *)
Definition formatFileSize (h : Host) (bytes : nat) : string :=
  if Nat.eqb bytes 0 then "0 Bytes"
  else
    let i := (Z.log2 (Z.of_nat bytes) / 10)%Z in
    let shown_ := parseFloat (toFixed 2 (inject_Z (Z.of_nat bytes)
                                         / inject_Z (1024 ^ i))) in
    match shown_ with
    | Some q => Number_toString h q
    | None => "NaN"
    end
    +:+ " "
    +:+ text_or_undefined (nth_error ["Bytes"; "KB"; "MB"; "GB"] (Z.to_nat i)).

Definition mime_of (format_ : string) : string :=
  if String.eqb format_ "json" then "application/json"
  else if String.eqb format_ "csv" then "text/csv"
  else "text/plain".

(** [deliverReport]. *)
Definition deliverReport (c : Chance) (formattedReport : string) (params : Params)
  : Download :=
  {| filename := "talabat-pos-" +:+ type params +:+ "-report-"
                 +:+ dashes (iso_now c) +:+ "." +:+ format params;
     mimeType := mime_of (format params);
     content := formattedReport |}.

(** The lines of [showReportResults]. *)
Definition report_results (h : Host) (r : ReportRecord) : list string :=
  [ "✅ Report generated successfully";
    "✅ Report type: "
      +:+ text_or_undefined (template_name (reportTemplates_get (record_type r)));
    "✅ Date range: " +:+ text_or_undefined (fst (record_dateRange r)) +:+ " to "
      +:+ text_or_undefined (snd (record_dateRange r));
    "✅ Format: " +:+ toUpperCase (record_format r);
    "✅ Records: " +:+ JS.string_of_Z (Z.of_nat (recordCount r));
    "✅ File size: " +:+ formatFileSize h (fileSize r);
    "✅ Report downloaded successfully" ].

(** The [catch] block of [generateReport]. *)
Definition generation_failed (c : Chance) (log_random : Q) (w : Window)
  (mgr : Manager) (msg : string) : Outcome :=
  {| manager := mgr;
     window := logActivity c log_random ("Report generation failed: " +:+ msg)
                 "error" w;
     shown := showResults w "Report Generation Results"
                ["❌ Report generation failed: " +:+ msg] "report-results";
     downloads := [] |}.

(** The [try] block of [generateReport] after the document was built. *)
Definition generation_done (h : Host) (c : Chance) (log_random : Q) (w : Window)
  (mgr : Manager) (params : Params) (reportData : ReportData) : Outcome :=
  let formattedReport := formatReport h reportData (format params) in
  let reportRecord :=
    {| id := date_now c;
       record_type := type params;
       record_format := format params;
       record_dateRange := (fromDate params, toDate params);
       record_generatedAt := iso_now c;
       recordCount := length (records reportData);
       fileSize := estimateFileSize formattedReport |} in
  let history := reportHistory mgr ++ [reportRecord] in
  {| manager := {| reportHistory := history;
                   stored_history := Some (JS.slice_last 100 history) |};
     window := logActivity c log_random
                 ("Report generated successfully: "
                  +:+ text_or_undefined
                        (template_name (reportTemplates_get (type params))))
                 "success" w;
     shown := showResults w "Report Generation Results"
                (report_results h reportRecord) "report-results";
     downloads := [deliverReport c formattedReport params] |}.

(** [generateReport]; the two-second wait is not modelled.  [log_random] is
    the value of [Math.random()] taken when the activity is logged. *)
Definition generateReport (h : Host) (c : Chance) (log_random : Q) (f : Form)
  (w : Window) (mgr : Manager) : Outcome :=
  let params := getReportParameters f in
  match validateReportParameters h params with
  | Throw msg => generation_failed c log_random w mgr msg
  | Return false => generation_failed c log_random w mgr "Invalid report parameters"
  | Return true =>
      match createReportData h w c params with
      | Throw msg => generation_failed c log_random w mgr msg
      | Return reportData => generation_done h c log_random w mgr params reportData
      end
  end.

(** *** A host to run examples with

    The definitions below stand in for the browser when an example is
    evaluated; the properties that quantify over [Host] do not depend on
    them.  Dates are read in the form YYYY-MM-DD, which a date input
    yields and which is read as midnight UTC. *)

(** The number of days from 1970-01-01 to the given civil date. *)
Definition days_from_civil (y m d : Z) : Z :=
  let y' := (if Z.leb m 2 then y - 1 else y)%Z in
  let era := (y' / 400)%Z in
  let yoe := (y' - era * 400)%Z in
  let doy := ((153 * (if Z.ltb 2 m then m - 3 else m + 9) + 2) / 5 + d - 1)%Z in
  let doe := (yoe * 365 + yoe / 4 - yoe / 100 + doy)%Z in
  (era * 146097 + doe - 719468)%Z.

(** The civil date of a day number. *)
Definition civil_from_days (z0 : Z) : Z * Z * Z :=
  let z := (z0 + 719468)%Z in
  let era := (z / 146097)%Z in
  let doe := (z - era * 146097)%Z in
  let yoe := ((doe - doe / 1460 + doe / 36524 - doe / 146096) / 365)%Z in
  let doy := (doe - (365 * yoe + yoe / 4 - yoe / 100))%Z in
  let mp := ((5 * doy + 2) / 153)%Z in
  let d := (doy - (153 * mp + 2) / 5 + 1)%Z in
  let m := (if Z.ltb mp 10 then mp + 3 else mp - 9)%Z in
  ((yoe + era * 400 + (if Z.leb m 2 then 1 else 0))%Z, m, d).

Definition digits_value (cs : list ascii) : option Z :=
  match read_digits cs 0 0 with
  | (v, n, []) => if Nat.eqb n (length cs) && negb (Nat.eqb n 0) then Some v else None
  | _ => None
  end.

Definition iso_date (s : string) : option Z :=
  match list_ascii_of_string s with
  | [y1; y2; y3; y4; s1; m1; m2; s2; d1; d2] =>
      if Ascii.eqb s1 "-" && Ascii.eqb s2 "-"
      then
        match digits_value [y1; y2; y3; y4], digits_value [m1; m2],
              digits_value [d1; d2] with
        | Some y, Some m, Some d =>
            if Z.leb 1 m && Z.leb m 12 && Z.leb 1 d && Z.leb d 31
            then Some (days_from_civil y m d * ms_per_day)%Z
            else None
        | _, _, _ => None
        end
      else None
  | _ => None
  end.

(** The text YYYY-MM-DDTHH:mm:ss.sssZ of a time value, for the years 0 to
    9999. *)
Definition iso_text (ms : Z) : string :=
  let days := (ms / ms_per_day)%Z in
  let rest := (ms mod ms_per_day)%Z in
  let '(y, m, d) := civil_from_days days in
  pad_digits 4 y +:+ "-" +:+ pad_digits 2 m +:+ "-" +:+ pad_digits 2 d +:+ "T"
  +:+ pad_digits 2 (rest / 3600000) +:+ ":"
  +:+ pad_digits 2 (rest / 60000 mod 60) +:+ ":"
  +:+ pad_digits 2 (rest / 1000 mod 60) +:+ "."
  +:+ pad_digits 3 (rest mod 1000) +:+ "Z".

(** Integers are printed as the host prints them; other numbers are shown
    rounded to six decimals, which is not the host's shortest form. *)
Definition number_text (q : Q) : string :=
  let r := Qred q in
  if Pos.eqb (Qden r) 1 then JS.string_of_Z (Qnum r) else toFixed 6 q.

Fixpoint escape (s : string) : string :=
  match s with
  | EmptyString => EmptyString
  | String c s' =>
      if Ascii.eqb c (ascii_of_nat 34) || Ascii.eqb c (ascii_of_nat 92)
      then String (ascii_of_nat 92) (String c (escape s'))
      else String c (escape s')
  end.

Definition json_string (s : string) : string := JS.dquote +:+ escape s +:+ JS.dquote.

Definition json_skipped (v : JS.Value) : bool :=
  match v with
  | JS.Undefined | JS.Native _ => true
  | _ => false
  end.

(** A compact JSON text, with no indentation. *)
Fixpoint json_text (v : JS.Value) : string :=
  match v with
  | JS.Undefined | JS.Native _ => "undefined"
  | JS.Null => "null"
  | JS.Boolean b => if b then "true" else "false"
  | JS.Number q => number_text q
  | JS.Str s => json_string s
  | JS.Object fields_ =>
      "{" +:+ String.concat ","
                (flat_map
                   (fun kv =>
                      match kv with
                      | (k, x) =>
                          if json_skipped x then []
                          else [json_string k +:+ ":" +:+ json_text x]
                      end)
                   fields_)
      +:+ "}"
  | JS.Array items =>
      "[" +:+ String.concat ","
                (map (fun x => if json_skipped x then "null" else json_text x) items)
      +:+ "]"
  end.

Definition browser : Host :=
  {| parseDate := iso_date;
     toISOString := iso_text;
     Number_toString := number_text;
     JSON_stringify := json_text;
     JSON_stringify_pretty := json_text |}.

(** A page with a saved configuration, no monitoring manager and an
    authentication manager to display results. *)
Definition page : Window :=
  {| configManager :=
       Some (Config.sample "Demo POS UAE" "demo-pos-ae" "https://demo-pos-api.com"
               "plugin" "secret");
     monitoringManager := None;
     authManager := true |}.

(** The same page with a monitoring manager that has just been created. *)
Definition monitored_page : Window :=
  {| configManager := configManager page;
     monitoringManager := Some Monitoring.fresh;
     authManager := true |}.

(** A clock reading and a periodic sequence of random values in [0, 1). *)
Definition chance : Chance :=
  {| date_now := 1706745600000;
     iso_now := "2024-02-01T00:00:00.000Z";
     random := fun n => (Z.of_nat (Nat.modulo (7 * n + 3) 10) # 10)%Q |}.

Definition form (from to type_ format_ : string) : Form :=
  {| reportFromDate := Some from; reportToDate := Some to;
     reportType := Some type_; reportFormat := Some format_ |}.

Definition no_history : Manager :=
  {| reportHistory := []; stored_history := None |}.

(** A document around a list of records. *)
Definition document (records_ : list (list (string * JS.Value))) : ReportData :=
  {| reportInfo :=
       {| title := Some "Completed Orders Report";
          info_description := Some "Report of all successfully completed orders";
          generatedAt := "2024-02-01T00:00:00.000Z";
          dateRange := (Some "2024-01-01", Some "2024-01-31");
          vendor := {| code := "DEMO001"; vendor_name := "Demo POS UAE";
                       vendor_environment := "staging" |} |};
     summary := [];
     records := records_ |}.

(** Two records: a text with a double quote in it, a nested object, a
    [null], and a key that the second record lacks. *)
Definition two_records : list (list (string * JS.Value)) :=
  [ [ ("order_id", JS.Str "ORD1");
      ("note", JS.Str ("say " +:+ JS.dquote +:+ "hi" +:+ JS.dquote));
      ("customer_info", JS.Object [("area", JS.Str "Area 1")]);
      ("rating", JS.Number 5) ];
    [ ("order_id", JS.Str "ORD2");
      ("rating", JS.Null) ] ].

(** *** Scheduling *)

(** An element of [scheduledReports]: the id, the parameters spread into
    the object, and the schedule. *)
Record ScheduledReport := {
  scheduled_id : Z;
  scheduled_params : Params;
  frequency : string;
  nextRun : string;
  scheduled_createdAt : string;
  active : bool
}.

Definition ms_per_week : Z := 7 * 24 * 60 * 60 * 1000.

(** [calculateNextRun], from the reading [now] of the clock; [next_month]
    is the host's [setMonth(getMonth() + 1)] on a time value, which depends
    on the local time zone. *)
Definition calculateNextRun (h : Host) (next_month : Z -> Z) (now : Z)
  (frequency_ : string) : string :=
  if String.eqb frequency_ "daily" then toISOString h (now + ms_per_day)
  else if String.eqb frequency_ "weekly" then toISOString h (now + ms_per_week)
  else if String.eqb frequency_ "monthly" then toISOString h (next_month now)
  else toISOString h (now + ms_per_day).

(** The scheduled reports in memory and the [localStorage] entry that keeps
    them. *)
Record Schedule := {
  scheduledReports : list ScheduledReport;
  stored_scheduled : option (list ScheduledReport)
}.

(** What a call of [scheduleReport] leaves behind. *)
Record Scheduling := {
  schedule : Schedule;
  scheduling_window : Window;
  scheduling_shown : list Shown
}.

(** The [catch] block of [scheduleReport]. *)
Definition scheduling_failed (c : Chance) (log_random : Q) (w : Window)
  (s : Schedule) (msg : string) : Scheduling :=
  {| schedule := s;
     scheduling_window :=
       logActivity c log_random ("Report scheduling failed: " +:+ msg) "error" w;
     scheduling_shown :=
       showResults w "Report Scheduling Results"
         ["❌ Report scheduling failed: " +:+ msg] "report-results" |}.

(** [scheduleReport]; the frequency is always 'weekly'. [writable] tells
    whether [localStorage.setItem] returns; when it throws, the error is
    caught by [saveScheduledReports] and the schedule in memory is kept. *)
Definition scheduleReport (h : Host) (next_month : Z -> Z) (c : Chance)
  (log_random : Q) (writable : bool) (f : Form) (w : Window) (s : Schedule)
  : Scheduling :=
  let params := getReportParameters f in
  match validateReportParameters h params with
  | Throw msg => scheduling_failed c log_random w s msg
  | Return false => scheduling_failed c log_random w s "Invalid report parameters"
  | Return true =>
      let frequency_ := "weekly" in
      let scheduledReport :=
        {| scheduled_id := date_now c;
           scheduled_params := params;
           frequency := frequency_;
           nextRun := calculateNextRun h next_month (date_now c) frequency_;
           scheduled_createdAt := iso_now c;
           active := true |} in
      let all_ := scheduledReports s ++ [scheduledReport] in
      let template_ :=
        text_or_undefined (template_name (reportTemplates_get (type params))) in
      {| schedule :=
           {| scheduledReports := all_;
              stored_scheduled :=
                if writable then Some all_ else stored_scheduled s |};
         scheduling_window :=
           logActivity c log_random
             ("Report scheduled: " +:+ template_ +:+ " (" +:+ frequency_ +:+ ")")
             "success" w;
         scheduling_shown :=
           showResults w "Report Scheduling Results"
             [ "✅ Report scheduled successfully";
               "✅ Report type: " +:+ template_;
               "✅ Frequency: " +:+ frequency_;
               "✅ Next run: " +:+ nextRun scheduledReport;
               "✅ You will receive email notifications when reports are generated" ]
             "report-results" |}
  end.

(** [loadScheduledReports] at the next visit: the stored list, when there
    is one. *)
Definition loadScheduledReports (s : Schedule) : list ScheduledReport :=
  match stored_scheduled s with
  | Some l => l
  | None => []
  end.

End Reports.

(** ** Monitoring: the export of the logs *)

Module MonitoringExport.

(** The header line of the CSV export. *)
Definition headers : list string := ["Timestamp"; "Level"; "Module"; "Message"].

(** One line of the CSV export: only the message is quoted. *)
Definition csv_row (log : Monitoring.LogEntry) : string :=
  String.concat ","
    [ Monitoring.timestamp log; Monitoring.level log; Monitoring.module log;
      Reports.quoted (Reports.double_quotes (Monitoring.message log)) ].

Definition csv_content (logs : list Monitoring.LogEntry) : string :=
  String.concat Reports.newline (String.concat "," headers :: map csv_row logs).

(** What [exportLogs] settles by the format: content, type and file name,
    each left undefined for a format that is neither 'json' nor 'csv'.
    [json_text] is the text that [JSON.stringify] gives for the export
    object. *)
Definition export_parts (stamp json_text format : string)
  (m : Monitoring.Manager) : option string * option string * option string :=
  let timestamp := Reports.dashes stamp in
  if String.eqb format "json"
  then (Some json_text, Some "application/json",
        Some ("talabat-pos-logs-" +:+ timestamp +:+ ".json"))
  else if String.eqb format "csv"
  then (Some (csv_content (Monitoring.logs m)), Some "text/csv",
        Some ("talabat-pos-logs-" +:+ timestamp +:+ ".csv"))
  else (None, None, None).

(** The text of a value that may be undefined, as a template literal, a
    [Blob] part or the [download] attribute take it. *)
Definition text_of (o : option string) : string :=
  match o with Some s => s | None => "undefined" end.

(** [exportLogs]: the file handed to the browser and the manager after the
    export has been logged. [stamp] is the clock reading that names the
    file, [h] the readings of the log entry. An undefined type of a [Blob]
    is the empty text. *)
Definition exportLogs (h : Monitoring.Host) (stamp json_text format : string)
  (m : Monitoring.Manager) : Reports.Download * Monitoring.Manager :=
  let '(content, mimeType, filename) := export_parts stamp json_text format m in
  ({| Reports.filename := text_of filename;
      Reports.mimeType := match mimeType with Some t => t | None => EmptyString end;
      Reports.content := text_of content |},
   Monitoring.addLog h
     (Monitoring.info_log h
        ("Logs exported as " +:+ Reports.toUpperCase format +:+ ": "
         +:+ text_of filename))
     m).

(** An entry whose timestamp, level, module and message hold no line
    feed. *)
Definition one_line (log : Monitoring.LogEntry) : bool :=
  negb (Reports.occurs (ascii_of_nat 10) (Monitoring.timestamp log)) &&
  negb (Reports.occurs (ascii_of_nat 10) (Monitoring.level log)) &&
  negb (Reports.occurs (ascii_of_nat 10) (Monitoring.module log)) &&
  negb (Reports.occurs (ascii_of_nat 10) (Monitoring.message log)).

(** A full log entry for examples. *)
Definition quoting_entry : Monitoring.LogEntry :=
  {| Monitoring.id := 1; Monitoring.timestamp := "2024-01-01T00:00:00.000Z";
     Monitoring.level := "error";
     Monitoring.message := "POST /v1/login said " +:+ JS.dquote +:+ "no" +:+ JS.dquote;
     Monitoring.module := "APITracker"; Monitoring.details := JS.Null |}.

End MonitoringExport.
(** * Properties *)

(** ** Monitoring: bounded lists *)

Section MonitoringBounds.

Import Monitoring.

Lemma slice_last_length {A : Type} (n : nat) (l : list A) :
  0 < n -> n <= length l -> length (JS.slice_last n l) = n.
Proof.
  intros Hn Hl. unfold JS.slice_last.
  destruct (Nat.eqb_spec n 0) as [->|_]; [lia|].
  rewrite length_skipn. lia.
Qed.

Lemma push_capped_length {A : Type} (cap : nat) (x : A) (l : list A) :
  0 < cap -> length (push_capped cap x l) <= cap.
Proof.
  intros Hcap. unfold push_capped.
  destruct (Nat.ltb_spec cap (length (l ++ [x]))) as [Hlt|Hge].
  - rewrite slice_last_length; lia.
  - exact Hge.
Qed.

Lemma push_capped_small {A : Type} (cap : nat) (x : A) (l : list A) :
  length l < cap -> push_capped cap x l = l ++ [x].
Proof.
  intros Hl. unfold push_capped.
  destruct (Nat.ltb_spec cap (length (l ++ [x]))) as [Hlt|Hge]; [|reflexivity].
  rewrite length_app in Hlt. simpl in Hlt. lia.
Qed.

(** At capacity, a push evicts the oldest element. *)
Lemma push_capped_full {A : Type} (cap : nat) (x : A) (l : list A) :
  0 < cap -> length l = cap -> push_capped cap x l = skipn 1 l ++ [x].
Proof.
  intros Hcap Hl. unfold push_capped, JS.slice_last.
  rewrite length_app. simpl.
  destruct (Nat.ltb_spec cap (length l + 1)) as [_|Hge]; [|lia].
  destruct (Nat.eqb_spec cap 0) as [->|_]; [lia|].
  replace (length l + 1 - cap) with 1 by lia.
  destruct l as [|y l]; [simpl in Hl; lia | reflexivity].
Qed.

Lemma maxLogEntries_pos : 0 < maxLogEntries.
Proof. unfold maxLogEntries. lia. Qed.

Lemma maxMetricPoints_pos : 0 < maxMetricPoints.
Proof. unfold maxMetricPoints. lia. Qed.

Lemma updateErrorRate_bounds h m :
  within_bounds m -> within_bounds (updateErrorRate h m).
Proof.
  intros (Hl & Hr & Hs & He). unfold within_bounds, updateErrorRate. simpl.
  repeat split; try assumption.
  apply push_capped_length, maxMetricPoints_pos.
Qed.

Lemma updateSuccessRate_bounds h m :
  within_bounds m -> within_bounds (updateSuccessRate h m).
Proof.
  intros (Hl & Hr & Hs & He). unfold within_bounds, updateSuccessRate. simpl.
  repeat split; try assumption.
  apply push_capped_length, maxMetricPoints_pos.
Qed.

Lemma addLog_bounds h e m :
  within_bounds m -> within_bounds (addLog h e m).
Proof.
  intros (Hl & Hr & Hs & He). unfold addLog.
  assert (Hb : within_bounds
                 (set_logs (push_capped maxLogEntries (make_entry h e) (logs m)) m)).
  { unfold within_bounds. simpl. repeat split; try assumption.
    apply push_capped_length, maxLogEntries_pos. }
  destruct (String.eqb _ "error"); [|exact Hb].
  apply updateErrorRate_bounds.
  destruct Hb as (Hl' & Hr' & Hs' & He').
  unfold within_bounds. simpl. auto.
Qed.

Lemma trackAPICallStart_bounds h d m :
  within_bounds m -> within_bounds (trackAPICallStart h d m).
Proof.
  intros (Hl & Hr & Hs & He). unfold trackAPICallStart.
  apply addLog_bounds. unfold within_bounds. simpl. auto.
Qed.

Lemma track_found_bounds h d k c t m :
  within_bounds m -> within_bounds (track_found h d k c t m).
Proof.
  intros (Hl & Hr & Hs & He). unfold track_found.
  match goal with
  | |- within_bounds (set_apiCallTracker _ ?x) =>
      assert (Hb : within_bounds x)
  end.
  { apply addLog_bounds. unfold within_bounds. simpl.
    repeat split; try assumption.
    apply push_capped_length, maxMetricPoints_pos. }
  destruct Hb as (Hl' & Hr' & Hs' & He').
  unfold within_bounds. simpl. auto.
Qed.

Lemma trackAPICallEnd_bounds h d m :
  within_bounds m -> within_bounds (trackAPICallEnd h d m).
Proof.
  intros Hb. unfold trackAPICallEnd. apply updateSuccessRate_bounds.
  destruct (apiCallTracker m) as [t|]; [|exact Hb].
  destruct (ed_callId d) as [k|]; [|exact Hb].
  destruct (tracker_get k t) as [c|]; [|exact Hb].
  apply track_found_bounds, Hb.
Qed.

Lemma clearLogs_bounds h m :
  within_bounds m -> within_bounds (clearLogs h m).
Proof.
  intros (Hl & Hr & Hs & He). unfold clearLogs.
  apply addLog_bounds. unfold within_bounds. simpl.
  repeat split; try assumption. lia.
Qed.

Lemma step_bounds m o : within_bounds m -> within_bounds (step m o).
Proof.
  destruct o; simpl;
    auto using addLog_bounds, trackAPICallStart_bounds, trackAPICallEnd_bounds,
      updateSuccessRate_bounds, updateErrorRate_bounds, clearLogs_bounds.
Qed.

(** C3: starting within bounds, no sequence of addLog, trackAPICallEnd,
    updateSuccessRate and updateErrorRate operations (nor trackAPICallStart
    or clearLogs) takes the log list above maxLogEntries = 1000 entries or
    any of the three metric series above maxMetricPoints = 50 points. *)
Theorem monitoring_bounded (ops : list Op) (m : Manager) :
  within_bounds m ->
  length (logs (run m ops)) <= 1000 /\
  length (responseTime (metrics (run m ops))) <= 50 /\
  length (successRate (metrics (run m ops))) <= 50 /\
  length (errorRate (metrics (run m ops))) <= 50.
Proof.
  intros Hb.
  change (within_bounds (run m ops)).
  revert m Hb. induction ops as [|o ops IH]; intros m Hb; simpl.
  - exact Hb.
  - apply IH, step_bounds, Hb.
Qed.

End MonitoringBounds.

Lemma fresh_within_bounds : Monitoring.within_bounds Monitoring.fresh.
Proof.
  unfold Monitoring.within_bounds, Monitoring.maxLogEntries,
    Monitoring.maxMetricPoints.
  cbn. lia.
Qed.

Lemma monitoring_bounded_witness :
  Monitoring.within_bounds Monitoring.fresh /\
  (length (Monitoring.logs (Monitoring.run Monitoring.fresh
                              Monitoring.two_ok_one_failed)) <= 1000 /\
   length (Monitoring.responseTime (Monitoring.metrics
            (Monitoring.run Monitoring.fresh Monitoring.two_ok_one_failed))) <= 50 /\
   length (Monitoring.successRate (Monitoring.metrics
            (Monitoring.run Monitoring.fresh Monitoring.two_ok_one_failed))) <= 50 /\
   length (Monitoring.errorRate (Monitoring.metrics
            (Monitoring.run Monitoring.fresh Monitoring.two_ok_one_failed))) <= 50).
Proof.
  split.
  - exact fresh_within_bounds.
  - apply (monitoring_bounded Monitoring.two_ok_one_failed Monitoring.fresh).
    exact fresh_within_bounds.
Defined.

(** ** Monitoring: clearing the logs *)

Lemma addLog_not_error h e m :
  Monitoring.level (Monitoring.make_entry h e) <> "error" ->
  Monitoring.addLog h e m =
  Monitoring.set_logs
    (Monitoring.push_capped Monitoring.maxLogEntries
       (Monitoring.make_entry h e) (Monitoring.logs m)) m.
Proof.
  intros Hne. unfold Monitoring.addLog.
  destruct (String.eqb_spec (Monitoring.level (Monitoring.make_entry h e)) "error")
    as [Heq|_]; [contradiction|reflexivity].
Qed.

(** C9: after clearLogs the log list is not empty: it holds exactly one
    entry, the info-level 'All logs cleared' entry that clearLogs appends
    after emptying the list. *)
Theorem clearLogs_leaves_one_entry (h : Monitoring.Host) (m : Monitoring.Manager) :
  exists e : Monitoring.LogEntry,
    Monitoring.logs (Monitoring.clearLogs h m) = [e] /\
    Monitoring.level e = "info" /\
    Monitoring.message e = "All logs cleared" /\
    Monitoring.module e = "MonitoringManager".
Proof.
  exists (Monitoring.make_entry h (Monitoring.info_log h "All logs cleared")).
  split; [|repeat split].
  unfold Monitoring.clearLogs.
  rewrite addLog_not_error by (cbn; discriminate).
  cbn [Monitoring.logs Monitoring.set_logs Monitoring.saveData].
  rewrite push_capped_small by apply maxLogEntries_pos.
  reflexivity.
Qed.

(** ** Monitoring: the success rate *)

(** A failed call that was found in the tracker raises [failedCalls] by two:
    once in [trackAPICallEnd] itself and once more in [addLog], which counts
    the 'error' entry that [trackAPICallEnd] logs for it. *)
Lemma failed_call_counted_twice h d k c t m :
  Monitoring.apiCallTracker m = Some t ->
  Monitoring.ed_callId d = Some k ->
  Monitoring.tracker_get k t = Some c ->
  Monitoring.ed_success d = false ->
  let p := Monitoring.performanceData m in
  let p' := Monitoring.performanceData (Monitoring.trackAPICallEnd h d m) in
  Monitoring.failedCalls p' = (Monitoring.failedCalls p + 2)%Z /\
  Monitoring.successfulCalls p' = Monitoring.successfulCalls p.
Proof.
  intros Ht Hk Hc Hs. unfold Monitoring.trackAPICallEnd.
  rewrite Ht, Hk, Hc. unfold Monitoring.track_found. rewrite Hs.
  cbn. split; [lia|reflexivity].
Qed.

(** A successful call that was found in the tracker raises
    [successfulCalls] by one and leaves [failedCalls] alone. *)
Lemma successful_call_counted_once h d k c t m :
  Monitoring.apiCallTracker m = Some t ->
  Monitoring.ed_callId d = Some k ->
  Monitoring.tracker_get k t = Some c ->
  Monitoring.ed_success d = true ->
  let p := Monitoring.performanceData m in
  let p' := Monitoring.performanceData (Monitoring.trackAPICallEnd h d m) in
  Monitoring.failedCalls p' = Monitoring.failedCalls p /\
  Monitoring.successfulCalls p' = (Monitoring.successfulCalls p + 1)%Z.
Proof.
  intros Ht Hk Hc Hs. unfold Monitoring.trackAPICallEnd.
  rewrite Ht, Hk, Hc. unfold Monitoring.track_found. rewrite Hs.
  cbn. split; reflexivity.
Qed.

(** The point that [updateSuccessRate] appends is computed from the
    lifetime counters. *)
Lemma updateSuccessRate_lifetime h m :
  let p := Monitoring.performanceData m in
  Monitoring.last_value
    (Monitoring.successRate (Monitoring.metrics (Monitoring.updateSuccessRate h m)))
  = Some (if (0 <? Monitoring.successfulCalls p + Monitoring.failedCalls p)%Z
          then (inject_Z (Monitoring.successfulCalls p)
                / inject_Z (Monitoring.successfulCalls p + Monitoring.failedCalls p)
                * 100)%Q
          else 100%Q).
Proof.
  cbn zeta. unfold Monitoring.updateSuccessRate, Monitoring.last_value.
  cbn [Monitoring.metrics Monitoring.set_metrics Monitoring.successRate
       Monitoring.set_successRate].
  unfold Monitoring.push_capped.
  set (pt := {| Monitoring.point_timestamp := _; Monitoring.value := _ |}).
  set (l := Monitoring.successRate (Monitoring.metrics m)).
  assert (Hrev : exists r, rev (if Nat.ltb Monitoring.maxMetricPoints (length (l ++ [pt]))
                       then JS.slice_last Monitoring.maxMetricPoints (l ++ [pt])
                       else l ++ [pt]) = pt :: r).
  { destruct (Nat.ltb_spec Monitoring.maxMetricPoints (length (l ++ [pt]))) as [Hlt|Hge].
    - unfold JS.slice_last.
      destruct (Nat.eqb_spec Monitoring.maxMetricPoints 0) as [H0|_];
        [discriminate H0|].
      rewrite skipn_app.
      replace (length (l ++ [pt]) - Monitoring.maxMetricPoints - length l) with 0.
      + simpl. rewrite rev_app_distr. simpl. eauto.
      + rewrite length_app in *. simpl in *.
        pose proof maxMetricPoints_pos. lia.
    - rewrite rev_app_distr. simpl. eauto. }
  destruct Hrev as [r ->]. reflexivity.
Qed.

(** C1, evaluated on the code: after two tracked calls ending with success
    and one tracked call ending with failure the counters are 2 successful
    and 2 failed calls, and the value appended by updateSuccessRate is 50,
    not 66.7; the success rate of getMonitoringSummary, computed from
    apiCalls, is 200/3 in the same state. *)
Theorem success_rate_two_ok_one_failed :
  let m := Monitoring.run Monitoring.fresh Monitoring.two_ok_one_failed in
  Monitoring.successfulCalls (Monitoring.performanceData m) = 2%Z /\
  Monitoring.failedCalls (Monitoring.performanceData m) = 2%Z /\
  (exists v, Monitoring.last_value (Monitoring.successRate (Monitoring.metrics m))
             = Some v /\ (v == 50)%Q /\ ~ (66 < v)%Q) /\
  (Monitoring.summary_successRate m == 200 # 3)%Q.
Proof.
  cbn zeta. repeat split.
  - eexists. split; [vm_compute; reflexivity|].
    split; [reflexivity|]. intros H. vm_compute in H. discriminate H.
Qed.

(** ** Regular expressions: the matcher decides the words of a pattern *)

Section RegExpFacts.

Import RegExp.

Lemma Matches_nil_nullable r : Matches r [] -> nullable r = true.
Proof.
  intros H. remember [] as s eqn:Hs.
  induction H as [ | p c Hp | r1 r2 s1 s2 H1 IH1 H2 IH2 | r1 r2 s H IH
                 | r1 r2 s H IH | r | r s1 s2 H1 IH1 H2 IH2 ]; simpl.
  - reflexivity.
  - discriminate Hs.
  - destruct (app_eq_nil _ _ Hs) as [-> ->].
    rewrite IH1, IH2; reflexivity.
  - rewrite IH by assumption. reflexivity.
  - rewrite IH by assumption. apply orb_true_r.
  - reflexivity.
  - reflexivity.
Qed.

Lemma nullable_Matches_nil r : nullable r = true -> Matches r [].
Proof.
  induction r as [ | | p | r1 IH1 r2 IH2 | r1 IH1 r2 IH2 | r IH ]; simpl; intros H.
  - discriminate H.
  - constructor.
  - discriminate H.
  - apply andb_true_iff in H as [H1 H2].
    change (@nil ascii) with (@nil ascii ++ []). constructor; auto.
  - apply orb_true_iff in H as [H|H]; [apply MAltL | apply MAltR]; auto.
  - constructor.
Qed.

(** A non-empty word of [Star r] starts with a non-empty word of [r]. *)
Lemma Matches_Star_cons r c s :
  Matches (Star r) (c :: s) ->
  exists s1 s2, s = s1 ++ s2 /\ Matches r (c :: s1) /\ Matches (Star r) s2.
Proof.
  intros H. remember (Star r) as r' eqn:Hr. remember (c :: s) as w eqn:Hw.
  revert s Hw.
  induction H as [ | p c' Hp | r1 r2 s1 s2 H1 IH1 H2 IH2 | r1 r2 s' H IH
                 | r1 r2 s' H IH | r0 | r0 s1 s2 H1 IH1 H2 IH2 ];
    intros s Hw; try discriminate Hr; try discriminate Hw.
  injection Hr as ->.
  destruct s1 as [|c1 s1].
  - simpl in Hw. apply IH2; [reflexivity | assumption].
  - simpl in Hw. injection Hw as -> <-.
    exists s1, s2. auto.
Qed.

Lemma residual_sound c r s : Matches (residual c r) s -> Matches r (c :: s).
Proof.
  revert s.
  induction r as [ | | p | r1 IH1 r2 IH2 | r1 IH1 r2 IH2 | r IH ]; simpl; intros s H.
  - inversion H.
  - inversion H.
  - destruct (p c) eqn:Hp; inversion H; subst. constructor; assumption.
  - destruct (nullable r1) eqn:Hn.
    + inversion H as [ | | | ? ? ? HL | ? ? ? HR | | ]; subst.
      * inversion HL as [ | | ? ? s1 s2 Ha Hb | | | | ]; subst.
        change (c :: s1 ++ s2) with ((c :: s1) ++ s2). constructor; auto.
      * change (c :: s) with ([] ++ c :: s).
        constructor; [apply nullable_Matches_nil, Hn | auto].
    + inversion H as [ | | ? ? s1 s2 Ha Hb | | | | ]; subst.
      change (c :: s1 ++ s2) with ((c :: s1) ++ s2). constructor; auto.
  - inversion H; subst; [apply MAltL | apply MAltR]; auto.
  - inversion H as [ | | ? ? s1 s2 Ha Hb | | | | ]; subst.
    change (c :: s1 ++ s2) with ((c :: s1) ++ s2). constructor; auto.
Qed.

Lemma residual_complete c r s : Matches r (c :: s) -> Matches (residual c r) s.
Proof.
  revert s.
  induction r as [ | | p | r1 IH1 r2 IH2 | r1 IH1 r2 IH2 | r IH ]; simpl; intros s H.
  - inversion H.
  - inversion H.
  - inversion H; subst. match goal with Hp : p c = true |- _ => rewrite Hp end.
    constructor.
  - inversion H as [ | | ? ? s1 s2 Ha Hb Hr Hw | | | | ]; subst.
    destruct s1 as [|c1 s1]; simpl in Hw.
    + subst s2. rewrite (Matches_nil_nullable _ Ha). apply MAltR. auto.
    + injection Hw as -> <-.
      destruct (nullable r1); [apply MAltL|]; constructor; auto.
  - inversion H; subst; [apply MAltL | apply MAltR]; auto.
  - apply Matches_Star_cons in H as (s1 & s2 & -> & H1 & H2).
    constructor; auto.
Qed.

(** The matcher accepts exactly the words of the pattern. *)
Lemma matches_list_spec r s : matches_list r s = true <-> Matches r s.
Proof.
  revert r. induction s as [|c s IH]; intros r; simpl.
  - split; [apply nullable_Matches_nil | apply Matches_nil_nullable].
  - rewrite IH. split; [apply residual_sound | apply residual_complete].
Qed.

(** The words of [Star (Class p)]. *)
Lemma Matches_Star_Class p s :
  Matches (Star (Class p)) s <-> forallb p s = true.
Proof.
  split.
  - intros H. remember (Star (Class p)) as r eqn:Hr.
    induction H as [ | p' c Hp | r1 r2 s1 s2 H1 IH1 H2 IH2 | r1 r2 s' H IH
                   | r1 r2 s' H IH | r0 | r0 s1 s2 H1 IH1 H2 IH2 ];
      try discriminate Hr.
    + reflexivity.
    + injection Hr as ->. rewrite forallb_app, IH2 by reflexivity.
      inversion H1; subst. simpl.
      match goal with Hp : p _ = true |- _ => rewrite Hp end. reflexivity.
  - induction s as [|c s IH]; simpl; intros H.
    + constructor.
    + apply andb_true_iff in H as [Hc Hs].
      change (c :: s) with ([c] ++ s). constructor; [constructor|]; auto.
Qed.

(** The words of [Plus (Class p)]: the non-empty words over [p]. *)
Lemma Matches_Plus_Class p s :
  Matches (Plus (Class p)) s <-> s <> [] /\ forallb p s = true.
Proof.
  unfold Plus. split.
  - intros H. inversion H as [ | | ? ? s1 s2 Ha Hb | | | | ]; subst.
    inversion Ha; subst. simpl. split; [discriminate|].
    apply Matches_Star_Class in Hb.
    match goal with Hp : p _ = true |- _ => rewrite Hp end. exact Hb.
  - intros [Hne H]. destruct s as [|c s]; [contradiction|].
    simpl in H. apply andb_true_iff in H as [Hc Hs].
    change (c :: s) with ([c] ++ s). constructor; [constructor; auto|].
    apply Matches_Star_Class, Hs.
Qed.

End RegExpFacts.

(** ** Configuration validator *)

Section ConfigFacts.

Import Config.

Lemma list_ascii_of_string_nil s : list_ascii_of_string s = [] -> s = EmptyString.
Proof. destruct s; [reflexivity | discriminate]. Qed.

(** [/^[a-z-]+$/] accepts the non-empty strings of lowercase letters and
    hyphens. *)
Lemma code_pattern_spec (s : string) :
  RegExp.test code_pattern s = true <->
  s <> EmptyString /\
  forallb RegExp.lower_or_hyphen (list_ascii_of_string s) = true.
Proof.
  unfold RegExp.test, code_pattern.
  rewrite matches_list_spec, Matches_Plus_Class.
  split; intros [Hne Hall]; split; try assumption.
  - intros ->. apply Hne. reflexivity.
  - intros Hnil. apply Hne, list_ascii_of_string_nil, Hnil.
Qed.

(** [/^[a-zA-Z\s]+[a-zA-Z]+$/] accepts the strings made of a non-empty run
    of letters and white space followed by a non-empty run of letters. *)
Lemma name_pattern_spec (s : string) :
  RegExp.test name_pattern s = true <->
  exists u v, list_ascii_of_string s = u ++ v /\
    u <> [] /\ forallb RegExp.letter_or_space u = true /\
    v <> [] /\ forallb RegExp.letter v = true.
Proof.
  unfold RegExp.test, name_pattern. rewrite matches_list_spec. split.
  - intros H. inversion H as [ | | ? ? u v Hu Hv | | | | ]; subst.
    apply Matches_Plus_Class in Hu as [Hu1 Hu2].
    apply Matches_Plus_Class in Hv as [Hv1 Hv2].
    exists u, v. auto.
  - intros (u & v & -> & Hu1 & Hu2 & Hv1 & Hv2).
    constructor; apply Matches_Plus_Class; auto.
Qed.

Lemma eqb_empty_false s : s <> EmptyString -> String.eqb s EmptyString = false.
Proof. intros H. apply String.eqb_neq, H. Qed.

Lemma check_integrationName_ok data name :
  integrationName data = Some name ->
  RegExp.test name_pattern name = true ->
  check_integrationName data = [].
Proof.
  intros Hn Ht. unfold check_integrationName. rewrite Hn.
  destruct (String.eqb_spec name EmptyString) as [->|_].
  - discriminate Ht.
  - rewrite Ht. reflexivity.
Qed.

Lemma check_integrationCode_ok data code :
  integrationCode data = Some code ->
  RegExp.test code_pattern code = true ->
  check_integrationCode data = [].
Proof.
  intros Hc Ht. unfold check_integrationCode. rewrite Hc.
  destruct (String.eqb_spec code EmptyString) as [->|_].
  - discriminate Ht.
  - rewrite Ht. reflexivity.
Qed.

Lemma check_baseUrl_ok URL_parses data url :
  URL_parses EmptyString = false ->
  baseUrl data = Some url ->
  URL_parses url = true ->
  String.prefix "https://" url = true ->
  check_baseUrl URL_parses data = [].
Proof.
  intros He Hu Hp Hs. unfold check_baseUrl, isValidUrl. rewrite Hu.
  destruct (String.eqb_spec url EmptyString) as [->|_].
  - congruence.
  - rewrite Hp, Hs. reflexivity.
Qed.

Lemma check_baseUrl_not_https URL_parses data url :
  URL_parses EmptyString = false ->
  baseUrl data = Some url ->
  URL_parses url = true ->
  String.prefix "https://" url = false ->
  check_baseUrl URL_parses data = ["Base URL must use HTTPS"].
Proof.
  intros He Hu Hp Hs. unfold check_baseUrl, isValidUrl. rewrite Hu.
  destruct (String.eqb_spec url EmptyString) as [->|_].
  - congruence.
  - rewrite Hp, Hs. reflexivity.
Qed.

Lemma str_falsy_Some s : s <> EmptyString -> JS.str_falsy (Some s) = false.
Proof. intros H. simpl. apply eqb_empty_false, H. Qed.

(** C6: the validator is a function of the record it is given, returning a
    validity flag and an error list, the flag saying that the list is empty.
    A base URL that parses but does not start with https:// makes the
    result invalid, with the error 'Base URL must use HTTPS'.  A record with
    a name matching the name pattern, a non-empty code of lowercase letters
    and hyphens, a base URL that parses and starts with https://, and
    non-empty username and password is valid, with no error. *)
Theorem validateConfiguration_https (URL_parses : string -> bool)
  (Hempty : URL_parses EmptyString = false) (data : Configuration) :
  (forall cur cur',
      validateConfiguration URL_parses cur (Some data) =
      validateConfiguration URL_parses cur' (Some data)) /\
  (forall cur,
      isValid (validateConfiguration URL_parses cur (Some data)) = true <->
      errors (validateConfiguration URL_parses cur (Some data)) = []) /\
  (forall cur url,
      baseUrl data = Some url ->
      URL_parses url = true ->
      String.prefix "https://" url = false ->
      isValid (validateConfiguration URL_parses cur (Some data)) = false /\
      In "Base URL must use HTTPS"
         (errors (validateConfiguration URL_parses cur (Some data)))) /\
  (forall cur name code url user pass,
      integrationName data = Some name ->
      integrationCode data = Some code ->
      baseUrl data = Some url ->
      pluginUsername data = Some user ->
      pluginPassword data = Some pass ->
      RegExp.test name_pattern name = true ->
      code <> EmptyString ->
      forallb RegExp.lower_or_hyphen (list_ascii_of_string code) = true ->
      URL_parses url = true ->
      String.prefix "https://" url = true ->
      user <> EmptyString ->
      pass <> EmptyString ->
      validateConfiguration URL_parses cur (Some data) =
      {| isValid := true; errors := [] |}).
Proof.
  split; [reflexivity|]. split; [|split].
  - intros cur. unfold validateConfiguration. simpl.
    destruct (_ ++ _) as [|e es]; simpl; split; intros H;
      try reflexivity; discriminate H.
  - intros cur url Hu Hp Hs. unfold validateConfiguration. simpl.
    rewrite (check_baseUrl_not_https _ _ _ Hempty Hu Hp Hs).
    split.
    + rewrite !length_app. simpl.
      destruct (_ + _) as [|n] eqn:Hlen; [lia | reflexivity].
    + apply in_or_app. right. apply in_or_app. right. simpl. auto.
  - intros cur name code url user pass Hn Hc Hu Hus Hpa Htn Hc1 Hc2 Hp Hs Hu1 Hp1.
    unfold validateConfiguration.
    rewrite (check_integrationName_ok _ _ Hn Htn).
    rewrite (check_integrationCode_ok _ _ Hc)
      by (apply code_pattern_spec; auto).
    rewrite (check_baseUrl_ok _ _ _ Hempty Hu Hp Hs).
    unfold check_pluginUsername, check_pluginPassword.
    rewrite Hus, Hpa, !str_falsy_Some by assumption.
    reflexivity.
Qed.

End ConfigFacts.

Lemma validateConfiguration_https_witness :
  Config.scheme_parser EmptyString = false /\
  (Config.isValid
     (Config.validateConfiguration Config.scheme_parser (Config.defaults "now")
        (Some (Config.sample "Demo POS UAE" "demo-pos-ae"
                 "http://demo-pos-api.com" "plugin" "secret"))) = false /\
   In "Base URL must use HTTPS"
     (Config.errors
        (Config.validateConfiguration Config.scheme_parser (Config.defaults "now")
           (Some (Config.sample "Demo POS UAE" "demo-pos-ae"
                    "http://demo-pos-api.com" "plugin" "secret"))))) /\
  Config.validateConfiguration Config.scheme_parser (Config.defaults "now")
    (Some (Config.sample "Demo POS UAE" "demo-pos-ae"
             "https://demo-pos-api.com" "plugin" "secret")) =
  {| Config.isValid := true; Config.errors := [] |}.
Proof.
  split; [reflexivity|]. split.
  - apply (proj1 (proj2 (proj2
      (validateConfiguration_https Config.scheme_parser eq_refl
         (Config.sample "Demo POS UAE" "demo-pos-ae"
            "http://demo-pos-api.com" "plugin" "secret"))))
      (Config.defaults "now") "http://demo-pos-api.com");
      reflexivity.
  - apply (proj2 (proj2 (proj2
      (validateConfiguration_https Config.scheme_parser eq_refl
         (Config.sample "Demo POS UAE" "demo-pos-ae"
            "https://demo-pos-api.com" "plugin" "secret"))))
      (Config.defaults "now") "Demo POS UAE" "demo-pos-ae"
      "https://demo-pos-api.com" "plugin" "secret");
      try reflexivity; discriminate.
Defined.

(** ** The login endpoint *)

(** C7: the login endpoint grants a token object (access_token,
    refresh_token, token_type 'Bearer', expires_in 3600) for every body whose
    username and password are both non-empty, and answers 400 without a
    token whenever either of them is empty or missing. *)
Theorem login_nonempty_credentials (r1 r2 : Login.Reading) (body : Login.Body) :
  (forall u p,
      Login.username body = Some u -> Login.password body = Some p ->
      u <> EmptyString -> p <> EmptyString ->
      Login.login r1 r2 body =
      {| Login.status := 200;
         Login.json :=
           Login.Granted true
             {| Login.access_token := Login.generateMockToken r1 u;
                Login.refresh_token := Login.generateMockToken r2 (u +:+ "_refresh");
                Login.token_type := "Bearer";
                Login.expires_in := 3600 |} |}) /\
  (JS.str_falsy (Login.username body) = true \/
   JS.str_falsy (Login.password body) = true ->
   Login.login r1 r2 body =
   {| Login.status := 400;
      Login.json := Login.Refused false "Username and password required" |}).
Proof.
  split.
  - intros u p Hu Hp Hu1 Hp1. unfold Login.login. rewrite Hu, Hp.
    rewrite (eqb_empty_false _ Hu1), (eqb_empty_false _ Hp1). reflexivity.
  - intros H. unfold Login.login.
    destruct (Login.username body) as [u|]; [|reflexivity].
    destruct (Login.password body) as [p|]; [|reflexivity].
    simpl in H. destruct H as [H|H]; rewrite H; simpl;
      [reflexivity | rewrite andb_false_r; reflexivity].
Qed.

Lemma login_nonempty_credentials_witness :
  Login.login {| Login.date_now := 1704067200000; Login.math_random := 1 # 3 |}
              {| Login.date_now := 1704067200001; Login.math_random := 2 # 3 |}
              {| Login.username := Some "demo"; Login.password := Some "secret" |} =
  {| Login.status := 200;
     Login.json :=
       Login.Granted true
         {| Login.access_token :=
              {| Login.token_username := "demo";
                 Login.token_timestamp := 1704067200000;
                 Login.token_random := 1 # 3 |};
            Login.refresh_token :=
              {| Login.token_username := "demo_refresh";
                 Login.token_timestamp := 1704067200001;
                 Login.token_random := 2 # 3 |};
            Login.token_type := "Bearer";
            Login.expires_in := 3600 |} |} /\
  Login.login {| Login.date_now := 1704067200000; Login.math_random := 1 # 3 |}
              {| Login.date_now := 1704067200001; Login.math_random := 2 # 3 |}
              {| Login.username := Some "demo"; Login.password := None |} =
  {| Login.status := 400;
     Login.json := Login.Refused false "Username and password required" |}.
Proof.
  split.
  - exact (proj1 (login_nonempty_credentials
                    {| Login.date_now := 1704067200000; Login.math_random := 1 # 3 |}
                    {| Login.date_now := 1704067200001; Login.math_random := 2 # 3 |}
                    {| Login.username := Some "demo";
                       Login.password := Some "secret" |}) "demo" "secret"
             eq_refl eq_refl ltac:(discriminate) ltac:(discriminate)).
  - exact (proj2 (login_nonempty_credentials
                    {| Login.date_now := 1704067200000; Login.math_random := 1 # 3 |}
                    {| Login.date_now := 1704067200001; Login.math_random := 2 # 3 |}
                    {| Login.username := Some "demo"; Login.password := None |})
             (or_intror eq_refl)).
Defined.

(** ** Reports: validation *)

Section ReportValidation.

Import Reports.

Variable h : Host.

(** The value returned, when there is one, is [true]. *)
Lemma validateReportParameters_cases (params : Params) :
  validateReportParameters h params = Return true \/
  exists msg, validateReportParameters h params = Throw msg /\
    In msg [ "Please select date range";
             "From date cannot be later than to date";
             "Date range cannot exceed 365 days";
             "Invalid report type";
             "Invalid report format" ].
Proof.
  unfold validateReportParameters.
  destruct (fromDate params) as [from|], (toDate params) as [to|];
    try (right; eexists; split; [reflexivity | simpl; tauto]).
  repeat match goal with
         | |- context [if ?b then _ else _] => destruct b
         end;
    try (left; reflexivity);
    right; eexists; (split; [reflexivity | simpl; tauto]).
Qed.

(** C8: validateReportParameters never returns false: it returns true or
    throws, so the branch of generateReport that throws 'Invalid report
    parameters' on a false result is never taken, and generateReport is the
    function without that branch. *)
Theorem validateReportParameters_never_false :
  (forall params, validateReportParameters h params <> Return false) /\
  (forall params,
      validateReportParameters h params = Return true \/
      exists msg, validateReportParameters h params = Throw msg) /\
  (forall c log_random f w mgr,
      generateReport h c log_random f w mgr =
      match validateReportParameters h (getReportParameters f) with
      | Throw msg => generation_failed c log_random w mgr msg
      | Return _ =>
          match createReportData h w c (getReportParameters f) with
          | Throw msg => generation_failed c log_random w mgr msg
          | Return reportData =>
              generation_done h c log_random w mgr (getReportParameters f)
                reportData
          end
      end).
Proof.
  split; [|split].
  - intros params Hfalse.
    destruct (validateReportParameters_cases params) as [H|(msg & H & _)];
      rewrite H in Hfalse; discriminate Hfalse.
  - intros params.
    destruct (validateReportParameters_cases params) as [H|(msg & H & _)]; eauto.
  - intros c log_random f w mgr. unfold generateReport.
    destruct (validateReportParameters_cases (getReportParameters f))
      as [H|(msg & H & _)]; rewrite H; reflexivity.
Qed.

(** What a rejected request leaves behind: the manager as it was, nothing to
    download, and one displayed line with the message. *)
Lemma generateReport_rejected c log_random f w mgr msg :
  validateReportParameters h (getReportParameters f) = Throw msg ->
  let out := generateReport h c log_random f w mgr in
  manager out = mgr /\
  downloads out = [] /\
  shown out = showResults w "Report Generation Results"
                ["❌ Report generation failed: " +:+ msg] "report-results".
Proof.
  intros H. unfold generateReport. rewrite H. repeat split.
Qed.

(** The requests that validation rejects: a date missing or empty, a from
    date later than the to date, a range of more than 365 days, a type for
    which [reportTemplates] has no property, own or inherited, or a format
    other than json, csv and pdf. *)
Lemma validateReportParameters_rejects (params : Params) :
  JS.str_falsy (fromDate params) = true \/
  JS.str_falsy (toDate params) = true \/
  date_gt (new_Date h (fromDate params)) (new_Date h (toDate params)) = true \/
  num_gt (days_between (new_Date h (fromDate params))
                       (new_Date h (toDate params))) 365 = true \/
  reportTemplates_get (type params) = Absent \/
  JS.mem (format params) ["json"; "csv"; "pdf"] = false ->
  exists msg, validateReportParameters h params = Throw msg.
Proof.
  intros H.
  destruct (validateReportParameters_cases params) as [Hok|(msg & Hm & _)];
    [|eauto].
  exfalso. revert Hok. unfold validateReportParameters.
  destruct (fromDate params) as [from|]; [|discriminate].
  destruct (toDate params) as [to|]; [|discriminate].
  cbn [JS.str_falsy new_Date] in H.
  destruct (String.eqb from "") eqn:Hf; [discriminate|].
  destruct (String.eqb to "") eqn:Ht; [discriminate|].
  cbn [orb].
  destruct (date_gt _ _) eqn:Hgt; [discriminate|].
  destruct (num_gt _ _) eqn:Hdays; [discriminate|].
  destruct (lookup_truthy (reportTemplates_get (type params))) eqn:Hty;
    cbn [negb]; [|discriminate].
  destruct (JS.mem (format params) _) eqn:Hfmt; cbn [negb]; [|discriminate].
  intros _.
  destruct H as [H|[H|[H|[H|[H|H]]]]]; try discriminate H.
  rewrite H in Hty. discriminate Hty.
Qed.

(** The types that pass: the five templates and the names found on
    [Object.prototype]. *)
Lemma type_accepted (type_ : string) :
  lookup_truthy (reportTemplates_get type_) = true <->
  In type_ ["completed"; "cancelled"; "performance"; "errors"; "all"] \/
  In type_ ("__proto__" :: JS.Object_prototype_functions).
Proof.
  unfold reportTemplates_get, JS.Object_prototype_get, reportTemplates,
    JS.Object_prototype_functions.
  cbn [JS.assoc JS.mem existsb In].
  repeat match goal with
         | |- context [String.eqb type_ ?s] =>
             destruct (String.eqb_spec type_ s) as [->|?]
         end; simpl; split; intros H; try reflexivity; try tauto;
    try discriminate H;
    repeat match goal with
           | H : _ \/ _ |- _ => destruct H
           | H : False |- _ => destruct H
           end; congruence.
Qed.

End ReportValidation.

(** C2, evaluated on the code: the request of type 'constructor', a name
    that reportTemplates inherits from Object.prototype, passes validation
    although it is none of the five report types, and generateReport adds a
    report record to the history for it. *)
Theorem inherited_type_is_accepted :
  let f := Reports.form "2024-01-01" "2024-01-31" "constructor" "json" in
  let out := Reports.generateReport Reports.browser Reports.chance (1 # 2) f
               Reports.page Reports.no_history in
  ~ In "constructor" ["completed"; "cancelled"; "performance"; "errors"; "all"] /\
  Reports.validateReportParameters Reports.browser
    (Reports.getReportParameters f) = Reports.Return true /\
  length (Reports.reportHistory (Reports.manager out)) = 1 /\
  map Reports.record_type (Reports.reportHistory (Reports.manager out))
  = ["constructor"] /\
  length (Reports.downloads out) = 1.
Proof.
  cbn zeta. split.
  - simpl. intros H. repeat destruct H as [H|H]; try discriminate H. exact H.
  - vm_compute. repeat split.
Qed.

(** ** Reports: the order generators *)

Section ReportGenerators.

Import Reports.

Variables (h : Host) (w : Window) (c : Chance).

Lemma createReportData_completed (params : Params) :
  type params = "completed" ->
  exists info,
    createReportData h w c params =
    Return (generateCompletedOrdersReport h w c
              {| reportInfo := info; summary := []; records := [] |} params).
Proof.
  intros Hty. unfold createReportData. rewrite Hty. cbn. eauto.
Qed.

(** C5: the document generated for a completed-orders request has a
    summary whose total_orders is the length of its records list. *)
Theorem completed_total_orders (params : Params) :
  type params = "completed" ->
  exists d,
    createReportData h w c params = Return d /\
    JS.get (summary d) "total_orders" = JS.Number (inject_Z (Z.of_nat (length (records d)))).
Proof.
  intros Hty. destruct (createReportData_completed params Hty) as [info ->].
  eexists. split; [reflexivity|].
  unfold generateCompletedOrdersReport. cbn [summary records].
  rewrite length_map. reflexivity.
Qed.

Lemma ceil_days_same_day (params : Params) (d : string) (t : Z) :
  fromDate params = Some d -> toDate params = Some d ->
  parseDate h d = Some t ->
  ceil_days h params = Some 0%Z.
Proof.
  intros Hf Ht Hp. unfold ceil_days. rewrite Hf, Ht. cbn [new_Date].
  rewrite Hp. cbn [days_between]. rewrite Z.sub_diag. reflexivity.
Qed.

(** C10: a request whose from date and to date are the same readable date
    passes validation, the day count of the generators is zero, and the
    completed-orders and cancelled-orders generators produce no record and
    summaries whose counts are all zero. *)
Theorem same_day_report_is_empty (params : Params) (d : string) (t : Z)
  (reportData : ReportData) :
  fromDate params = Some d -> toDate params = Some d ->
  d <> EmptyString ->
  parseDate h d = Some t ->
  lookup_truthy (reportTemplates_get (type params)) = true ->
  JS.mem (format params) ["json"; "csv"; "pdf"] = true ->
  validateReportParameters h params = Return true /\
  ceil_days h params = Some 0%Z /\
  records (generateCompletedOrdersReport h w c reportData params) = [] /\
  summary (generateCompletedOrdersReport h w c reportData params) =
    [ ("total_orders", JS.Number 0);
      ("total_revenue", JS.Str "0.00");
      ("average_order_value", JS.Str "0.00");
      ("average_delivery_time", JS.Number 0);
      ("average_rating", JS.Str "0.0") ] /\
  records (generateCancelledOrdersReport h w c reportData params) = [] /\
  summary (generateCancelledOrdersReport h w c reportData params) =
    [ ("total_cancelled", JS.Number 0);
      ("total_refunded", JS.Str "0.00");
      ("cancellation_reasons", JS.Object []);
      ("customer_cancelled", JS.Number 0);
      ("restaurant_cancelled", JS.Number 0);
      ("refunds_processed", JS.Number 0);
      ("refunds_pending", JS.Number 0) ].
Proof.
  intros Hf Ht Hd Hp Hty Hfmt.
  pose proof (ceil_days_same_day params d t Hf Ht Hp) as Hdays.
  assert (Hcompleted : forall v, sample_orders h w c v params = []).
  { intros v. unfold sample_orders. rewrite Hdays, Hf, Ht. cbn [new_Date].
    rewrite Hp. reflexivity. }
  assert (Hcancelled : forall v, sample_cancelled h w c v params = []).
  { intros v. unfold sample_cancelled. rewrite Hdays, Hf, Ht. cbn [new_Date].
    rewrite Hp. reflexivity. }
  split; [|split; [exact Hdays|]].
  - unfold validateReportParameters. rewrite Hf, Ht.
    rewrite (eqb_empty_false d Hd). cbn [orb].
    unfold date_gt. rewrite Hp, Z.ltb_irrefl.
    cbn [days_between]. rewrite Z.sub_diag.
    rewrite Hty, Hfmt. reflexivity.
  - unfold generateCompletedOrdersReport, generateCancelledOrdersReport.
    cbn [records summary]. rewrite Hcompleted, Hcancelled.
    repeat split.
Qed.

(** Dates that the host cannot read are not rejected either: no comparison
    with NaN holds, the day count of the generators is NaN and their loops do
    not run. *)
Lemma unreadable_dates_accepted (params : Params) (from to : string)
  (reportData : ReportData) :
  fromDate params = Some from -> toDate params = Some to ->
  from <> EmptyString -> to <> EmptyString ->
  parseDate h from = None \/ parseDate h to = None ->
  lookup_truthy (reportTemplates_get (type params)) = true ->
  JS.mem (format params) ["json"; "csv"; "pdf"] = true ->
  validateReportParameters h params = Return true /\
  ceil_days h params = None /\
  records (generateCompletedOrdersReport h w c reportData params) = [] /\
  records (generateCancelledOrdersReport h w c reportData params) = [].
Proof.
  intros Hf Ht Hf1 Ht1 Hp Hty Hfmt.
  assert (Hdays : days_between (parseDate h from) (parseDate h to) = None).
  { destruct Hp as [-> | ->]; [reflexivity|].
    destruct (parseDate h from); reflexivity. }
  assert (Hgt : date_gt (parseDate h from) (parseDate h to) = false).
  { destruct Hp as [-> | ->]; [reflexivity|].
    destruct (parseDate h from); reflexivity. }
  repeat split.
  - unfold validateReportParameters. rewrite Hf, Ht.
    rewrite (eqb_empty_false from Hf1), (eqb_empty_false to Ht1). cbn [orb].
    rewrite Hgt, Hdays, Hty, Hfmt. reflexivity.
  - unfold ceil_days. rewrite Hf, Ht. cbn [new_Date]. rewrite Hdays. reflexivity.
  - unfold generateCompletedOrdersReport, sample_orders, ceil_days.
    cbn [records]. rewrite Hf, Ht. cbn [new_Date]. rewrite Hdays.
    destruct (parseDate h from), (parseDate h to); reflexivity.
  - unfold generateCancelledOrdersReport, sample_cancelled, ceil_days.
    cbn [records]. rewrite Hf, Ht. cbn [new_Date]. rewrite Hdays.
    destruct (parseDate h from), (parseDate h to); reflexivity.
Qed.

End ReportGenerators.

Lemma completed_total_orders_witness :
  let params :=
    Reports.getReportParameters
      (Reports.form "2024-01-01" "2024-01-31" "completed" "json") in
  Reports.type params = "completed" /\
  exists d,
    Reports.createReportData Reports.browser Reports.page Reports.chance params
    = Reports.Return d /\
    JS.get (Reports.summary d) "total_orders"
    = JS.Number (inject_Z (Z.of_nat (length (Reports.records d)))).
Proof.
  split; [reflexivity|].
  apply (completed_total_orders Reports.browser Reports.page Reports.chance).
  reflexivity.
Defined.

Lemma same_day_report_is_empty_witness :
  let params :=
    Reports.getReportParameters
      (Reports.form "2024-01-15" "2024-01-15" "completed" "csv") in
  Reports.validateReportParameters Reports.browser params = Reports.Return true /\
  Reports.ceil_days Reports.browser params = Some 0%Z /\
  Reports.records
    (Reports.generateCompletedOrdersReport Reports.browser Reports.page
       Reports.chance
       {| Reports.reportInfo :=
            {| Reports.title := None; Reports.info_description := None;
               Reports.generatedAt := "2024-02-01T00:00:00.000Z";
               Reports.dateRange := (None, None);
               Reports.vendor :=
                 {| Reports.code := "DEMO001"; Reports.vendor_name := "Demo";
                    Reports.vendor_environment := "staging" |} |};
          Reports.summary := []; Reports.records := [] |} params) = [].
Proof.
  cbn zeta.
  pose proof
    (same_day_report_is_empty Reports.browser Reports.page Reports.chance
       (Reports.getReportParameters
          (Reports.form "2024-01-15" "2024-01-15" "completed" "csv"))
       "2024-01-15" 1705276800000%Z
       {| Reports.reportInfo :=
            {| Reports.title := None; Reports.info_description := None;
               Reports.generatedAt := "2024-02-01T00:00:00.000Z";
               Reports.dateRange := (None, None);
               Reports.vendor :=
                 {| Reports.code := "DEMO001"; Reports.vendor_name := "Demo";
                    Reports.vendor_environment := "staging" |} |};
          Reports.summary := []; Reports.records := [] |}
       eq_refl eq_refl ltac:(discriminate) ltac:(vm_compute; reflexivity)
       eq_refl eq_refl) as (Hv & Hd & Hr & _).
  repeat split; assumption.
Defined.

(** ** Reports: the CSV formatter *)

Section CsvColumns.

Import Reports.

(** *** The order on strings *)

Lemma string_leb_trans (a b c : string) :
  String.leb a b = true -> String.leb b c = true -> String.leb a c = true.
Proof.
  unfold String.leb. revert b c.
  induction a as [|x a IH]; intros [|y b] [|z c]; simpl;
    try discriminate; try reflexivity.
  unfold Ascii.compare.
  destruct (N.compare_spec (N_of_ascii x) (N_of_ascii y)) as [Exy|Lxy|Gxy];
    intros H1; try discriminate H1;
    destruct (N.compare_spec (N_of_ascii y) (N_of_ascii z)) as [Eyz|Lyz|Gyz];
    intros H2; try discriminate H2;
    destruct (N.compare_spec (N_of_ascii x) (N_of_ascii z)) as [Exz|Lxz|Gxz];
    try reflexivity; try lia.
  eapply IH; eassumption.
Qed.

#[local] Instance string_le_trans : Transitive string_le.
Proof. intros a b c. apply string_leb_trans. Qed.

#[local] Instance string_le_total : Total string_le.
Proof. intros a b. apply String.leb_total. Qed.

(** *** The set of columns *)

Lemma mem_spec (k : string) (l : list string) : JS.mem k l = true <-> k ∈ l.
Proof.
  unfold JS.mem. rewrite existsb_exists. split.
  - intros (x & Hin & Heq). apply String.eqb_eq in Heq as ->.
    apply list_elem_of_In, Hin.
  - intros Hin. exists k. split; [apply list_elem_of_In, Hin | apply String.eqb_refl].
Qed.

Lemma set_add_spec (k : string) (s : list string) :
  NoDup s ->
  NoDup (set_add k s) /\ forall x, x ∈ set_add k s <-> x ∈ s \/ x = k.
Proof.
  intros Hnd. unfold set_add. destruct (JS.mem k s) eqn:Hmem.
  - apply mem_spec in Hmem. split; [assumption|].
    intros x. split; [auto|]. intros [H| ->]; assumption.
  - assert (Hnot : k ∉ s).
    { intros Hin. apply mem_spec in Hin. congruence. }
    split.
    + apply NoDup_app. repeat split; [assumption| |apply NoDup_singleton].
      intros x Hx Hx'. apply list_elem_of_singleton in Hx'. subst. contradiction.
    + intros x. rewrite elem_of_app, list_elem_of_singleton. reflexivity.
Qed.

Lemma add_keys_spec (record : list (string * JS.Value)) (ks cols : list string) :
  NoDup cols ->
  let cols' :=
    fold_left
      (fun cols key => if scalar (JS.get record key) then set_add key cols else cols)
      ks cols in
  NoDup cols' /\
  forall x, x ∈ cols' <->
            x ∈ cols \/ (x ∈ ks /\ scalar (JS.get record x) = true).
Proof.
  revert cols. induction ks as [|k ks IH]; intros cols Hnd; simpl.
  - split; [assumption|]. intros x. split; [auto|].
    intros [H|[H _]]; [assumption|]. inversion H.
  - destruct (scalar (JS.get record k)) eqn:Hk.
    + destruct (set_add_spec k cols Hnd) as [Hnd' Hmem].
      destruct (IH _ Hnd') as [Hnd'' Hmem'']. split; [assumption|].
      intros x. rewrite Hmem'', Hmem, elem_of_cons. split.
      * intros [[H| ->]|[H1 H2]]; auto.
      * intros [H|[[->|H1] H2]]; auto.
    + destruct (IH _ Hnd) as [Hnd'' Hmem'']. split; [assumption|].
      intros x. rewrite Hmem'', elem_of_cons. split.
      * intros [H|[H1 H2]]; auto.
      * intros [H|[[->|H1] H2]]; auto. congruence.
Qed.

Lemma scalar_keys_of_spec (record : list (string * JS.Value)) (x : string) :
  x ∈ scalar_keys_of record <->
  x ∈ JS.keys record /\ scalar (JS.get record x) = true.
Proof.
  unfold scalar_keys_of. rewrite list_elem_of_filter.
  split; intros [H1 H2]; split; try assumption.
  - destruct (scalar (JS.get record x)); [reflexivity | contradiction].
  - rewrite H2. exact I.
Qed.

Lemma add_record_keys_spec (record : list (string * JS.Value)) (cols : list string) :
  NoDup cols ->
  NoDup (add_record_keys cols record) /\
  forall x, x ∈ add_record_keys cols record <->
            x ∈ cols \/ x ∈ scalar_keys_of record.
Proof.
  intros Hnd. unfold add_record_keys.
  destruct (add_keys_spec record (JS.keys record) cols Hnd) as [H1 H2].
  split; [assumption|]. intros x. rewrite H2, scalar_keys_of_spec. reflexivity.
Qed.

Lemma fold_columns_spec (records_ : list (list (string * JS.Value)))
  (cols : list string) :
  NoDup cols ->
  NoDup (fold_left add_record_keys records_ cols) /\
  forall x, x ∈ fold_left add_record_keys records_ cols <->
            x ∈ cols \/ x ∈ flat_map scalar_keys_of records_.
Proof.
  revert cols. induction records_ as [|r rs IH]; intros cols Hnd; simpl.
  - split; [assumption|]. intros x. split; [auto|].
    intros [H|H]; [assumption | inversion H].
  - destruct (add_record_keys_spec r cols Hnd) as [Hnd' Hmem].
    destruct (IH _ Hnd') as [Hnd'' Hmem'']. split; [assumption|].
    intros x. rewrite Hmem'', Hmem, elem_of_app. tauto.
Qed.

Lemma collect_columns_spec (records_ : list (list (string * JS.Value))) :
  NoDup (collect_columns records_) /\
  forall x, x ∈ collect_columns records_ <-> x ∈ flat_map scalar_keys_of records_.
Proof.
  destruct (fold_columns_spec records_ [] (NoDup_nil_2)) as [H1 H2].
  split; [exact H1|]. intros x. unfold collect_columns. rewrite H2.
  split; [intros [H|H]; [inversion H | exact H] | auto].
Qed.

(** The sorted column array: each scalar key once, in the order of code
    units. *)
Lemma columnArray_spec (records_ : list (list (string * JS.Value))) :
  NoDup (columnArray records_) /\
  StronglySorted string_le (columnArray records_) /\
  (forall x, x ∈ columnArray records_ <-> x ∈ flat_map scalar_keys_of records_) /\
  length (columnArray records_) = length (distinct_scalar_keys records_).
Proof.
  destruct (collect_columns_spec records_) as [Hnd Hmem].
  pose proof (merge_sort_Permutation string_le (collect_columns records_)) as Hperm.
  assert (Hnd' : NoDup (columnArray records_)).
  { unfold columnArray. rewrite Hperm. exact Hnd. }
  assert (Hmem' : forall x, x ∈ columnArray records_ <->
                            x ∈ flat_map scalar_keys_of records_).
  { intros x. unfold columnArray. rewrite Hperm. apply Hmem. }
  repeat split; try assumption; try apply Hmem'.
  - unfold columnArray. apply StronglySorted_merge_sort; apply _.
  - apply Permutation_length, NoDup_Permutation.
    + exact Hnd'.
    + apply NoDup_remove_dups.
    + intros x. unfold distinct_scalar_keys.
      rewrite elem_of_remove_dups. apply Hmem'.
Qed.

(** *** Quoting *)

Lemma undouble_double_quotes (s : string) : undouble (double_quotes s) = s.
Proof.
  induction s as [|c s IH]; simpl; [reflexivity|].
  destruct (Ascii.eqb c (ascii_of_nat 34)) eqn:Hc; simpl; rewrite Hc, IH; reflexivity.
Qed.

End CsvColumns.

Section CsvFormat.

Import Reports.

(** *** Reading the header back *)

Lemma split_on_no_sep (sep : ascii) (x : string) :
  occurs sep x = false -> split_on sep x = [x].
Proof.
  induction x as [|c x IH]; simpl; [reflexivity|].
  intros H. apply orb_false_iff in H as [Hc Hx].
  rewrite Hc, (IH Hx). reflexivity.
Qed.

Lemma split_on_app (sep : ascii) (x rest : string) :
  occurs sep x = false ->
  split_on sep (x +:+ String sep rest) = x :: split_on sep rest.
Proof.
  induction x as [|c x IH]; simpl.
  - intros _. rewrite Ascii.eqb_refl. reflexivity.
  - intros H. apply orb_false_iff in H as [Hc Hx].
    rewrite Hc, (IH Hx). reflexivity.
Qed.

(** Splitting a comma-joined line of fields without commas gives the fields
    back, when there is at least one. *)
Lemma split_on_concat (l : list string) :
  l <> [] ->
  Forall (fun x => occurs "," x = false) l ->
  split_on "," (String.concat "," l) = l.
Proof.
  induction l as [|x l IH]; [contradiction|].
  intros _ Hall. inversion Hall as [|? ? Hx Hl]; subst.
  destruct l as [|y l].
  - simpl. apply split_on_no_sep, Hx.
  - change (String.concat "," (x :: y :: l))
      with (x +:+ String "," (String.concat "," (y :: l))).
    rewrite split_on_app by exact Hx.
    rewrite IH by (discriminate || assumption). reflexivity.
Qed.

(** The header line, read as comma-separated text, has as many fields as
    there are distinct scalar keys, when there is such a key and no key has
    a comma in it. *)
Lemma header_field_count (records_ : list (list (string * JS.Value))) :
  columnArray records_ <> [] ->
  Forall (fun x => occurs "," x = false) (columnArray records_) ->
  length (split_on "," (String.concat "," (columnArray records_))) =
  length (distinct_scalar_keys records_).
Proof.
  intros Hne Hall. rewrite split_on_concat by assumption.
  apply columnArray_spec.
Qed.

Lemma flat_map_scalar_keys (records_ : list (list (string * JS.Value))) (k : string) :
  k ∈ flat_map scalar_keys_of records_ <->
  exists r, r ∈ records_ /\ k ∈ JS.keys r /\ scalar (JS.get r k) = true.
Proof.
  rewrite list_elem_of_In, in_flat_map. split.
  - intros (r & Hr & Hk). exists r. split; [apply list_elem_of_In, Hr|].
    apply scalar_keys_of_spec, list_elem_of_In, Hk.
  - intros (r & Hr & Hk). exists r. split; [apply list_elem_of_In, Hr|].
    apply list_elem_of_In, scalar_keys_of_spec, Hk.
Qed.

(** C4, as the code has it: for a non-empty record list the output is the
    header line and one line per record, joined by line feeds.  The header
    is the comma-joined column array, which holds each distinct scalar key of
    the records once (so its length is the number of distinct scalar keys),
    in sorted order.  Every line of data is the comma-joined cells of the
    record for these columns; a value that is neither null nor undefined is
    written between double quotes with its double quotes doubled (which can
    be undone), and a null or missing value gives an empty cell without
    quotes. *)
Theorem formatAsCSV_columns (h : Host) (d : ReportData) :
  records d <> [] ->
  let cols := columnArray (records d) in
  formatAsCSV h d =
    String.concat newline
      (String.concat "," cols
       :: map (fun r => String.concat "," (map (csv_cell h r) cols)) (records d)) /\
  length cols = length (distinct_scalar_keys (records d)) /\
  (forall k, k ∈ cols <->
     exists r, r ∈ records d /\ k ∈ JS.keys r /\ scalar (JS.get r k) = true) /\
  NoDup cols /\
  StronglySorted string_le cols /\
  (forall r k,
     (JS.is_nullish (JS.get r k) = true -> csv_cell h r k = EmptyString) /\
     (JS.is_nullish (JS.get r k) = false ->
      csv_cell h r k =
        quoted (double_quotes (JS.to_string (Number_toString h) (JS.get r k))) /\
      undouble (double_quotes (JS.to_string (Number_toString h) (JS.get r k)))
      = JS.to_string (Number_toString h) (JS.get r k))).
Proof.
  intros Hne. cbn zeta.
  destruct (columnArray_spec (records d)) as (Hnd & Hsorted & Hmem & Hlen).
  split; [|split; [|split; [|split; [|split]]]]; try assumption.
  - unfold formatAsCSV. destruct (records d) as [|r rs]; [contradiction|].
    reflexivity.
  - intros k. rewrite Hmem. apply flat_map_scalar_keys.
  - intros r k. unfold csv_cell, quoted. split; intros Hn; rewrite Hn.
    + reflexivity.
    + split; [reflexivity | apply undouble_double_quotes].
Qed.

End CsvFormat.

Lemma formatAsCSV_columns_witness :
  Reports.records (Reports.document Reports.two_records) <> [] /\
  Reports.formatAsCSV Reports.browser (Reports.document Reports.two_records) =
    String.concat Reports.newline
      (String.concat "," (Reports.columnArray Reports.two_records)
       :: map (fun r => String.concat ","
                          (map (Reports.csv_cell Reports.browser r)
                               (Reports.columnArray Reports.two_records)))
              Reports.two_records) /\
  length (Reports.columnArray Reports.two_records) = 3.
Proof.
  assert (Hne : Reports.records (Reports.document Reports.two_records) <> [])
    by discriminate.
  split; [exact Hne|].
  destruct (formatAsCSV_columns Reports.browser
              (Reports.document Reports.two_records) Hne) as (Hfmt & Hlen & _).
  split; [exact Hfmt|].
  vm_compute. reflexivity.
Defined.

(** The claim C4 as stated fails: a value that is null is a value of the
    record under a scalar key, and its cell is empty, with no double quote
    around it. *)
Lemma csv_null_value_not_quoted :
  let record := [("a", JS.Null); ("b", JS.Number 1)] in
  let d := Reports.document [record] in
  Reports.records d <> [] /\
  Reports.columnArray (Reports.records d) = ["a"; "b"] /\
  JS.get record "a" = JS.Null /\
  Reports.csv_cell Reports.browser record "a" = EmptyString /\
  (forall body, Reports.csv_cell Reports.browser record "a" <> Reports.quoted body) /\
  Reports.formatAsCSV Reports.browser d =
    "a,b" +:+ Reports.newline +:+ "," +:+ Reports.quoted "1".
Proof.
  cbn zeta. split; [discriminate|].
  split; [vm_compute; reflexivity|].
  split; [reflexivity|].
  split; [reflexivity|].
  split; [intros body H; vm_compute in H; discriminate H|].
  vm_compute. reflexivity.
Qed.

(** * Further properties *)

(** ** Monitoring: eviction, tracking and storage *)

Section MonitoringMore.

Import Monitoring.

Lemma addLog_logs h e m :
  logs (addLog h e m) = push_capped maxLogEntries (make_entry h e) (logs m).
Proof.
  unfold addLog. destruct (String.eqb _ "error"); reflexivity.
Qed.

(** X1: when the log list holds maxLogEntries entries, addLog drops the
    oldest entry and appends the new one, so the list keeps its length. *)
Theorem addLog_evicts_oldest h e m :
  length (logs m) = maxLogEntries ->
  logs (addLog h e m) = skipn 1 (logs m) ++ [make_entry h e] /\
  length (logs (addLog h e m)) = maxLogEntries.
Proof.
  intros Hfull. rewrite addLog_logs.
  rewrite (push_capped_full _ _ _ maxLogEntries_pos Hfull).
  split; [reflexivity|].
  rewrite length_app, length_skipn, Hfull. cbn [length].
  pose proof maxLogEntries_pos. lia.
Qed.

(** An entry whose level is 'error', whoever logs it, counts as a failed
    call and adds a point to the error-rate series; the number of API calls
    is not changed. *)
Lemma addLog_error_counts h e m :
  level (make_entry h e) = "error" ->
  failedCalls (performanceData (addLog h e m)) = (failedCalls (performanceData m) + 1)%Z /\
  apiCalls (performanceData (addLog h e m)) = apiCalls (performanceData m) /\
  successfulCalls (performanceData (addLog h e m)) = successfulCalls (performanceData m) /\
  errorRate (metrics (addLog h e m)) =
    push_capped maxMetricPoints
      {| point_timestamp := date_now h;
         value := if (0 <? apiCalls (performanceData m))%Z
                  then (inject_Z (failedCalls (performanceData m) + 1)
                        / inject_Z (apiCalls (performanceData m)) * 100)%Q
                  else 0%Q |}
      (errorRate (metrics m)).
Proof.
  intros Hlevel. unfold addLog. rewrite Hlevel. cbn. repeat split.
Qed.

Lemma addLog_keeps h e m :
  apiCallTracker (addLog h e m) = apiCallTracker m /\
  isMonitoring (addLog h e m) = isMonitoring m /\
  responseTime (metrics (addLog h e m)) = responseTime (metrics m) /\
  successRate (metrics (addLog h e m)) = successRate (metrics m) /\
  stored_logs (addLog h e m) = stored_logs m /\
  stored_metrics (addLog h e m) = stored_metrics m.
Proof.
  unfold addLog. destruct (String.eqb _ "error"); cbn; repeat split.
Qed.

Lemma untracked_end_is_rate_update h d m :
  (match ed_callId d with Some k => tracked k m | None => false end) = false ->
  trackAPICallEnd h d m = updateSuccessRate h m.
Proof.
  intros Hun. unfold trackAPICallEnd, tracked, tracker_has in *.
  destruct (apiCallTracker m) as [t|]; [|reflexivity].
  destruct (ed_callId d) as [k|]; [|reflexivity].
  destruct (tracker_get k t); [discriminate Hun | reflexivity].
Qed.

(** X2: an 'apiCallEnd' event for a call that is not in the tracker (or when
    there is no tracker, or no call id) is ignored except for one point added
    to the success-rate series: logs, counters, tracker and the two other
    series stay as they are. *)
Theorem untracked_end_only_adds_rate h d m :
  (match ed_callId d with Some k => tracked k m | None => false end) = false ->
  trackAPICallEnd h d m = updateSuccessRate h m /\
  logs (trackAPICallEnd h d m) = logs m /\
  performanceData (trackAPICallEnd h d m) = performanceData m /\
  apiCallTracker (trackAPICallEnd h d m) = apiCallTracker m /\
  responseTime (metrics (trackAPICallEnd h d m)) = responseTime (metrics m) /\
  errorRate (metrics (trackAPICallEnd h d m)) = errorRate (metrics m) /\
  length (successRate (metrics (trackAPICallEnd h d m))) =
    Nat.min maxMetricPoints (S (length (successRate (metrics m)))).
Proof.
  intros Hun. rewrite (untracked_end_is_rate_update h d m Hun). repeat split.
  unfold updateSuccessRate. cbn [metrics set_metrics successRate set_successRate].
  unfold push_capped.
  set (l := successRate (metrics m) ++ [_]).
  assert (Hl : length l = S (length (successRate (metrics m)))).
  { unfold l. rewrite length_app. simpl. lia. }
  destruct (Nat.ltb_spec maxMetricPoints (length l)) as [Hlt|Hge].
  - rewrite slice_last_length; try lia. apply maxMetricPoints_pos.
  - lia.
Qed.

(** *** The tracker as a map *)

Lemma Qeq_bool_sym_eq (a b : Q) : Qeq_bool a b = Qeq_bool b a.
Proof.
  destruct (Qeq_bool a b) eqn:Hab; symmetry.
  - apply Qeq_bool_iff. symmetry. apply Qeq_bool_iff, Hab.
  - destruct (Qeq_bool b a) eqn:Hba; [|reflexivity].
    apply Qeq_bool_iff in Hba. symmetry in Hba. apply Qeq_bool_iff in Hba.
    congruence.
Qed.

Lemma Qeq_bool_compat (a b c : Q) :
  Qeq_bool a b = true -> Qeq_bool a c = Qeq_bool b c.
Proof.
  intros Hab. apply Qeq_bool_iff in Hab.
  destruct (Qeq_bool a c) eqn:Hac; symmetry.
  - apply Qeq_bool_iff. apply Qeq_bool_iff in Hac. rewrite <- Hab. exact Hac.
  - destruct (Qeq_bool b c) eqn:Hbc; [|reflexivity].
    apply Qeq_bool_iff in Hbc. rewrite <- Hab in Hbc.
    apply Qeq_bool_iff in Hbc. congruence.
Qed.

Lemma tracker_get_compat (a b : Q) (t : Tracker) :
  Qeq_bool a b = true -> tracker_get a t = tracker_get b t.
Proof.
  intros Hab. induction t as [|[k d] t IH]; simpl; [reflexivity|].
  rewrite (Qeq_bool_compat a b k Hab), IH. reflexivity.
Qed.

Lemma tracker_get_set_same (k : Q) (d : CallData) (t : Tracker) :
  tracker_get k (tracker_set k d t) = Some d.
Proof.
  induction t as [|[k' d'] t IH]; simpl.
  - rewrite (proj2 (Qeq_bool_iff k k)) by reflexivity. reflexivity.
  - destruct (Qeq_bool k k') eqn:Hk; simpl; rewrite Hk; [reflexivity | exact IH].
Qed.

Lemma tracker_get_set_other (k k' : Q) (d : CallData) (t : Tracker) :
  Qeq_bool k' k = false ->
  tracker_get k' (tracker_set k d t) = tracker_get k' t.
Proof.
  intros Hne. induction t as [|[k0 d0] t IH]; simpl.
  - rewrite Hne. reflexivity.
  - destruct (Qeq_bool k k0) eqn:Hk; simpl.
    + destruct (Qeq_bool k' k0) eqn:Hk'; [|reflexivity].
      rewrite (Qeq_bool_sym_eq k' k0) in Hk'.
      rewrite (Qeq_bool_sym_eq k k0) in Hk.
      rewrite (Qeq_bool_compat k0 k' k Hk') in Hk.
      congruence.
    + rewrite IH. reflexivity.
Qed.

Lemma tracker_has_set (k k' : Q) (d : CallData) (t : Tracker) :
  tracker_has k' (tracker_set k d t) = Qeq_bool k' k || tracker_has k' t.
Proof.
  unfold tracker_has. destruct (Qeq_bool k' k) eqn:Hk.
  - rewrite (tracker_get_compat k' k _ Hk), tracker_get_set_same. reflexivity.
  - rewrite tracker_get_set_other by exact Hk. reflexivity.
Qed.

Lemma tracker_set_distinct (k : Q) (d : CallData) (t : Tracker) :
  tracker_keys_distinct t = true ->
  tracker_keys_distinct (tracker_set k d t) = true.
Proof.
  induction t as [|[k' d'] t IH]; simpl; intros H; [reflexivity|].
  apply andb_true_iff in H as [Hk' Ht].
  destruct (Qeq_bool k k') eqn:Hk; simpl.
  - rewrite Hk', Ht. reflexivity.
  - rewrite tracker_has_set, (Qeq_bool_sym_eq k' k), Hk. simpl.
    rewrite Hk', (IH Ht). reflexivity.
Qed.

Lemma tracker_get_delete_other (k k' : Q) (t : Tracker) :
  Qeq_bool k' k = false ->
  tracker_get k' (tracker_delete k t) = tracker_get k' t.
Proof.
  intros Hne. induction t as [|[k0 d0] t IH]; simpl; [reflexivity|].
  destruct (Qeq_bool k k0) eqn:Hk; simpl.
  - destruct (Qeq_bool k' k0) eqn:Hk'; [|reflexivity].
    rewrite (Qeq_bool_sym_eq k' k0) in Hk'.
    rewrite (Qeq_bool_sym_eq k k0) in Hk.
    rewrite (Qeq_bool_compat k0 k' k Hk') in Hk. congruence.
  - rewrite IH. reflexivity.
Qed.

Lemma tracker_has_delete_le (k k' : Q) (t : Tracker) :
  tracker_has k' t = false -> tracker_has k' (tracker_delete k t) = false.
Proof.
  unfold tracker_has. induction t as [|[k0 d0] t IH]; simpl; [reflexivity|].
  destruct (Qeq_bool k' k0) eqn:Hk'; [discriminate|]. intros H.
  destruct (Qeq_bool k k0); simpl; [exact H|]. rewrite Hk'. apply IH, H.
Qed.

Lemma tracker_delete_distinct (k : Q) (t : Tracker) :
  tracker_keys_distinct t = true ->
  tracker_keys_distinct (tracker_delete k t) = true.
Proof.
  induction t as [|[k' d'] t IH]; simpl; intros H; [reflexivity|].
  apply andb_true_iff in H as [Hk' Ht].
  destruct (Qeq_bool k k'); simpl; [exact Ht|].
  rewrite (IH Ht), andb_true_r.
  apply negb_true_iff in Hk'. apply negb_true_iff.
  apply tracker_has_delete_le, Hk'.
Qed.

Lemma tracker_has_delete_same (k : Q) (t : Tracker) :
  tracker_keys_distinct t = true ->
  tracker_has k (tracker_delete k t) = false.
Proof.
  unfold tracker_has.
  induction t as [|[k' d'] t IH]; simpl; intros H; [reflexivity|].
  apply andb_true_iff in H as [Hk' Ht].
  destruct (Qeq_bool k k') eqn:Hk; simpl.
  - apply negb_true_iff in Hk'. unfold tracker_has in Hk'.
    rewrite (tracker_get_compat k k' t Hk). exact Hk'.
  - rewrite Hk. apply IH, Ht.
Qed.

Lemma trackAPICallStart_tracker h d m :
  apiCallTracker (trackAPICallStart h d m) =
  Some (tracker_set (start_callId h d)
          {| startTime := performance_now h; endpoint := sd_endpoint d;
             method := sd_method d |}
          (match apiCallTracker m with Some t => t | None => [] end)).
Proof.
  unfold trackAPICallStart.
  match goal with
  | |- apiCallTracker (addLog ?h ?e ?x) = _ =>
      rewrite (proj1 (addLog_keeps h e x))
  end.
  reflexivity.
Qed.

Lemma trackAPICallStart_tracker_ok h d m :
  tracker_ok m -> tracker_ok (trackAPICallStart h d m).
Proof.
  unfold tracker_ok. rewrite trackAPICallStart_tracker. intros Hok.
  apply tracker_set_distinct. destruct (apiCallTracker m); [exact Hok | reflexivity].
Qed.

Lemma trackAPICallStart_performance h d m :
  apiCalls (performanceData (trackAPICallStart h d m)) =
    (apiCalls (performanceData m) + 1)%Z /\
  successfulCalls (performanceData (trackAPICallStart h d m)) =
    successfulCalls (performanceData m) /\
  failedCalls (performanceData (trackAPICallStart h d m)) =
    failedCalls (performanceData m).
Proof. unfold trackAPICallStart, addLog. cbn. repeat split. Qed.

(** X3: an 'apiCallStart' event registers the call under its id with the
    start time read from the clock, counts one more API call and no
    completed call, and leaves every other id tracked or untracked as it
    was. *)
Theorem start_registers_call h d m :
  let m' := trackAPICallStart h d m in
  let k := start_callId h d in
  (exists t, apiCallTracker m' = Some t /\
             tracker_get k t =
             Some {| startTime := performance_now h; endpoint := sd_endpoint d;
                     method := sd_method d |}) /\
  tracked k m' = true /\
  (forall k', Qeq_bool k' k = false -> tracked k' m' = tracked k' m) /\
  (tracker_ok m -> tracker_ok m') /\
  apiCalls (performanceData m') = (apiCalls (performanceData m) + 1)%Z /\
  successfulCalls (performanceData m') = successfulCalls (performanceData m) /\
  failedCalls (performanceData m') = failedCalls (performanceData m).
Proof.
  cbn zeta. pose proof (trackAPICallStart_tracker h d m) as Ht.
  split; [|split; [|split; [|split]]].
  - eexists. split; [exact Ht|]. apply tracker_get_set_same.
  - unfold tracked. rewrite Ht. unfold tracker_has.
    rewrite tracker_get_set_same. reflexivity.
  - intros k' Hne. unfold tracked. rewrite Ht, tracker_has_set, Hne.
    destruct (apiCallTracker m); reflexivity.
  - apply trackAPICallStart_tracker_ok.
  - apply trackAPICallStart_performance.
Qed.

Lemma trackAPICallEnd_tracker h d m :
  apiCallTracker (trackAPICallEnd h d m) =
  match apiCallTracker m, ed_callId d with
  | Some t, Some k =>
      match tracker_get k t with
      | Some _ => Some (tracker_delete k t)
      | None => Some t
      end
  | other, _ => other
  end.
Proof.
  unfold trackAPICallEnd.
  destruct (apiCallTracker m) as [t|] eqn:Ht; [|cbn; exact Ht].
  destruct (ed_callId d) as [k|]; [|cbn; exact Ht].
  destruct (tracker_get k t); [|cbn; exact Ht].
  reflexivity.
Qed.

Lemma trackAPICallEnd_untracks h d k m :
  tracker_ok m -> ed_callId d = Some k ->
  tracked k (trackAPICallEnd h d m) = false.
Proof.
  intros Hok Hk. unfold tracked. rewrite trackAPICallEnd_tracker, Hk.
  unfold tracker_ok in Hok.
  destruct (apiCallTracker m) as [t|]; [|reflexivity].
  destruct (tracker_get k t) eqn:Hget.
  - apply tracker_has_delete_same, Hok.
  - unfold tracker_has. rewrite Hget. reflexivity.
Qed.

(** X4: after an 'apiCallEnd' event the call id is not tracked any more,
    so a second end event for the same call changes neither the counters nor
    the logs: a call is completed once. *)
Theorem end_untracks_call h h2 d k m :
  tracker_ok m ->
  ed_callId d = Some k ->
  let m' := trackAPICallEnd h d m in
  tracked k m' = false /\
  tracker_ok m' /\
  performanceData (trackAPICallEnd h2 d m') = performanceData m' /\
  logs (trackAPICallEnd h2 d m') = logs m'.
Proof.
  intros Hok Hk. cbn zeta.
  pose proof (trackAPICallEnd_untracks h d k m Hok Hk) as Hun.
  split; [exact Hun|]. split.
  - unfold tracker_ok in *. rewrite trackAPICallEnd_tracker, Hk.
    destruct (apiCallTracker m) as [t|]; [|exact I].
    destruct (tracker_get k t); [apply tracker_delete_distinct|]; exact Hok.
  - assert (Hd : (match ed_callId d with
                  | Some k0 => tracked k0 (trackAPICallEnd h d m)
                  | None => false
                  end) = false) by (rewrite Hk; exact Hun).
    rewrite (untracked_end_is_rate_update h2 d _ Hd).
    split; reflexivity.
Qed.

(** Every operation keeps the tracker a map. *)
Lemma step_tracker_ok m o : tracker_ok m -> tracker_ok (step m o).
Proof.
  intros Hok. destruct o as [h e|h d|h d| h | h | h]; simpl.
  - unfold tracker_ok. rewrite (proj1 (addLog_keeps h e m)). exact Hok.
  - apply trackAPICallStart_tracker_ok, Hok.
  - unfold tracker_ok in *. rewrite trackAPICallEnd_tracker.
    destruct (apiCallTracker m) as [t|]; [|exact I].
    destruct (ed_callId d) as [k|]; [|exact Hok].
    destruct (tracker_get k t); [apply tracker_delete_distinct|]; exact Hok.
  - exact Hok.
  - exact Hok.
  - unfold tracker_ok, clearLogs.
    match goal with
    | |- context [apiCallTracker (addLog ?h ?e ?x)] =>
        rewrite (proj1 (addLog_keeps h e x))
    end.
    exact Hok.
Qed.

Lemma run_tracker_ok ops m : tracker_ok m -> tracker_ok (run m ops).
Proof.
  revert m. induction ops as [|o ops IH]; intros m Hok; simpl; [exact Hok|].
  apply IH, step_tracker_ok, Hok.
Qed.

Lemma last_value_push_capped (cap : nat) (x : MetricPoint) (l : list MetricPoint) :
  0 < cap -> last_value (push_capped cap x l) = Some (value x).
Proof.
  intros Hcap. unfold last_value, push_capped.
  destruct (Nat.ltb_spec cap (length (l ++ [x]))) as [Hlt|Hge].
  - unfold JS.slice_last. destruct (Nat.eqb_spec cap 0) as [H0|_]; [lia|].
    rewrite skipn_app.
    replace (length (l ++ [x]) - cap - length l) with 0
      by (rewrite length_app in *; cbn [length] in *; lia).
    cbn [skipn]. rewrite rev_app_distr. reflexivity.
  - rewrite rev_app_distr. reflexivity.
Qed.

Lemma track_found_effect h d k c t m :
  let p := performanceData m in
  let p' := performanceData (track_found h d k c t m) in
  apiCalls p' = apiCalls p /\
  successfulCalls p' = (successfulCalls p + (if ed_success d then 1 else 0))%Z /\
  failedCalls p' = (failedCalls p + (if ed_success d then 0 else 2))%Z /\
  totalResponseTime p' = (totalResponseTime p + (performance_now h - startTime c))%Q /\
  responseTime (metrics (track_found h d k c t m)) =
    push_capped maxMetricPoints
      {| point_timestamp := date_now h;
         value := (performance_now h - startTime c)%Q |}
      (responseTime (metrics m)).
Proof.
  cbn zeta. unfold track_found, addLog.
  destruct (ed_success d); cbn; repeat split; lia.
Qed.

(** X5: a tracked call from start to end.  For a call id that is not zero,
    the start event followed by the end event counts one API call, adds the
    elapsed time between the two clock readings to the total and to the
    response-time series, counts one successful call when the call
    succeeded and two failed calls when it failed, and leaves the id
    untracked. *)
Theorem tracked_call_round_trip h1 h2 k endpoint_ method_ ok status m :
  Qeq_bool k 0 = false ->
  tracker_ok m ->
  let m2 :=
    trackAPICallEnd h2 {| ed_callId := Some k; ed_success := ok; ed_status := status |}
      (trackAPICallStart h1
         {| sd_callId := Some k; sd_endpoint := endpoint_; sd_method := method_ |} m) in
  let p := performanceData m in
  let p2 := performanceData m2 in
  apiCalls p2 = (apiCalls p + 1)%Z /\
  successfulCalls p2 = (successfulCalls p + (if ok then 1 else 0))%Z /\
  failedCalls p2 = (failedCalls p + (if ok then 0 else 2))%Z /\
  totalResponseTime p2 =
    (totalResponseTime p + (performance_now h2 - performance_now h1))%Q /\
  last_value (responseTime (metrics m2)) =
    Some (performance_now h2 - performance_now h1)%Q /\
  tracked k m2 = false.
Proof.
  intros Hk Hok. cbn zeta.
  set (d1 := {| sd_callId := Some k; sd_endpoint := endpoint_; sd_method := method_ |}).
  set (d2 := {| ed_callId := Some k; ed_success := ok; ed_status := status |}).
  assert (Hid : start_callId h1 d1 = k).
  { unfold start_callId, d1. cbn. rewrite Hk. reflexivity. }
  pose proof (trackAPICallStart_tracker h1 d1 m) as Ht.
  set (t := tracker_set _ _ _) in Ht.
  assert (Hget : tracker_get k t =
                 Some {| startTime := performance_now h1; endpoint := endpoint_;
                         method := method_ |}).
  { unfold t. rewrite Hid. apply tracker_get_set_same. }
  pose proof (trackAPICallStart_tracker_ok h1 d1 m) as Hok1.
  destruct (trackAPICallStart_performance h1 d1 m) as (Ha & Hs & Hf).
  assert (Htotal : totalResponseTime (performanceData (trackAPICallStart h1 d1 m))
                   = totalResponseTime (performanceData m)).
  { unfold trackAPICallStart, addLog. cbn. reflexivity. }
  assert (Hend : trackAPICallEnd h2 d2 (trackAPICallStart h1 d1 m) =
                 updateSuccessRate h2
                   (track_found h2 d2 k
                      {| startTime := performance_now h1; endpoint := endpoint_;
                         method := method_ |} t (trackAPICallStart h1 d1 m))).
  { unfold trackAPICallEnd. rewrite Ht. cbn [ed_callId d2]. rewrite Hget.
    reflexivity. }
  destruct (track_found_effect h2 d2 k
              {| startTime := performance_now h1; endpoint := endpoint_;
                 method := method_ |} t (trackAPICallStart h1 d1 m))
    as (Ea & Es & Ef & Et & Er).
  cbn [ed_success d2 startTime] in Es, Ef, Et, Er.
  split; [|split; [|split; [|split; [|split]]]].
  - rewrite Hend. cbn [performanceData updateSuccessRate set_metrics].
    rewrite Ea. exact Ha.
  - rewrite Hend. cbn [performanceData updateSuccessRate set_metrics].
    rewrite Es, Hs. reflexivity.
  - rewrite Hend. cbn [performanceData updateSuccessRate set_metrics].
    rewrite Ef, Hf. reflexivity.
  - rewrite Hend. cbn [performanceData updateSuccessRate set_metrics].
    rewrite Et, Htotal. reflexivity.
  - rewrite Hend.
    cbn [metrics updateSuccessRate set_metrics responseTime set_successRate].
    rewrite Er. apply last_value_push_capped, maxMetricPoints_pos.
  - apply (trackAPICallEnd_untracks h2 d2 k _ (Hok1 Hok) eq_refl).
Qed.

(** X6: startMonitoring does nothing on a manager that is monitoring
    already, so starting twice logs a single 'Monitoring system started'
    entry; stopMonitoring does nothing on a manager that is stopped. *)
Theorem startMonitoring_idempotent h1 h2 m :
  startMonitoring h2 (startMonitoring h1 m) = startMonitoring h1 m /\
  stopMonitoring h2 (stopMonitoring h1 m) = stopMonitoring h1 m /\
  isMonitoring (startMonitoring h1 m) = true /\
  isMonitoring (stopMonitoring h1 m) = false.
Proof.
  assert (Hstart : isMonitoring (startMonitoring h1 m) = true).
  { unfold startMonitoring. destruct (isMonitoring m) eqn:Hm; [exact Hm|].
    rewrite (proj1 (proj2 (addLog_keeps _ _ _))). reflexivity. }
  assert (Hstop : isMonitoring (stopMonitoring h1 m) = false).
  { unfold stopMonitoring. destruct (isMonitoring m) eqn:Hm; [|exact Hm].
    rewrite (proj1 (proj2 (addLog_keeps _ _ _))). reflexivity. }
  repeat split; try assumption.
  - unfold startMonitoring at 1. rewrite Hstart. reflexivity.
  - unfold stopMonitoring at 1. rewrite Hstop. reflexivity.
Qed.



(** X8: the constructor yields a state within bounds whatever log list was
    stored, provided that the stored metric series, if any, are within
    their bound: stored logs are cut to the last maxLogEntries on loading,
    stored series are taken as they are. *)
Theorem new_Manager_within_bounds h tracker storedLogs storedMetrics :
  match storedMetrics with
  | Some x => length (responseTime x) <= maxMetricPoints /\
              length (successRate x) <= maxMetricPoints /\
              length (errorRate x) <= maxMetricPoints
  | None => True
  end ->
  within_bounds (new_Manager h tracker storedLogs storedMetrics).
Proof.
  intros Hm. unfold new_Manager.
  match goal with
  | |- within_bounds (startMonitoring h ?x) => assert (Hb : within_bounds x)
  end.
  { unfold loadStoredData, within_bounds. cbn.
    destruct storedLogs as [l|], storedMetrics as [x|]; cbn;
      repeat split; try tauto; try lia.
    all: unfold JS.slice_last;
      destruct (Nat.eqb_spec maxLogEntries 0) as [H0|_]; [discriminate H0|];
      rewrite length_skipn; lia. }
  unfold startMonitoring. destruct (isMonitoring _); [exact Hb|].
  apply addLog_bounds. destruct Hb as (H1 & H2 & H3 & H4).
  unfold within_bounds. cbn. auto.
Qed.

End MonitoringMore.

Lemma addLog_evicts_oldest_witness :
  length (Monitoring.logs (Monitoring.full_of_logs Monitoring.fresh))
  = Monitoring.maxLogEntries /\
  Monitoring.logs
    (Monitoring.addLog (Monitoring.host_at 5)
       (Monitoring.info_log (Monitoring.host_at 5) "one more")
       (Monitoring.full_of_logs Monitoring.fresh)) =
  skipn 1 (Monitoring.logs (Monitoring.full_of_logs Monitoring.fresh))
  ++ [Monitoring.make_entry (Monitoring.host_at 5)
        (Monitoring.info_log (Monitoring.host_at 5) "one more")].
Proof.
  assert (H : length (Monitoring.logs (Monitoring.full_of_logs Monitoring.fresh))
              = Monitoring.maxLogEntries).
  { unfold Monitoring.full_of_logs. cbn [Monitoring.logs Monitoring.set_logs].
    rewrite length_map, length_seq. reflexivity. }
  split; [exact H|].
  exact (proj1 (addLog_evicts_oldest (Monitoring.host_at 5)
                  (Monitoring.info_log (Monitoring.host_at 5) "one more")
                  (Monitoring.full_of_logs Monitoring.fresh) H)).
Defined.

Lemma untracked_end_only_adds_rate_witness :
  Monitoring.trackAPICallEnd (Monitoring.host_at 20) (Monitoring.call_end 7 true)
    Monitoring.fresh
  = Monitoring.updateSuccessRate (Monitoring.host_at 20) Monitoring.fresh.
Proof.
  exact (proj1 (untracked_end_only_adds_rate (Monitoring.host_at 20)
                  (Monitoring.call_end 7 true) Monitoring.fresh eq_refl)).
Defined.

Lemma end_untracks_call_witness :
  let m := Monitoring.run Monitoring.fresh
             [Monitoring.OpTrackAPICallStart (Monitoring.host_at 10)
                (Monitoring.call_start 1)] in
  let m' := Monitoring.trackAPICallEnd (Monitoring.host_at 130)
              (Monitoring.call_end 1 false) m in
  Monitoring.tracked 1 m = true /\
  Monitoring.tracked 1 m' = false /\
  Monitoring.performanceData
    (Monitoring.trackAPICallEnd (Monitoring.host_at 140)
       (Monitoring.call_end 1 false) m')
  = Monitoring.performanceData m'.
Proof.
  cbn zeta. split; [reflexivity|].
  pose proof
    (end_untracks_call (Monitoring.host_at 130) (Monitoring.host_at 140)
       (Monitoring.call_end 1 false) 1
       (Monitoring.run Monitoring.fresh
          [Monitoring.OpTrackAPICallStart (Monitoring.host_at 10)
             (Monitoring.call_start 1)])
       eq_refl eq_refl) as (H1 & _ & H2 & _).
  split; [exact H1 | exact H2].
Defined.

Lemma tracked_call_round_trip_witness :
  let m2 :=
    Monitoring.trackAPICallEnd (Monitoring.host_at 130)
      {| Monitoring.ed_callId := Some 1%Q; Monitoring.ed_success := false;
         Monitoring.ed_status := JS.Number 500 |}
      (Monitoring.trackAPICallStart (Monitoring.host_at 10)
         {| Monitoring.sd_callId := Some 1%Q; Monitoring.sd_endpoint := "/v1/orders";
            Monitoring.sd_method := "POST" |} Monitoring.fresh) in
  Monitoring.apiCalls (Monitoring.performanceData m2) = 1%Z /\
  Monitoring.successfulCalls (Monitoring.performanceData m2) = 0%Z /\
  Monitoring.failedCalls (Monitoring.performanceData m2) = 2%Z.
Proof.
  cbn zeta.
  pose proof
    (tracked_call_round_trip (Monitoring.host_at 10) (Monitoring.host_at 130) 1
       "/v1/orders" "POST" false (JS.Number 500) Monitoring.fresh
       eq_refl I) as (H1 & H2 & H3 & _).
  repeat split; assumption.
Defined.

Lemma new_Manager_within_bounds_witness :
  Monitoring.within_bounds
    (Monitoring.new_Manager (Monitoring.host_at 0) None
       (Some (map Monitoring.numbered_entry (seq 0 1200))) None).
Proof.
  exact (new_Manager_within_bounds (Monitoring.host_at 0) None
           (Some (map Monitoring.numbered_entry (seq 0 1200))) None I).
Defined.

(** ** Configuration: what is valid, saving and importing *)

Section ConfigMore.

Import Config.

Variable URL_parses : string -> bool.

Lemma check_integrationName_nil data :
  check_integrationName data = [] <->
  exists name, integrationName data = Some name /\
               RegExp.test name_pattern name = true.
Proof.
  unfold check_integrationName. split.
  - destruct (integrationName data) as [s|]; [|discriminate].
    destruct (String.eqb s ""); [discriminate|].
    destruct (RegExp.test name_pattern s) eqn:Ht; [|discriminate].
    intros _. eauto.
  - intros (name & -> & Ht).
    destruct (String.eqb_spec name EmptyString) as [->|_]; [discriminate Ht|].
    rewrite Ht. reflexivity.
Qed.

Lemma check_integrationCode_nil data :
  check_integrationCode data = [] <->
  exists code, integrationCode data = Some code /\
               RegExp.test code_pattern code = true.
Proof.
  unfold check_integrationCode. split.
  - destruct (integrationCode data) as [s|]; [|discriminate].
    destruct (String.eqb s ""); [discriminate|].
    destruct (RegExp.test code_pattern s) eqn:Ht; [|discriminate].
    intros _. eauto.
  - intros (code & -> & Ht).
    destruct (String.eqb_spec code EmptyString) as [->|_]; [discriminate Ht|].
    rewrite Ht. reflexivity.
Qed.

Lemma check_baseUrl_nil data :
  check_baseUrl URL_parses data = [] <->
  exists url, baseUrl data = Some url /\ url <> EmptyString /\
              URL_parses url = true /\ String.prefix "https://" url = true.
Proof.
  unfold check_baseUrl, isValidUrl. split.
  - destruct (baseUrl data) as [s|]; [|discriminate].
    destruct (String.eqb_spec s EmptyString) as [->|Hne]; [discriminate|].
    destruct (URL_parses s) eqn:Hp; [|discriminate].
    destruct (String.prefix "https://" s) eqn:Hs; [|discriminate].
    intros _. eauto.
  - intros (url & -> & Hne & Hp & Hs).
    rewrite (eqb_empty_false url Hne), Hp, Hs. reflexivity.
Qed.

Lemma check_pluginUsername_nil data :
  check_pluginUsername data = [] <-> JS.str_falsy (pluginUsername data) = false.
Proof.
  unfold check_pluginUsername.
  destruct (JS.str_falsy (pluginUsername data)); split; intros H;
    try reflexivity; discriminate H.
Qed.

Lemma check_pluginPassword_nil data :
  check_pluginPassword data = [] <-> JS.str_falsy (pluginPassword data) = false.
Proof.
  unfold check_pluginPassword.
  destruct (JS.str_falsy (pluginPassword data)); split; intros H;
    try reflexivity; discriminate H.
Qed.

Lemma length_zero_nil {A : Type} (l : list A) : Nat.eqb (length l) 0 = true <-> l = [].
Proof.
  destruct l; simpl; split; intros H; try reflexivity; discriminate H.
Qed.

Lemma validateConfiguration_valid_checks (cur data : Configuration) :
  isValid (validateConfiguration URL_parses cur (Some data)) = true <->
  check_integrationName data = [] /\ check_integrationCode data = [] /\
  check_baseUrl URL_parses data = [] /\ check_pluginUsername data = [] /\
  check_pluginPassword data = [].
Proof.
  unfold validateConfiguration. cbn [isValid]. rewrite length_zero_nil. split.
  - intros H.
    apply app_eq_nil in H as [H1 H]. apply app_eq_nil in H as [H2 H].
    apply app_eq_nil in H as [H3 H]. apply app_eq_nil in H as [H4 H5].
    auto.
  - intros (H1 & H2 & H3 & H4 & H5). rewrite H1, H2, H3, H4, H5. reflexivity.
Qed.

(** X9: the validator accepts a record exactly when all five rules hold:
    the name matches the name pattern, the code matches the code pattern,
    the base URL is not empty, parses and starts with https://, and the
    username and the password are present and not empty.  It never reports
    more than five errors. *)
Theorem validateConfiguration_valid_iff (cur data : Configuration) :
  (isValid (validateConfiguration URL_parses cur (Some data)) = true <->
   (exists name, integrationName data = Some name /\
                 RegExp.test name_pattern name = true) /\
   (exists code, integrationCode data = Some code /\
                 RegExp.test code_pattern code = true) /\
   (exists url, baseUrl data = Some url /\ url <> EmptyString /\
                URL_parses url = true /\ String.prefix "https://" url = true) /\
   JS.str_falsy (pluginUsername data) = false /\
   JS.str_falsy (pluginPassword data) = false) /\
  length (errors (validateConfiguration URL_parses cur (Some data))) <= 5.
Proof.
  split.
  - rewrite validateConfiguration_valid_checks.
    rewrite check_integrationName_nil, check_integrationCode_nil,
      check_baseUrl_nil, check_pluginUsername_nil, check_pluginPassword_nil.
    reflexivity.
  - unfold validateConfiguration. cbn [errors]. rewrite !length_app.
    assert (H1 : length (check_integrationName data) <= 1).
    { unfold check_integrationName.
      destruct (integrationName data) as [s|]; [|simpl; lia].
      destruct (String.eqb s ""); [simpl; lia|].
      destruct (negb _); simpl; lia. }
    assert (H2 : length (check_integrationCode data) <= 1).
    { unfold check_integrationCode.
      destruct (integrationCode data) as [s|]; [|simpl; lia].
      destruct (String.eqb s ""); [simpl; lia|].
      destruct (negb _); simpl; lia. }
    assert (H3 : length (check_baseUrl URL_parses data) <= 1).
    { unfold check_baseUrl.
      destruct (baseUrl data) as [s|]; [|simpl; lia].
      destruct (String.eqb s ""); [simpl; lia|].
      destruct (negb (isValidUrl URL_parses s)); [simpl; lia|].
      destruct (negb _); simpl; lia. }
    assert (H4 : length (check_pluginUsername data) <= 1).
    { unfold check_pluginUsername. destruct (JS.str_falsy _); simpl; lia. }
    assert (H5 : length (check_pluginPassword data) <= 1).
    { unfold check_pluginPassword. destruct (JS.str_falsy _); simpl; lia. }
    lia.
Qed.

(** X10: the name pattern accepts exactly the texts of at least two code
    units that are all letters or white space and end with a letter; a
    digit, a hyphen or a single letter make a name invalid. *)
Theorem name_pattern_plain (s : string) :
  RegExp.test name_pattern s = true <->
  2 <= String.length s /\
  forallb RegExp.letter_or_space (list_ascii_of_string s) = true /\
  RegExp.letter (List.last (list_ascii_of_string s) " "%char) = true.
Proof.
  rewrite name_pattern_spec.
  assert (Hlen : String.length s = length (list_ascii_of_string s)).
  { induction s as [|c s IH]; simpl; [reflexivity | rewrite IH; reflexivity]. }
  rewrite Hlen. generalize (list_ascii_of_string s) as l. clear Hlen s.
  intros l. split.
  - intros (u & v & -> & Hu & Hlu & Hv & Hlv).
    destruct (exists_last Hv) as (v' & c & ->).
    rewrite forallb_app in Hlv. apply andb_true_iff in Hlv as [Hv' Hc].
    simpl in Hc. rewrite andb_true_r in Hc.
    repeat split.
    + rewrite !length_app. simpl. destruct u; [contradiction | simpl; lia].
    + rewrite !forallb_app, Hlu. simpl. unfold RegExp.letter_or_space.
      rewrite Hc. simpl. rewrite andb_true_r.
      apply forallb_forall. intros x Hx.
      rewrite forallb_forall in Hv'. rewrite (Hv' x Hx). reflexivity.
    + rewrite app_assoc, List.last_last. exact Hc.
  - intros (Hlen & Hall & Hlast).
    destruct l as [|c0 l]; [simpl in Hlen; lia|].
    assert (Hne : c0 :: l <> []) by discriminate.
    destruct (exists_last Hne) as (u & c & Heq). rewrite Heq in *.
    rewrite List.last_last in Hlast.
    rewrite forallb_app in Hall. apply andb_true_iff in Hall as [Hu _].
    exists u, [c]. repeat split; try assumption.
    + intros ->. rewrite length_app in Hlen. simpl in Hlen. lia.
    + discriminate.
    + simpl. rewrite Hlast. reflexivity.
Qed.

(** The validator reads five properties of the record and nothing else. *)
Lemma validateConfiguration_reads_five (cur cur' a b : Configuration) :
  integrationName a = integrationName b ->
  integrationCode a = integrationCode b ->
  baseUrl a = baseUrl b ->
  pluginUsername a = pluginUsername b ->
  pluginPassword a = pluginPassword b ->
  validateConfiguration URL_parses cur (Some a) =
  validateConfiguration URL_parses cur' (Some b).
Proof.
  intros H1 H2 H3 H4 H5.
  unfold validateConfiguration, check_integrationName, check_integrationCode,
    check_baseUrl, check_pluginUsername, check_pluginPassword.
  rewrite H1, H2, H3, H4, H5. reflexivity.
Qed.

Lemma valid_fields_present (cur data : Configuration) :
  isValid (validateConfiguration URL_parses cur (Some data)) = true ->
  is_Some (integrationName data) /\ is_Some (integrationCode data) /\
  is_Some (baseUrl data) /\ is_Some (pluginUsername data) /\
  is_Some (pluginPassword data).
Proof.
  intros H. apply validateConfiguration_valid_checks in H
    as (H1 & H2 & H3 & Hus & Hpa).
  apply check_integrationName_nil in H1 as (n & Hn & _).
  apply check_integrationCode_nil in H2 as (c & Hc & _).
  apply check_baseUrl_nil in H3 as (u & Hu & _).
  apply check_pluginUsername_nil in Hus.
  apply check_pluginPassword_nil in Hpa.
  rewrite Hn, Hc, Hu.
  destruct (pluginUsername data); [|discriminate Hus].
  destruct (pluginPassword data); [|discriminate Hpa].
  repeat split; eauto.
Qed.

Lemma spread_valid (cur cur' base formData : Configuration) (now : string) :
  isValid (validateConfiguration URL_parses cur (Some formData)) = true ->
  validateConfiguration URL_parses cur'
    (Some (set_updatedAt now (spread base formData))) =
  validateConfiguration URL_parses cur (Some formData).
Proof.
  intros H.
  destruct (valid_fields_present cur formData H)
    as ([n Hn] & [c Hc] & [u Hu] & [us Hus] & [pa Hpa]).
  apply validateConfiguration_reads_five; cbn;
    rewrite ?Hn, ?Hc, ?Hu, ?Hus, ?Hpa; reflexivity.
Qed.

(** X11: the application saves form data only when they are valid.
    Invalid form data leave the manager and the stored item as they were
    and the errors are shown.  Valid form data are merged over the current
    configuration with the time of the save; the result is valid, and it is
    what a later loadConfiguration reads back when the storage could be
    written.  When the storage cannot be written the stored item is
    untouched, yet the configuration in memory has changed. *)
Theorem save_form_gate (now now' : string) (writable : bool)
  (formData : Configuration) (m : Manager) :
  let validation :=
    validateConfiguration URL_parses (currentConfig m) (Some formData) in
  let out := fst (save_form URL_parses now writable formData m) in
  let m' := snd (save_form URL_parses now writable formData m) in
  (isValid validation = false ->
   m' = m /\ out = FixErrors (map (fun e => "❌ " +:+ e) (errors validation))) /\
  (isValid validation = true ->
   currentConfig m' = set_updatedAt now (spread (currentConfig m) formData) /\
   isValid (validateConfiguration URL_parses (currentConfig m')
              (Some (currentConfig m'))) = true /\
   (writable = true ->
    out = SavedOk /\ stored m' = Some (currentConfig m') /\
    loadConfiguration now' (item_of m') = currentConfig m') /\
   (writable = false -> out = SaveFailed /\ stored m' = stored m)).
Proof.
  cbn zeta. unfold save_form. split.
  - intros H. rewrite H. cbn. split; reflexivity.
  - intros H. rewrite H. unfold saveConfiguration.
    destruct writable; cbn [fst snd currentConfig stored].
    + split; [reflexivity|]. split.
      * rewrite (spread_valid (currentConfig m)) by exact H. exact H.
      * split; [|discriminate]. intros _. repeat split.
    + split; [reflexivity|]. split.
      * rewrite (spread_valid (currentConfig m)) by exact H. exact H.
      * split; [discriminate|]. intros _. split; reflexivity.
Qed.


End ConfigMore.

(** ** Reports: what the generators produce *)

Section GeneratedOrders.

Import Reports.

Lemma floor_between (x : Q) (a b : Z) :
  (inject_Z a <= x)%Q -> (x < inject_Z b)%Q -> (a <= Qfloor x < b)%Z.
Proof.
  intros Ha Hb. split.
  - rewrite <- (Qfloor_Z a). apply Qfloor_resp_le, Ha.
  - rewrite Zlt_Qlt. eapply Qle_lt_trans; [apply Qfloor_le | exact Hb].
Qed.

Lemma inject_Z_pos (n : Z) : (0 < n)%Z -> (0 < inject_Z n)%Q.
Proof. intros H. change (inject_Z 0 < inject_Z n)%Q. rewrite <- Zlt_Qlt. exact H. Qed.

Lemma inject_Z_nonneg (n : Z) : (0 <= n)%Z -> (0 <= inject_Z n)%Q.
Proof. intros H. change (inject_Z 0 <= inject_Z n)%Q. rewrite <- Zle_Qle. exact H. Qed.

(** [Math.floor(r * n) + k] for [r] in [0, 1) lies between [k] and
    [k + n - 1]. *)
Lemma floor_scaled_range (r : Q) (n k : Z) :
  (0 <= r)%Q -> (r < 1)%Q -> (0 < n)%Z ->
  (k <= floor_scaled r n k <= k + n - 1)%Z.
Proof.
  intros H0 H1 Hn. unfold floor_scaled.
  assert (Hn' : (0 < inject_Z n)%Q) by (apply inject_Z_pos, Hn).
  assert (Hlo : (inject_Z 0 <= r * inject_Z n)%Q).
  { apply Qmult_le_0_compat; [exact H0 | apply Qlt_le_weak, Hn']. }
  assert (Hhi : (r * inject_Z n < inject_Z n)%Q).
  { apply Qlt_le_trans with (1 * inject_Z n)%Q.
    - apply Qmult_lt_compat_r; assumption.
    - rewrite Qmult_1_l. apply Qle_refl. }
  destruct (floor_between _ 0 n Hlo Hhi). lia.
Qed.

Lemma trunc_between (x : Q) (a b : Z) :
  (inject_Z a <= x)%Q -> (x <= inject_Z b)%Q -> (a <= trunc x <= b)%Z.
Proof.
  intros Ha Hb. unfold trunc. destruct (Qlt_le_dec x 0).
  - split.
    + rewrite <- (Qceiling_Z a). apply Qceiling_resp_le, Ha.
    + rewrite <- (Qceiling_Z b). apply Qceiling_resp_le, Hb.
  - split.
    + rewrite <- (Qfloor_Z a). apply Qfloor_resp_le, Ha.
    + rewrite <- (Qfloor_Z b). apply Qfloor_resp_le, Hb.
Qed.

(** A date drawn between [from] and [to]. *)
Lemma drawn_date_between (r : Q) (from to : Z) :
  (0 <= r)%Q -> (r < 1)%Q -> (from <= to)%Z ->
  (from <= trunc (inject_Z from + r * inject_Z (to - from)) <= to)%Z.
Proof.
  intros H0 H1 Hle.
  assert (Hd : (0 <= inject_Z (to - from))%Q) by (apply inject_Z_nonneg; lia).
  assert (Hp : (0 <= r * inject_Z (to - from))%Q)
    by (apply Qmult_le_0_compat; assumption).
  assert (Hq : (r * inject_Z (to - from) <= inject_Z (to - from))%Q).
  { apply Qle_trans with (1 * inject_Z (to - from))%Q.
    - apply Qmult_le_compat_r; [apply Qlt_le_weak, H1 | exact Hd].
    - rewrite Qmult_1_l. apply Qle_refl. }
  assert (Hto : (inject_Z to == inject_Z from + inject_Z (to - from))%Q).
  { rewrite <- inject_Z_plus. replace (from + (to - from))%Z with to by lia.
    reflexivity. }
  apply trunc_between.
  - lra.
  - rewrite Hto. lra.
Qed.

Variables (w : Window) (c : Chance).

Hypothesis random_in_unit : forall n, (0 <= random c n)%Q /\ (random c n < 1)%Q.

(** X13: for random values in [0, 1) and a from date that is not after the
    to date, every generated completed order has its order date between the
    two dates, its completion between the order date and one hour later, a
    delivery time from 20 to 49 minutes and a rating of 4 or 5. *)
Theorem completed_order_ranges (vendorCode : string) (from to : Z) (i : nat) :
  (from <= to)%Z ->
  let o := completed_order w c vendorCode from to i in
  (from <= order_date o <= to)%Z /\
  (order_date o <= completion_time o <= order_date o + 3600000)%Z /\
  (20 <= delivery_time_minutes o <= 49)%Z /\
  (4 <= rating o <= 5)%Z.
Proof.
  intros Hle. cbn zeta. unfold completed_order.
  cbn [order_date completion_time delivery_time_minutes rating].
  pose proof (random_in_unit (1 + 7 * i + 0)) as [A0 A1].
  pose proof (random_in_unit (1 + 7 * i + 1)) as [B0 B1].
  pose proof (random_in_unit (1 + 7 * i + 5)) as [C0 C1].
  pose proof (random_in_unit (1 + 7 * i + 6)) as [D0 D1].
  split; [apply drawn_date_between; assumption|].
  split.
  - set (d := trunc _).
    apply trunc_between.
    + lra.
    + rewrite inject_Z_plus.
      change (inject_Z 3600000) with (3600000 # 1)%Q. lra.
  - split.
    + pose proof (floor_scaled_range _ 30 20 C0 C1 eq_refl). lia.
    + pose proof (floor_scaled_range _ 2 4 D0 D1 eq_refl). lia.
Qed.

(** The same for a cancelled order: the order date lies between the two
    dates, the cancellation within thirty minutes after it and the reason is
    one of the six reasons. *)
Lemma cancelled_order_ranges (vendorCode : string) (from to : Z) (i : nat) :
  (from <= to)%Z ->
  let o := cancelled_order w c vendorCode from to i in
  (from <= cancelled_order_date o <= to)%Z /\
  (cancelled_order_date o <= cancelled_at o <= cancelled_order_date o + 1800000)%Z /\
  exists reason, cancellation_reason o = Some reason /\ In reason cancellationReasons.
Proof.
  intros Hle. cbn zeta. unfold cancelled_order.
  cbn [cancelled_order_date cancelled_at cancellation_reason].
  pose proof (random_in_unit (1 + 7 * i + 0)) as [A0 A1].
  pose proof (random_in_unit (1 + 7 * i + 1)) as [B0 B1].
  pose proof (random_in_unit (1 + 7 * i + 3)) as [C0 C1].
  split; [apply drawn_date_between; assumption|].
  split.
  - set (d := trunc _).
    apply trunc_between.
    + lra.
    + rewrite inject_Z_plus.
      change (inject_Z 1800000) with (1800000 # 1)%Q. lra.
  - pose proof (floor_scaled_range _ (Z.of_nat (length cancellationReasons)) 0
                  C0 C1 eq_refl) as Hk.
    unfold reason_at.
    set (k := floor_scaled _ _ 0) in *.
    destruct (Z.ltb_spec k 0) as [Hneg|_]; [lia|].
    destruct (nth_error cancellationReasons (Z.to_nat k)) as [reason|] eqn:Hnth.
    + exists reason. split; [reflexivity|]. eapply nth_error_In, Hnth.
    + apply nth_error_None in Hnth. cbn [length cancellationReasons] in *. lia.
Qed.

Variable h : Host.

(** X14: for readable dates with the from date not after the to date, and
    random values in [0, 1), the completed-orders report holds the day count
    times ordersPerDay records, between 10 and 29 per day, and the
    cancelled-orders report between 1 and 5 per day. *)
Theorem report_sizes (params : Params) (from to : Z) (reportData : ReportData) :
  new_Date h (fromDate params) = Some from ->
  new_Date h (toDate params) = Some to ->
  (from <= to)%Z ->
  exists days : Z,
    ceil_days h params = Some days /\ (0 <= days)%Z /\
    (10 * days <=
     Z.of_nat (length (records (generateCompletedOrdersReport h w c reportData params)))
     <= 29 * days)%Z /\
    (days <=
     Z.of_nat (length (records (generateCancelledOrdersReport h w c reportData params)))
     <= 5 * days)%Z.
Proof.
  intros Hf Ht Hle.
  set (days := Qceiling (inject_Z (to - from) / inject_Z ms_per_day)).
  assert (Hdays : ceil_days h params = Some days).
  { unfold ceil_days. rewrite Hf, Ht. reflexivity. }
  assert (Hpos : (0 <= days)%Z).
  { unfold days. rewrite <- (Qceiling_Z 0). apply Qceiling_resp_le.
    apply Qle_shift_div_l; [reflexivity|].
    rewrite Qmult_0_l. apply inject_Z_nonneg. lia. }
  exists days. split; [exact Hdays|]. split; [exact Hpos|].
  pose proof (random_in_unit 0) as [R0 R1].
  unfold generateCompletedOrdersReport, generateCancelledOrdersReport,
    sample_orders, sample_cancelled.
  cbn [records]. rewrite Hf, Ht, Hdays, !length_map, !length_seq.
  unfold iterations.
  pose proof (floor_scaled_range _ 20 10 R0 R1 eq_refl) as Hc.
  pose proof (floor_scaled_range _ 5 1 R0 R1 eq_refl) as Hx.
  split; rewrite Z2Nat.id by nia; nia.
Qed.

End GeneratedOrders.

Lemma chance_in_unit (n : nat) :
  (0 <= Reports.random Reports.chance n)%Q /\ (Reports.random Reports.chance n < 1)%Q.
Proof.
  cbn [Reports.random Reports.chance].
  pose proof (Nat.mod_upper_bound (7 * n + 3) 10 ltac:(discriminate)) as Hlt.
  unfold Qle, Qlt. cbn [Qnum Qden]. split; lia.
Qed.

Lemma completed_order_ranges_witness :
  let o := Reports.completed_order Reports.page Reports.chance "DEMO001"
             1704067200000 1706659200000 3 in
  (1704067200000 <= Reports.order_date o <= 1706659200000)%Z /\
  (4 <= Reports.rating o <= 5)%Z.
Proof.
  cbn zeta.
  pose proof (completed_order_ranges Reports.page Reports.chance chance_in_unit
                "DEMO001" 1704067200000 1706659200000 3 ltac:(discriminate))
    as (H1 & _ & _ & H4).
  split; assumption.
Defined.

Lemma report_sizes_witness :
  let params :=
    Reports.getReportParameters
      (Reports.form "2024-01-01" "2024-01-31" "completed" "json") in
  exists days : Z,
    Reports.ceil_days Reports.browser params = Some days /\ (0 <= days)%Z /\
    (10 * days <=
     Z.of_nat (length (Reports.records
       (Reports.generateCompletedOrdersReport Reports.browser Reports.page
          Reports.chance (Reports.document []) params)))
     <= 29 * days)%Z /\
    (days <=
     Z.of_nat (length (Reports.records
       (Reports.generateCancelledOrdersReport Reports.browser Reports.page
          Reports.chance (Reports.document []) params)))
     <= 5 * days)%Z.
Proof.
  cbn zeta.
  apply (report_sizes Reports.page Reports.chance chance_in_unit Reports.browser
           (Reports.getReportParameters
              (Reports.form "2024-01-01" "2024-01-31" "completed" "json"))
           1704067200000 1706659200000 (Reports.document [])).
  - vm_compute. reflexivity.
  - vm_compute. reflexivity.
  - discriminate.
Defined.

(** ** The call counters along a run *)

Section MonitoringCounters.

Import Monitoring.

Lemma addLog_counters h e m :
  apiCalls (performanceData (addLog h e m)) = apiCalls (performanceData m) /\
  successfulCalls (performanceData (addLog h e m)) =
    successfulCalls (performanceData m) /\
  (failedCalls (performanceData m)
   <= failedCalls (performanceData (addLog h e m)))%Z /\
  tracker_size (addLog h e m) = tracker_size m.
Proof.
  unfold addLog, tracker_size.
  destruct (String.eqb _ "error"); cbn; repeat split; lia.
Qed.

Lemma tracker_set_length (k : Q) (d : CallData) (t : Tracker) :
  length (tracker_set k d t) <= S (length t).
Proof.
  induction t as [|[k' d'] t IH]; cbn; [lia|].
  destruct (Qeq_bool k k'); cbn; lia.
Qed.

Lemma tracker_delete_length (k : Q) (c : CallData) (t : Tracker) :
  tracker_get k t = Some c -> S (length (tracker_delete k t)) = length t.
Proof.
  induction t as [|[k' d'] t IH]; cbn; [discriminate|].
  destruct (Qeq_bool k k'); cbn; [reflexivity|].
  intros H. now rewrite IH.
Qed.

Lemma trackAPICallStart_counters h d m :
  counters_ok m ->
  counters_ok (trackAPICallStart h d m) /\
  apiCalls (performanceData (trackAPICallStart h d m)) =
    (apiCalls (performanceData m) + 1)%Z.
Proof.
  intros (Hs & Hf & Hle). unfold trackAPICallStart. cbn zeta.
  match goal with
  | |- context [addLog ?hh ?e ?x] =>
      destruct (addLog_counters hh e x) as (Ha & Hsu & Hfa & Ht)
  end.
  unfold counters_ok. rewrite Ha, Hsu, Ht.
  unfold tracker_size in *.
  cbn [apiCallTracker set_apiCallTracker set_performanceData performanceData
       incr_apiCalls apiCalls successfulCalls failedCalls] in *.
  match goal with
  | |- context [tracker_set ?k ?c ?t] => pose proof (tracker_set_length k c t)
  end.
  destruct (apiCallTracker m) as [t|]; cbn [length] in *; repeat split; lia.
Qed.

Lemma track_found_counters h d k c t m :
  apiCallTracker m = Some t -> tracker_get k t = Some c ->
  counters_ok m ->
  counters_ok (track_found h d k c t m) /\
  apiCalls (performanceData (track_found h d k c t m)) =
    apiCalls (performanceData m).
Proof.
  intros Ht Hget (Hs & Hf & Hle).
  pose proof (tracker_delete_length k c t Hget) as Hlen.
  unfold counters_ok, tracker_size in *. rewrite Ht in Hle.
  unfold track_found, addLog.
  destruct (ed_success d); cbn; repeat split; lia.
Qed.

Lemma updateSuccessRate_counters h m :
  counters_ok m -> counters_ok (updateSuccessRate h m).
Proof. intros H. exact H. Qed.

Lemma step_counters m o :
  counters_ok m ->
  counters_ok (step m o) /\
  apiCalls (performanceData (step m o)) =
    (apiCalls (performanceData m) + started [o])%Z.
Proof.
  intros Hok. destruct o as [h e|h d|h d|h|h|h]; cbn [step started].
  - destruct (addLog_counters h e m) as (Ha & Hs & Hf & Ht).
    destruct Hok as (H1 & H2 & H3).
    unfold counters_ok. rewrite Ha, Hs, Ht. repeat split; lia.
  - destruct (trackAPICallStart_counters h d m Hok) as [H1 H2].
    split; [exact H1|]. rewrite H2. lia.
  - unfold trackAPICallEnd.
    destruct (apiCallTracker m) as [t|] eqn:Ht;
      [|split; [exact Hok|cbn; lia]].
    destruct (ed_callId d) as [k|]; [|split; [exact Hok|cbn; lia]].
    destruct (tracker_get k t) as [c|] eqn:Hget;
      [|split; [exact Hok|cbn; lia]].
    destruct (track_found_counters h d k c t m Ht Hget Hok) as [H1 H2].
    split; [exact H1|]. cbn in *. lia.
  - split; [exact Hok|cbn; lia].
  - split; [exact Hok|cbn; lia].
  - unfold clearLogs.
    match goal with
    | |- context [addLog ?hh ?e ?x] =>
        destruct (addLog_counters hh e x) as (Ha & Hs & Hf & Ht)
    end.
    destruct Hok as (H1 & H2 & H3).
    unfold counters_ok. rewrite Ha, Hs, Ht. unfold tracker_size in *.
    cbn [saveData set_logs performanceData apiCallTracker] in *.
    repeat split; lia.
Qed.

Lemma started_app (a b : list Op) : started (a ++ b) = (started a + started b)%Z.
Proof.
  induction a as [|o a IH]; cbn [app started]; [lia|].
  destruct o; rewrite IH; lia.
Qed.

Lemma run_counters ops m :
  counters_ok m ->
  counters_ok (run m ops) /\
  apiCalls (performanceData (run m ops)) =
    (apiCalls (performanceData m) + started ops)%Z.
Proof.
  revert m. induction ops as [|o ops IH]; intros m Hok.
  - split; [exact Hok|cbn; lia].
  - change (run m (o :: ops)) with (run (step m o) ops).
    destruct (step_counters m o Hok) as [H1 H2].
    destruct (IH _ H1) as [H3 H4]. split; [exact H3|].
    rewrite H4, H2. change (o :: ops) with ([o] ++ ops).
    rewrite (started_app [o] ops). lia.
Qed.

Lemma new_Manager_counters h storedLogs storedMetrics :
  counters_ok (new_Manager h None storedLogs storedMetrics) /\
  apiCalls (performanceData (new_Manager h None storedLogs storedMetrics)) = 0%Z.
Proof.
  unfold new_Manager, startMonitoring, loadStoredData.
  destruct storedLogs, storedMetrics; cbn; unfold counters_ok; cbn;
    repeat split; lia.
Qed.

(** X24. The counters of a manager created on a page without a call tracker
    account for its calls whatever happens afterwards: after any sequence of
    operations apiCalls is the number of 'apiCallStart' events, the number
    of successful calls together with the calls still tracked is at most
    apiCalls, and so the success rate of getMonitoringSummary lies between
    0 and 100. *)
Theorem summary_success_rate_in_range (h : Host)
  (storedLogs : option (list LogEntry)) (storedMetrics : option Metrics)
  (ops : list Op) :
  let m := run (new_Manager h None storedLogs storedMetrics) ops in
  apiCalls (performanceData m) = started ops /\
  (0 <= successfulCalls (performanceData m))%Z /\
  (successfulCalls (performanceData m) + tracker_size m
   <= apiCalls (performanceData m))%Z /\
  (0 <= tracker_size m)%Z /\
  (0 <= summary_successRate m)%Q /\ (summary_successRate m <= 100)%Q.
Proof.
  cbn zeta.
  destruct (new_Manager_counters h storedLogs storedMetrics) as [H0 Hz].
  destruct (run_counters ops _ H0) as [(Hs & Hf & Hle) Ha].
  rewrite Hz in Ha. cbn in Ha.
  set (m := run _ ops) in *.
  assert (Hsize : (0 <= tracker_size m)%Z).
  { unfold tracker_size. destruct (apiCallTracker m); lia. }
  split; [exact Ha|]. split; [exact Hs|]. split; [exact Hle|].
  split; [exact Hsize|].
  unfold summary_successRate.
  destruct (Z.ltb_spec 0 (apiCalls (performanceData m))) as [Hpos|Hnon].
  - assert (Hq : (0 < inject_Z (apiCalls (performanceData m)))%Q)
      by (apply inject_Z_pos; exact Hpos).
    assert (Hsq : (0 <= inject_Z (successfulCalls (performanceData m)))%Q)
      by (apply inject_Z_nonneg; exact Hs).
    assert (Hleq : (inject_Z (successfulCalls (performanceData m))
                    <= inject_Z (apiCalls (performanceData m)))%Q)
      by (rewrite <- Zle_Qle; lia).
    split.
    + apply Qmult_le_0_compat; [|discriminate].
      apply Qle_shift_div_l; [exact Hq|]. rewrite Qmult_0_l. exact Hsq.
    + apply Qle_trans with (1 * 100)%Q; [|discriminate].
      apply Qmult_le_compat_r; [|discriminate].
      apply Qle_shift_div_r; [exact Hq|]. rewrite Qmult_1_l. exact Hleq.
  - split; discriminate.
Qed.

End MonitoringCounters.

(** ** Reports: what a request leaves behind *)

Section ReportOutcome.

Import Reports.

Variable h : Host.





Lemma push_capped_last {A : Type} (cap : nat) (x : A) (l : list A) :
  0 < cap -> exists older, Monitoring.push_capped cap x l = older ++ [x].
Proof.
  intros Hcap. unfold Monitoring.push_capped.
  destruct (Nat.ltb_spec cap (length (l ++ [x]))) as [Hlt|Hge]; [|eauto].
  unfold JS.slice_last. destruct (Nat.eqb_spec cap 0) as [H0|_]; [lia|].
  rewrite skipn_app.
  replace (length (l ++ [x]) - cap - length l) with 0
    by (rewrite length_app in *; cbn [length] in *; lia).
  cbn [skipn]. eauto.
Qed.

(** X16: a request that validation rejects is logged by the monitoring
    manager, when there is one, as an entry of level 'error' from the module
    ReportsManager, and therefore counts as one failed call there although no
    API call was made; the reports manager itself is left as it was and
    nothing is delivered. *)
Theorem rejected_request_counts_as_failed_call (c : Chance) (log_random : Q)
  (f : Form) (w : Window) (mgr : Manager) (mm : Monitoring.Manager) (msg : string) :
  validateReportParameters h (getReportParameters f) = Throw msg ->
  monitoringManager w = Some mm ->
  let out := generateReport h c log_random f w mgr in
  manager out = mgr /\ downloads out = [] /\
  exists mm' older entry,
    monitoringManager (window out) = Some mm' /\
    Monitoring.logs mm' = older ++ [entry] /\
    Monitoring.level entry = "error" /\
    Monitoring.message entry = "Report generation failed: " +:+ msg /\
    Monitoring.module entry = "ReportsManager" /\
    Monitoring.failedCalls (Monitoring.performanceData mm') =
      (Monitoring.failedCalls (Monitoring.performanceData mm) + 1)%Z /\
    Monitoring.apiCalls (Monitoring.performanceData mm') =
      Monitoring.apiCalls (Monitoring.performanceData mm).
Proof.
  intros Hv Hm. cbn zeta. unfold generateReport. rewrite Hv.
  unfold generation_failed. cbn [manager downloads window].
  split; [reflexivity|]. split; [reflexivity|].
  unfold logActivity. rewrite Hm. cbn [monitoringManager].
  match goal with
  | |- context [Monitoring.addLog ?hh ?e mm] =>
      set (host := hh); set (input := e)
  end.
  assert (Hlevel : Monitoring.level (Monitoring.make_entry host input) = "error")
    by reflexivity.
  destruct (push_capped_last Monitoring.maxLogEntries
              (Monitoring.make_entry host input) (Monitoring.logs mm)
              maxLogEntries_pos) as [older Holder].
  destruct (addLog_error_counts host input mm Hlevel) as (Hf & Ha & _).
  exists (Monitoring.addLog host input mm), older,
    (Monitoring.make_entry host input).
  split; [reflexivity|]. split; [rewrite addLog_logs; exact Holder|].
  split; [reflexivity|]. split.
  - unfold Monitoring.make_entry, input. cbn [Monitoring.message Monitoring.in_message].
    unfold JS.str_or. reflexivity.
  - split; [reflexivity|]. split; assumption.
Qed.

End ReportOutcome.


Lemma rejected_request_counts_as_failed_call_witness :
  let f := Reports.form "2024-01-31" "2024-01-01" "completed" "json" in
  let out := Reports.generateReport Reports.browser Reports.chance (1 # 2) f
               Reports.monitored_page Reports.no_history in
  Reports.validateReportParameters Reports.browser (Reports.getReportParameters f)
    = Reports.Throw "From date cannot be later than to date" /\
  Reports.manager out = Reports.no_history /\
  Reports.downloads out = [].
Proof.
  cbn zeta.
  assert (Hv : Reports.validateReportParameters Reports.browser
                 (Reports.getReportParameters
                    (Reports.form "2024-01-31" "2024-01-01" "completed" "json"))
               = Reports.Throw "From date cannot be later than to date")
    by (vm_compute; reflexivity).
  split; [exact Hv|].
  destruct (rejected_request_counts_as_failed_call Reports.browser Reports.chance
              (1 # 2) (Reports.form "2024-01-31" "2024-01-01" "completed" "json")
              Reports.monitored_page Reports.no_history Monitoring.fresh _
              Hv eq_refl)
    as (Hm & Hd & _).
  split; assumption.
Defined.

(** ** Reports: all orders, errors and performance *)

Section ReportKinds.

Import Reports.

(** *** The sort of the combined orders *)







Variables (h : Host) (w : Window) (c : Chance).


(** *** Errors *)

Lemma categorizeError_in (message : string) : In (categorizeError message) categories.
Proof.
  unfold categorizeError, categories.
  repeat match goal with
         | |- context [if ?b then _ else _] => destruct b
         end; simpl; tauto.
Qed.

Lemma group_push_spec k e groups :
  List.NoDup (map fst groups) ->
  group_total (group_push k e groups) = S (group_total groups) /\
  List.NoDup (map fst (group_push k e groups)) /\
  (forall x, In x (map fst (group_push k e groups)) <->
             x = k \/ In x (map fst groups)).
Proof.
  unfold group_total.
  induction groups as [|[k' es] rest IH]; simpl; intros Hnd.
  - split; [reflexivity|]. split.
    + apply List.NoDup_cons; [intros []|apply List.NoDup_nil].
    + intros x. intuition congruence.
  - inversion Hnd as [|? ? Hk' Hrest]; subst.
    destruct (String.eqb_spec k k') as [->|Hne]; simpl.
    + rewrite length_app. simpl. split; [lia|]. split; [exact Hnd|].
      intros x. intuition congruence.
    + destruct (IH Hrest) as (Ht & Hn & Hm). rewrite Ht.
      split; [lia|]. split.
      * apply List.NoDup_cons; [|exact Hn]. intros Hin. apply Hm in Hin as [H|H].
        -- congruence.
        -- contradiction.
      * intros x. rewrite Hm. tauto.
Qed.

Lemma group_errors_spec (errorLogs : list Monitoring.LogEntry) :
  group_total (group_errors errorLogs) = length errorLogs /\
  List.NoDup (map fst (group_errors errorLogs)) /\
  incl (map fst (group_errors errorLogs)) categories.
Proof.
  unfold group_errors.
  assert (Hgen : forall groups,
             List.NoDup (map fst groups) -> incl (map fst groups) categories ->
             group_total
               (fold_left
                  (fun groups e =>
                     group_push (categorizeError (Monitoring.message e)) e groups)
                  errorLogs groups)
             = group_total groups + length errorLogs /\
             List.NoDup (map fst (fold_left
                  (fun groups e =>
                     group_push (categorizeError (Monitoring.message e)) e groups)
                  errorLogs groups)) /\
             incl (map fst (fold_left
                  (fun groups e =>
                     group_push (categorizeError (Monitoring.message e)) e groups)
                  errorLogs groups)) categories).
  { induction errorLogs as [|e es IH]; intros groups Hnd Hincl; simpl.
    - split; [lia|]. split; assumption.
    - destruct (group_push_spec (categorizeError (Monitoring.message e)) e groups Hnd)
        as (Ht & Hn & Hm).
      destruct (IH (group_push (categorizeError (Monitoring.message e)) e groups) Hn)
        as (Ht' & Hn' & Hi').
      + intros x Hx. apply Hm in Hx as [->|Hx];
          [apply categorizeError_in | apply Hincl, Hx].
      + rewrite Ht', Ht. split; [lia|]. split; assumption. }
  destruct (Hgen [] (List.NoDup_nil _) (incl_nil_l _)) as (H1 & H2 & H3).
  split; [exact H1|]. split; assumption.
Qed.

(** X18: the errors report has one record per log entry of level 'error'
    and total_errors counts them; the entries are grouped by category, every
    entry in exactly one group, so the counts of the groups add up to
    total_errors, and there are at most six groups.  Without a monitoring
    manager the report is empty. *)
Theorem errors_report_totals (reportData : ReportData) :
  let d := generateErrorsReport h w c reportData in
  let errorLogs :=
    filter (fun e => String.eqb (Monitoring.level e) "error")
           (match monitoringManager w with
            | Some m => Monitoring.logs m
            | None => []
            end) in
  length (records d) = length errorLogs /\
  JS.get (summary d) "total_errors" = Number_nat (length (records d)) /\
  JS.get (summary d) "unique_error_types" =
    Number_nat (length (group_errors errorLogs)) /\
  group_total (group_errors errorLogs) = length errorLogs /\
  length (group_errors errorLogs) <= 6 /\
  (monitoringManager w = None ->
   records d = [] /\ JS.get (summary d) "most_common_error" = JS.Null /\
   JS.get (summary d) "error_trend" = JS.Str "stable").
Proof.
  cbn zeta. unfold generateErrorsReport. cbn [records summary].
  set (errorLogs := filter _ _).
  destruct (group_errors_spec errorLogs) as (Ht & Hn & Hi).
  rewrite !length_map.
  split; [reflexivity|]. split; [reflexivity|]. split; [reflexivity|].
  split; [exact Ht|]. split.
  - rewrite <- (length_map fst).
    apply (NoDup_incl_length Hn Hi).
  - intros Hnone. unfold errorLogs. rewrite Hnone. repeat split.
Qed.

(** *** Performance *)

(** X19: the performance report always has five records and at least one
    recommendation.  Without a monitoring manager it rates the performance
    'Needs Improvement' while its only recommendation is 'System performance
    is optimal'. *)
Theorem performance_report_shape (reportData : ReportData) :
  let d := generatePerformanceReport w reportData in
  length (records d) = 5 /\
  (exists first_ rest,
      JS.get (summary d) "recommendations" = JS.Array (JS.Str first_ :: rest)) /\
  (monitoringManager w = None ->
   summary d =
     [ ("overall_performance", JS.Str "Needs Improvement");
       ("recommendations", JS.Array [JS.Str "System performance is optimal"]) ]).
Proof.
  cbn zeta. unfold generatePerformanceReport. cbn [records summary].
  split; [reflexivity|]. split.
  - unfold JS.get. cbn [JS.assoc String.eqb Ascii.eqb Bool.eqb].
    unfold generatePerformanceRecommendations.
    match goal with
    | |- context [match ?l with [] => _ | _ :: _ => _ end] =>
        destruct l as [|x xs] eqn:Hl
    end; cbn [map]; eauto.
  - intros Hnone. rewrite Hnone. reflexivity.
Qed.

End ReportKinds.

(** ** The log and report endpoints of the server *)

Section ServerEndpoints.

Lemma or_else_truthy (a b : JS.Value) :
  JS.truthy b = true -> JS.truthy (Server.or_else a b) = true.
Proof.
  intros Hb. unfold Server.or_else. destruct (JS.truthy a) eqn:Ha; assumption.
Qed.




Lemma slice_from_suffix {A : Type} (k : Z) (l : list A) :
  exists older, l = older ++ Server.slice_from k l.
Proof.
  unfold Server.slice_from. destruct (k <? 0)%Z.
  - eexists. symmetry. apply firstn_skipn.
  - eexists. symmetry. apply firstn_skipn.
Qed.

Lemma slice_from_neg_length {A : Type} (n : Z) (l : list A) :
  (0 < n)%Z ->
  length (Server.slice_from (- n) l) = Nat.min (Z.to_nat n) (length l).
Proof.
  intros Hn. unfold Server.slice_from.
  destruct (Z.ltb_spec (- n) 0) as [_|H]; [|lia].
  rewrite length_skipn. lia.
Qed.

Lemma slice_from_zero {A : Type} (l : list A) : Server.slice_from 0 l = l.
Proof. reflexivity. Qed.

(** X21. What GET /api/monitoring/logs sends for a limit: [total] is the
    number of stored entries and the entries sent are always a final
    segment of the stored ones. Without a limit the last 20 are sent (all
    when there are fewer). A limit that reads as a positive number n gives
    the last n; one that reads as 0, or does not start with a number,
    gives every entry; a negative one, -n, gives all but the n oldest. *)
Theorem served_logs_by_limit (limit : option string) (s : Server.Storage) :
  let served := fst (Server.get_logs limit s) in
  let total := length (Server.logs s) in
  snd (Server.get_logs limit s) = total /\
  (exists older, Server.logs s = older ++ served) /\
  match limit with
  | None => length served = Nat.min 20 total
  | Some text =>
      match Server.parseInt text with
      | None => served = Server.logs s
      | Some n =>
          ((0 < n)%Z -> length served = Nat.min (Z.to_nat n) total) /\
          (n = 0%Z -> served = Server.logs s) /\
          ((n < 0)%Z -> served = skipn (Z.to_nat (- n)) (Server.logs s))
      end
  end.
Proof.
  cbn zeta. cbn [Server.get_logs fst snd]. split; [reflexivity|]. split.
  - unfold Server.last_logs.
    destruct (match limit with Some t => Server.parseInt t | None => Some 20%Z end);
      apply slice_from_suffix.
  - destruct limit as [text|].
    + unfold Server.last_logs. destruct (Server.parseInt text) as [n|].
      * split; [|split].
        -- intros Hn. now apply slice_from_neg_length.
        -- intros ->. reflexivity.
        -- intros Hn. unfold Server.slice_from.
           destruct (Z.ltb_spec (- n) 0) as [H|_]; [lia|reflexivity].
      * reflexivity.
    + unfold Server.last_logs.
      apply (slice_from_neg_length 20 (Server.logs s)). lia.
Qed.

Lemma skipn_snoc {A : Type} (k : nat) (l : list A) (x : A) :
  (k <= length l)%nat -> skipn k (l ++ [x]) = skipn k l ++ [x].
Proof.
  intros Hk. rewrite skipn_app.
  replace (k - length l)%nat with 0%nat by lia. reflexivity.
Qed.

Lemma slice_from_snoc {A : Type} (k : Z) (l : list A) (x : A) :
  (k <= Z.of_nat (length l))%Z ->
  exists older, Server.slice_from k (l ++ [x]) = older ++ [x].
Proof.
  intros Hk. unfold Server.slice_from. rewrite length_app. cbn [length].
  destruct (Z.ltb_spec k 0) as [Hneg|Hpos].
  - eexists. apply skipn_snoc. lia.
  - eexists. apply skipn_snoc. lia.
Qed.

(** X22. A posted entry is what the log endpoint serves last: after a post
    to /api/monitoring/log, GET /api/monitoring/logs reports one entry more
    and the entries it sends end with the one just posted, for every limit
    except a negative number that skips more entries than were stored
    before the post, for which nothing is sent. *)
Theorem posted_log_is_served_last (now : Z) (iso : string)
  (body : list (string * JS.Value)) (limit : option string) (s : Server.Storage) :
  let entry := Server.log_entry now iso body in
  let answer := Server.get_logs limit (Server.post_log now iso body s) in
  snd answer = S (length (Server.logs s)) /\
  ((exists older, fst answer = older ++ [entry]) \/
   (fst answer = [] /\
    exists text n, limit = Some text /\ Server.parseInt text = Some n /\
                   (n < - Z.of_nat (length (Server.logs s)))%Z)).
Proof.
  cbn zeta. cbn [Server.get_logs Server.post_log Server.logs fst snd]. split.
  - rewrite length_app. cbn [length]. lia.
  - unfold Server.last_logs.
    destruct limit as [text|].
    + destruct (Server.parseInt text) as [n|] eqn:Hp.
      * destruct (Z_lt_le_dec n (- Z.of_nat (length (Server.logs s)))) as [Hlt|Hge].
        -- right. split.
           ++ unfold Server.slice_from.
              destruct (Z.ltb_spec (- n) 0) as [H|_]; [lia|].
              apply skipn_all2. rewrite length_app. cbn [length]. lia.
           ++ exists text, n. auto.
        -- left. apply slice_from_snoc. lia.
      * left. exists (Server.logs s). reflexivity.
    + left. apply slice_from_snoc. lia.
Qed.

(** X23. A report made by POST /api/reports/generate is the last element of
    what GET /api/reports/history sends afterwards, and the log entries are
    untouched; its type and format are truthy whatever the body held; with
    a random reading in [0, 1) its record count lies between 10 and 109;
    and its download address ends with its id when the clock gave the same
    reading twice. *)
Theorem generated_report_in_history (now1 now2 : Z) (iso : string) (random : Q)
  (body : list (string * JS.Value)) (s : Server.Storage) :
  let report := fst (Server.post_report now1 now2 iso random body s) in
  let s' := snd (Server.post_report now1 now2 iso random body s) in
  Server.get_history s' = Server.get_history s ++ [report] /\
  Server.logs s' = Server.logs s /\
  JS.truthy (Server.type report) = true /\
  JS.truthy (Server.format report) = true /\
  ((0 <= random /\ random < 1)%Q ->
   (10 <= Server.record_count report <= 109)%Z) /\
  (now1 = now2 ->
   Server.download_url report = "/api/reports/download/" +:+ Server.report_id report).
Proof.
  cbn zeta. cbn [Server.post_report fst snd Server.get_history Server.reports
    Server.logs Server.make_report Server.type Server.format
    Server.record_count Server.download_url Server.report_id].
  repeat split.
  - apply or_else_truthy. reflexivity.
  - apply or_else_truthy. reflexivity.
  - destruct H as [H0 H1].
    destruct (floor_between (random * 100) 0 100) as [Hlo _].
    + change (inject_Z 0) with 0%Q. nra.
    + change (inject_Z 100) with (100 # 1)%Q. nra.
    + lia.
  - destruct H as [H0 H1].
    destruct (floor_between (random * 100) 0 100) as [_ Hhi].
    + change (inject_Z 0) with 0%Q. nra.
    + change (inject_Z 100) with (100 # 1)%Q. nra.
    + lia.
  - intros ->. reflexivity.
Qed.

End ServerEndpoints.

(** ** The export of the logs *)

Section LogExport.

Import Reports MonitoringExport.

Lemma occurs_app (c : ascii) (a b : string) :
  occurs c (a +:+ b) = occurs c a || occurs c b.
Proof.
  induction a as [|x a IH]; simpl; [reflexivity|].
  rewrite IH. now rewrite orb_assoc.
Qed.

Lemma occurs_double_quotes (c : ascii) (s : string) :
  occurs c (double_quotes s) = occurs c s.
Proof.
  induction s as [|x s IH]; cbn; [reflexivity|].
  destruct (Ascii.eqb x (ascii_of_nat 34)); cbn; rewrite IH;
    destruct (Ascii.eqb x c); reflexivity.
Qed.

Lemma csv_row_one_line (log : Monitoring.LogEntry) :
  one_line log = true -> occurs (ascii_of_nat 10) (csv_row log) = false.
Proof.
  unfold one_line, csv_row, quoted. intros H.
  repeat (apply andb_prop in H as [H ?]).
  rewrite !negb_true_iff in *.
  cbn [String.concat]. rewrite !occurs_app, occurs_double_quotes.
  repeat match goal with
         | Hx : occurs _ _ = false |- _ => rewrite Hx; clear Hx
         end.
  reflexivity.
Qed.

Lemma split_lines (l : list string) :
  l <> [] ->
  Forall (fun x => occurs (ascii_of_nat 10) x = false) l ->
  split_on (ascii_of_nat 10) (String.concat newline l) = l.
Proof.
  induction l as [|x l IH]; [contradiction|].
  intros _ Hall. inversion Hall as [|? ? Hx Hl]; subst.
  destruct l as [|y l].
  - cbn [String.concat]. apply split_on_no_sep, Hx.
  - change (String.concat newline (x :: y :: l))
      with (x +:+ String (ascii_of_nat 10) (String.concat newline (y :: l))).
    rewrite split_on_app by exact Hx.
    rewrite IH by (discriminate || assumption). reflexivity.
Qed.

(** X25. The CSV export of logs whose fields hold no line feed has one line
    for the header and one for each entry, in the order of the log: read
    line by line it gives back the header and the rows. In every row only
    the message is quoted, and the quoted text reads back as the message
    when two double quotes in a row are taken for one. *)
Theorem exported_csv_lines (logs : list Monitoring.LogEntry) :
  forallb one_line logs = true ->
  split_on (ascii_of_nat 10) (csv_content logs) =
    "Timestamp,Level,Module,Message" :: map csv_row logs /\
  length (split_on (ascii_of_nat 10) (csv_content logs)) = S (length logs) /\
  forall log, In log logs ->
    exists body,
      csv_row log =
        Monitoring.timestamp log +:+ "," +:+ Monitoring.level log +:+ ","
        +:+ Monitoring.module log +:+ "," +:+ quoted body /\
      undouble body = Monitoring.message log.
Proof.
  intros Hall.
  assert (Hsplit : split_on (ascii_of_nat 10) (csv_content logs) =
                   "Timestamp,Level,Module,Message" :: map csv_row logs).
  { unfold csv_content.
    change (String.concat "," headers) with "Timestamp,Level,Module,Message".
    apply split_lines; [discriminate|].
    constructor; [reflexivity|].
    apply List.Forall_forall. intros row Hrow.
    apply in_map_iff in Hrow as [log [<- Hin]].
    apply csv_row_one_line.
    rewrite forallb_forall in Hall. apply Hall, Hin. }
  split; [exact Hsplit|]. split.
  - rewrite Hsplit. cbn [length]. now rewrite length_map.
  - intros log _. exists (double_quotes (Monitoring.message log)).
    split; [reflexivity|apply undouble_double_quotes].
Qed.

Lemma dashes_no_colon (s : string) :
  occurs ":" (dashes s) = false /\ occurs "." (dashes s) = false.
Proof.
  induction s as [|c s [IH1 IH2]]; cbn; [split; reflexivity|].
  rewrite IH1, IH2.
  destruct (Ascii.eqb c ":") eqn:H1; [split; reflexivity|].
  destruct (Ascii.eqb c ".") eqn:H2; [split; reflexivity|].
  cbn. rewrite H1, H2. split; reflexivity.
Qed.

Lemma dashes_length (s : string) : String.length (dashes s) = String.length s.
Proof. induction s as [|c s IH]; cbn; [reflexivity|]. now rewrite IH. Qed.

(** X26. What exportLogs leaves behind, for any format: one more log entry,
    of level 'info' from the module MonitoringManager, whose message names
    the format in capitals and the file, while the call counters stay as
    they are. For 'json' and 'csv' the file is named talabat-pos-logs-,
    the timestamp with every colon and dot turned into a hyphen, and the
    format as extension. For any other format nothing is written before
    the download: the file is named 'undefined', its content is the text
    'undefined' and its type is empty. *)
Theorem exportLogs_outcome (h : Monitoring.Host) (stamp json_text format : string)
  (m : Monitoring.Manager) :
  let file := fst (exportLogs h stamp json_text format m) in
  let m' := snd (exportLogs h stamp json_text format m) in
  Monitoring.performanceData m' = Monitoring.performanceData m /\
  (exists older entry,
     Monitoring.logs m' = older ++ [entry] /\
     Monitoring.level entry = "info" /\
     Monitoring.module entry = "MonitoringManager" /\
     Monitoring.message entry =
       "Logs exported as " +:+ toUpperCase format +:+ ": " +:+ filename file) /\
  (format = "json" \/ format = "csv" ->
   filename file = "talabat-pos-logs-" +:+ dashes stamp +:+ "." +:+ format /\
   occurs ":" (dashes stamp) = false /\ occurs "." (dashes stamp) = false /\
   String.length (dashes stamp) = String.length stamp) /\
  (format = "csv" -> content file = csv_content (Monitoring.logs m)) /\
  (format <> "json" -> format <> "csv" ->
   filename file = "undefined" /\ content file = "undefined" /\
   mimeType file = EmptyString).
Proof.
  cbn zeta. unfold exportLogs.
  destruct (export_parts stamp json_text format m) as [[content_ mime_] name_] eqn:Hparts.
  cbn [fst snd filename content mimeType].
  split; [|split; [|split; [|split]]].
  - unfold Monitoring.addLog. cbn. reflexivity.
  - destruct (push_capped_last Monitoring.maxLogEntries
                (Monitoring.make_entry h
                   (Monitoring.info_log h
                      ("Logs exported as " +:+ toUpperCase format +:+ ": "
                       +:+ text_of name_)))
                (Monitoring.logs m) maxLogEntries_pos) as [older Holder].
    eexists older, _. split.
    + rewrite addLog_logs. exact Holder.
    + split; [reflexivity|]. split; [reflexivity|].
      cbn [Monitoring.make_entry Monitoring.message Monitoring.info_log
           Monitoring.in_message JS.str_or].
      reflexivity.
  - unfold export_parts in Hparts.
    intros [-> | ->]; cbn in Hparts; injection Hparts as <- <- <-;
      (split; [reflexivity|]);
      destruct (dashes_no_colon stamp) as [H1 H2];
      repeat split; auto using dashes_length.
  - intros ->. unfold export_parts in Hparts. cbn in Hparts.
    injection Hparts as <- <- <-. reflexivity.
  - intros Hj Hc. unfold export_parts in Hparts.
    apply String.eqb_neq in Hj, Hc. rewrite Hj, Hc in Hparts.
    injection Hparts as <- <- <-. repeat split.
Qed.

End LogExport.

Lemma exported_csv_lines_witness :
  length (Reports.split_on (ascii_of_nat 10)
            (MonitoringExport.csv_content
               [MonitoringExport.quoting_entry; Monitoring.numbered_entry 7]))
  = 3.
Proof.
  exact (proj1 (proj2 (exported_csv_lines
                         [MonitoringExport.quoting_entry; Monitoring.numbered_entry 7]
                         eq_refl))).
Defined.

(** ** Reports: scheduling *)

Section ReportSchedule.

Import Reports.

Variable h : Host.
Variable next_month : Z -> Z.

Lemma logActivity_not_error (c : Chance) (r : Q) (msg level_ : string)
  (w : Window) (mm : Monitoring.Manager) :
  level_ <> "error" -> level_ <> EmptyString ->
  monitoringManager w = Some mm ->
  exists mm',
    monitoringManager (logActivity c r msg level_ w) = Some mm' /\
    Monitoring.performanceData mm' = Monitoring.performanceData mm.
Proof.
  intros Hl He Hm. unfold logActivity. rewrite Hm. cbn [monitoringManager].
  eexists. split; [reflexivity|].
  unfold Monitoring.addLog, Monitoring.make_entry.
  cbn [Monitoring.level Monitoring.in_level JS.str_or].
  apply String.eqb_neq in He. rewrite He.
  apply String.eqb_neq in Hl. rewrite Hl. reflexivity.
Qed.

(** X27. What scheduleReport leaves behind. A request that passes
    validation adds exactly one schedule at the end of the list: weekly,
    active, with the parameters of the request, and due seven days after
    the clock reading, to the millisecond; the list is stored when the
    storage can be written, and a later visit then loads it back; the
    monitoring manager, when there is one, counts no failed call. A request
    that validation rejects schedules nothing and stores nothing, and the
    message shown is the validator's. *)
Theorem scheduleReport_outcome (c : Chance) (log_random : Q) (writable : bool)
  (f : Form) (w : Window) (s : Schedule) :
  let params := getReportParameters f in
  let out := scheduleReport h next_month c log_random writable f w s in
  (validateReportParameters h params = Return true ->
   (exists entry,
      scheduledReports (schedule out) = scheduledReports s ++ [entry] /\
      scheduled_params entry = params /\
      frequency entry = "weekly" /\ active entry = true /\
      nextRun entry = toISOString h (date_now c + 604800000)) /\
   (writable = true ->
    loadScheduledReports (schedule out) = scheduledReports (schedule out)) /\
   (writable = false -> stored_scheduled (schedule out) = stored_scheduled s) /\
   length (scheduling_shown out) = (if authManager w then 1 else 0) /\
   (forall mm, monitoringManager w = Some mm ->
      exists mm',
        monitoringManager (scheduling_window out) = Some mm' /\
        Monitoring.performanceData mm' = Monitoring.performanceData mm)) /\
  (forall msg, validateReportParameters h params = Throw msg ->
   schedule out = s /\
   scheduling_shown out =
     showResults w "Report Scheduling Results"
       ["❌ Report scheduling failed: " +:+ msg] "report-results").
Proof.
  cbn zeta. unfold scheduleReport. split.
  - intros ->. cbn [schedule scheduledReports stored_scheduled scheduling_shown
                    scheduling_window].
    split; [|split; [|split; [|split]]].
    + eexists. split; [reflexivity|]. repeat split.
    + intros ->. reflexivity.
    + intros ->. reflexivity.
    + unfold showResults. destruct (authManager w); reflexivity.
    + intros mm Hm. apply logActivity_not_error; [discriminate|discriminate|exact Hm].
  - intros msg ->. split; reflexivity.
Qed.

End ReportSchedule.
